(** * Flight schedule parser and query tool: validation rules and query matching

    A shallow embedding of [src/validator.py] (class [FlightValidator]),
    of [src/query_engine.py] (class [QueryEngine]) and of the per-row step of
    [CSVParser.parse_file] in [src/parser.py], with the properties the
    specification states about them.

    - Python values are the values [json.load] produces: [None], booleans,
      integers, floats, strings, lists, and dicts with string keys.  The
      validator receives the rows of [csv.DictReader], dicts from strings to
      strings.
    - A Python [str] is a Rocq [string] whose characters are read as the code
      points 0..255; the character classes ([\d], [\s], [isalnum], ...) are
      the Unicode ones on that range.
    - A float is a [spec_float] of binary64, and [float] on a string rounds
      the decimal to the nearest double.
    - Exceptions are carried by the [result] monad; [try_except] is the
      [try ... except] statement.  A [return False] in the middle of the
      matcher is the result [false] of a criterion, see [and_then]. *)

From Stdlib Require Import ZArith Bool Ascii String List Lia.
From Stdlib Require Import Floats.SpecFloat Sorting.Sorted.
From stdpp Require Import gmap strings list fin_maps.

Set Warnings "-register-all,-clear-no-such-hyp".
Local Open Scope string_scope.

(** ** Exceptions and results *)

Inductive exn := ValueError | KeyError | TypeError | AttributeError | OverflowError.

Definition exn_eqb (a b : exn) : bool :=
  match a, b with
  | ValueError, ValueError | KeyError, KeyError | TypeError, TypeError
  | AttributeError, AttributeError | OverflowError, OverflowError => true
  | _, _ => false
  end.

Inductive result (A : Type) :=
| Ret (a : A)
| Raise (e : exn).
Arguments Ret {A} a.
Arguments Raise {A} e.

#[global] Instance result_ret : MRet result := fun A a => Ret a.
#[global] Instance result_bind : MBind result := fun A B f m =>
  match m with
  | Ret a => f a
  | Raise e => Raise e
  end.

(** [try: body except (caught...): handler] *)
Definition try_except {A} (body : result A) (caught : list exn) (handler : result A)
  : result A :=
  match body with
  | Ret a => Ret a
  | Raise e => if existsb (exn_eqb e) caught then handler else Raise e
  end.

(** ** Characters *)

Definition code (c : ascii) : N := N_of_ascii c.

Definition in_range (lo hi : N) (c : ascii) : bool :=
  ((lo <=? code c) && (code c <=? hi))%N.

Definition is_digit (c : ascii) : bool := in_range 48 57 c.

(** [str.isspace] on one character, also the class [\s] of [re]. *)
Definition py_isspace (c : ascii) : bool :=
  in_range 9 13 c || in_range 28 32 c || (code c =? 133)%N || (code c =? 160)%N.

(** The characters [float] strips: C [isspace], and the non-ASCII spaces,
    which the conversion to ASCII has turned into blanks. *)
Definition float_space (c : ascii) : bool :=
  in_range 9 13 c || (code c =? 32)%N || (code c =? 133)%N || (code c =? 160)%N.

Definition char_isupper (c : ascii) : bool :=
  in_range 65 90 c || in_range 192 214 c || in_range 216 222 c.

Definition char_islower (c : ascii) : bool :=
  in_range 97 122 c || (code c =? 170)%N || (code c =? 181)%N || (code c =? 186)%N
  || in_range 223 246 c || in_range 248 255 c.

Definition char_isalpha (c : ascii) : bool :=
  in_range 65 90 c || in_range 97 122 c || (code c =? 170)%N || (code c =? 181)%N
  || (code c =? 186)%N || in_range 192 214 c || in_range 216 246 c || in_range 248 255 c.

Definition char_isnumeric (c : ascii) : bool :=
  is_digit c || (code c =? 178)%N || (code c =? 179)%N || (code c =? 185)%N
  || in_range 188 190 c.

Definition char_isalnum (c : ascii) : bool := char_isalpha c || char_isnumeric c.

Definition char_lower (c : ascii) : ascii :=
  if in_range 65 90 c || in_range 192 214 c || in_range 216 222 c
  then ascii_of_N (code c + 32) else c.

Definition chars (s : string) : list ascii := list_ascii_of_string s.

(** [str.isalnum], [str.isalpha], [str.isupper] *)
Definition isalnum (s : string) : bool :=
  negb (String.eqb s "") && forallb char_isalnum (chars s).

Definition isalpha (s : string) : bool :=
  negb (String.eqb s "") && forallb char_isalpha (chars s).

Definition isupper (s : string) : bool :=
  forallb (fun c => negb (char_islower c)) (chars s) && existsb char_isupper (chars s).

Definition digit_value (c : ascii) : Z := Z.of_N (code c) - 48.

(** [int] on a run of digits *)
Definition digits_value (ds : list ascii) : Z :=
  fold_left (fun acc c => 10 * acc + digit_value c)%Z ds 0%Z.

(** ** Floats: [float(x)]

    A Python float is an IEEE 754 binary64 number: [spec_float] at precision
    53 and maximal exponent 1024, rounded to nearest, ties to even. *)

Definition prec : Z := 53.
Definition emax : Z := 1024.

Definition float_zero : spec_float := S754_zero false.

(** The double nearest to [(-1)^neg * m * 10^e10], for [m >= 0]. *)
Definition decimal_to_float (neg : bool) (m e10 : Z) : spec_float :=
  if (m =? 0)%Z then S754_zero neg
  else if (0 <=? e10)%Z
  then binary_normalize prec emax (cond_Zopp neg (m * 10 ^ e10)) 0 neg
  else
    let '(q, e, l) := SFdiv_core_binary prec emax m 0 (10 ^ (- e10)) 0 in
    binary_round_aux prec emax neg q e l.

Fixpoint span_digits (s : list ascii) : list ascii * list ascii :=
  match s with
  | c :: s' =>
      if is_digit c then let '(ds, r) := span_digits s' in (c :: ds, r) else ([], s)
  | [] => ([], [])
  end.

Definition parse_sign (s : list ascii) : bool * list ascii :=
  match s with
  | "-"%char :: s' => (true, s')
  | "+"%char :: s' => (false, s')
  | _ => (false, s)
  end.

Definition lower_chars (s : list ascii) : list ascii := map char_lower s.

Definition chars_eqb (a b : list ascii) : bool :=
  String.eqb (string_of_list_ascii a) (string_of_list_ascii b).

(** [inf], [infinity] and [nan], in any case, after the sign *)
Definition parse_inf_or_nan (neg : bool) (s : list ascii) : option spec_float :=
  let l := lower_chars s in
  if chars_eqb l (chars "inf") || chars_eqb l (chars "infinity")
  then Some (S754_infinity neg)
  else if chars_eqb l (chars "nan") then Some S754_nan
  else None.

(** The exponent part: [e] or [E], a sign, digits.  Without a digit the
    exponent is not read and the characters are left over. *)
Definition parse_exponent (s : list ascii) : Z * list ascii :=
  match s with
  | c :: s' =>
      if Ascii.eqb c "e" || Ascii.eqb c "E" then
        let '(neg, s'') := parse_sign s' in
        let '(ds, r) := span_digits s'' in
        match ds with
        | [] => (0%Z, s)
        | _ => (cond_Zopp neg (digits_value ds), r)
        end
      else (0%Z, s)
  | [] => (0%Z, [])
  end.

(** A decimal literal: digits, a point, digits, an exponent; at least one
    digit before the exponent, and nothing left over. *)
Definition parse_decimal (neg : bool) (s : list ascii) : option spec_float :=
  let '(ip, r1) := span_digits s in
  let '(fp, r2) :=
    match r1 with
    | "."%char :: r1' => span_digits r1'
    | _ => ([], r1)
    end in
  match (ip ++ fp)%list with
  | [] => None
  | ds =>
      let '(ex, r3) := parse_exponent r2 in
      match r3 with
      | [] => Some (decimal_to_float neg (digits_value ds) (ex - Z.of_nat (List.length fp)))
      | _ => None
      end
  end.

(** Underscores are allowed between two digits only; they are removed. *)
Fixpoint strip_underscores (prev : option ascii) (s : list ascii) : option (list ascii) :=
  match s with
  | [] =>
      match prev with
      | Some "_"%char => None
      | _ => Some []
      end
  | c :: s' =>
      if Ascii.eqb c "_" then
        match prev with
        | Some p => if is_digit p then strip_underscores (Some c) s' else None
        | None => None
        end
      else
        match prev with
        | Some "_"%char =>
            if is_digit c then cons c <$> strip_underscores (Some c) s' else None
        | _ => cons c <$> strip_underscores (Some c) s'
        end
  end.

Fixpoint lstrip (p : ascii -> bool) (s : list ascii) : list ascii :=
  match s with
  | c :: s' => if p c then lstrip p s' else s
  | [] => []
  end.

Definition strip (p : ascii -> bool) (s : list ascii) : list ascii :=
  rev (lstrip p (rev (lstrip p s))).

(** [float(s)] for a string [s]; [None] is [ValueError]. *)
Definition float_of_string (s : string) : option spec_float :=
  body ← strip_underscores None (strip float_space (chars s));
  let '(neg, r) := parse_sign body in
  match parse_inf_or_nan neg r with
  | Some f => Some f
  | None => parse_decimal neg r
  end.

(** ** Python values *)

Inductive pyval :=
| PNone
| PBool (b : bool)
| PInt (z : Z)
| PFloat (f : spec_float)
| PStr (s : string)
| PList (l : list pyval)
| PDict (m : gmap string pyval).

(** [float(int)]: the nearest double, [OverflowError] beyond the range. *)
Definition float_of_int (z : Z) : result spec_float :=
  match binary_normalize prec emax z 0 false with
  | S754_infinity _ => Raise OverflowError
  | f => Ret f
  end.

Definition py_float (v : pyval) : result spec_float :=
  match v with
  | PStr s =>
      match float_of_string s with
      | Some f => Ret f
      | None => Raise ValueError
      end
  | PFloat f => Ret f
  | PInt z => float_of_int z
  | PBool b => float_of_int (if b then 1 else 0)
  | PNone | PList _ | PDict _ => Raise TypeError
  end.

(** *** Equality: the operators [==] and [!=] *)

(** A float against an integer, compared exactly. *)
Definition float_eq_int (f : spec_float) (z : Z) : bool :=
  match f with
  | S754_zero _ => (z =? 0)%Z
  | S754_finite s m e =>
      if (0 <=? e)%Z then (z =? cond_Zopp s (Z.pos m * 2 ^ e))%Z
      else (z * 2 ^ (- e) =? cond_Zopp s (Z.pos m))%Z
  | _ => false
  end.

Definition is_nan (f : spec_float) : bool :=
  match f with
  | S754_nan => true
  | _ => false
  end.

Definition int_of_bool (b : bool) : Z := if b then 1%Z else 0%Z.

(** Equality of the elements of a list or of the values of a dict: the same
    object, or equal.  The NaN of a decoded JSON text is one object, so
    inside a container it equals itself. *)
Fixpoint py_eq_in (a b : pyval) {struct a} : bool :=
  match a, b with
  | PNone, PNone => true
  | PBool x, PBool y => Bool.eqb x y
  | PBool x, PInt y => (int_of_bool x =? y)%Z
  | PInt x, PBool y => (x =? int_of_bool y)%Z
  | PBool x, PFloat y => float_eq_int y (int_of_bool x)
  | PFloat x, PBool y => float_eq_int x (int_of_bool y)
  | PInt x, PInt y => (x =? y)%Z
  | PInt x, PFloat y => float_eq_int y x
  | PFloat x, PInt y => float_eq_int x y
  | PFloat x, PFloat y => (is_nan x && is_nan y) || SFeqb x y
  | PStr x, PStr y => String.eqb x y
  | PList l1, PList l2 =>
      (fix go (l1 l2 : list pyval) : bool :=
         match l1, l2 with
         | [], [] => true
         | x :: l1', y :: l2' => py_eq_in x y && go l1' l2'
         | _, _ => false
         end) l1 l2
  | PDict m1, PDict m2 =>
      Nat.eqb (size m1) (size m2)
      && map_fold (fun k x acc =>
                     match m2 !! k with
                     | Some y => py_eq_in x y && acc
                     | None => false
                     end) true m1
  | _, _ => false
  end.

(** [a == b]: a NaN differs from every float, itself included. *)
Definition py_eq (a b : pyval) : bool :=
  match a, b with
  | PFloat x, PFloat y => SFeqb x y
  | _, _ => py_eq_in a b
  end.

Definition py_ne (a b : pyval) : bool := negb (py_eq a b).

(** *** Containers: [in], subscription and [dict.get] *)

Fixpoint is_prefix (p s : list ascii) : bool :=
  match p, s with
  | [], _ => true
  | c :: p', d :: s' => Ascii.eqb c d && is_prefix p' s'
  | _ :: _, [] => false
  end.

Fixpoint is_substring (p s : list ascii) : bool :=
  is_prefix p s ||
  match s with
  | [] => false
  | _ :: s' => is_substring p s'
  end.

(** [key in container], for a string [key] *)
Definition py_contains (key : string) (container : pyval) : result bool :=
  match container with
  | PDict m => Ret (bool_decide (is_Some (m !! key)))
  | PStr s => Ret (is_substring (chars key) (chars s))
  | PList l => Ret (existsb (py_eq_in (PStr key)) l)
  | PNone | PBool _ | PInt _ | PFloat _ => Raise TypeError
  end.

(** [container[key]], for a string [key] *)
Definition py_getitem (container : pyval) (key : string) : result pyval :=
  match container with
  | PDict m =>
      match m !! key with
      | Some v => Ret v
      | None => Raise KeyError
      end
  | _ => Raise TypeError
  end.

(** [obj.get(key)]: only a dict has the method. *)
Definition py_get (obj : pyval) (key : string) : result pyval :=
  match obj with
  | PDict m => Ret (default PNone (m !! key))
  | _ => Raise AttributeError
  end.

(** ** Dates: [datetime.strptime] *)

Record datetime := mk_datetime {
  year : Z; month : Z; day : Z; hour : Z; minute : Z
}.

Definition dt_compare (a b : datetime) : comparison :=
  match (year a ?= year b)%Z with
  | Eq =>
      match (month a ?= month b)%Z with
      | Eq =>
          match (day a ?= day b)%Z with
          | Eq =>
              match (hour a ?= hour b)%Z with
              | Eq => (minute a ?= minute b)%Z
              | c => c
              end
          | c => c
          end
      | c => c
      end
  | c => c
  end.

(** [a < b], [a > b], [a <= b], [a >= b] on datetimes *)
Definition dt_lt (a b : datetime) : bool :=
  match dt_compare a b with Lt => true | _ => false end.
Definition dt_gt (a b : datetime) : bool :=
  match dt_compare a b with Gt => true | _ => false end.
Definition dt_le (a b : datetime) : bool := negb (dt_gt a b).
Definition dt_ge (a b : datetime) : bool := negb (dt_lt a b).

Definition is_leap (y : Z) : bool :=
  ((y mod 4 =? 0) && (negb (y mod 100 =? 0) || (y mod 400 =? 0)))%Z.

Definition days_in_month (y m : Z) : Z :=
  if (m =? 2)%Z then (if is_leap y then 29 else 28)%Z
  else if ((m =? 4) || (m =? 6) || (m =? 9) || (m =? 11))%Z then 30%Z
  else 31%Z.

Inductive directive := DY | Dm | Dd | DH | DM.

Definition directive_eqb (a b : directive) : bool :=
  match a, b with
  | DY, DY | Dm, Dm | Dd, Dd | DH, DH | DM, DM => true
  | _, _ => false
  end.

(** One element of the regular expression a format compiles to: a
    directive's group, a run of white space ([\s+]), a literal character. *)
Inductive fmt_item :=
| FDir (d : directive)
| FSpaces
| FLit (c : ascii).

Definition directive_of (c : ascii) : option directive :=
  if Ascii.eqb c "Y" then Some DY
  else if Ascii.eqb c "m" then Some Dm
  else if Ascii.eqb c "d" then Some Dd
  else if Ascii.eqb c "H" then Some DH
  else if Ascii.eqb c "M" then Some DM
  else None.

(** The format as the sequence of its elements; [None] for a directive
    other than [%Y %m %d %H %M], which the program does not use. *)
Fixpoint compile_format (in_ws : bool) (fmt : list ascii) : option (list fmt_item) :=
  match fmt with
  | [] => Some []
  | c :: rest =>
      if Ascii.eqb c "%" then
        match rest with
        | d :: rest' =>
            dir ← directive_of d;
            cons (FDir dir) <$> compile_format false rest'
        | [] => None
        end
      else if py_isspace c then
        if in_ws then compile_format true rest
        else cons FSpaces <$> compile_format true rest
      else cons (FLit c) <$> compile_format false rest
  end.

Definition one (c : ascii) : ascii -> bool := Ascii.eqb c.
Definition between (lo hi : ascii) : ascii -> bool :=
  fun c => in_range (code lo) (code hi) c.

(** The alternatives of a directive's group, in the order they are tried. *)
Definition alternatives (d : directive) : list (list (ascii -> bool)) :=
  match d with
  | DY => [[is_digit; is_digit; is_digit; is_digit]]
  | Dm => [[one "1"; between "0" "2"]; [one "0"; between "1" "9"]; [between "1" "9"]]
  | Dd => [[one "3"; between "0" "1"]; [between "1" "2"; is_digit];
           [one "0"; between "1" "9"]; [between "1" "9"]; [one " "; between "1" "9"]]
  | DH => [[one "2"; between "0" "3"]; [between "0" "1"; is_digit]; [is_digit]]
  | DM => [[between "0" "5"; is_digit]; [is_digit]]
  end.

Fixpoint match_classes (cls : list (ascii -> bool)) (s : list ascii)
  : option (list ascii * list ascii) :=
  match cls, s with
  | [], _ => Some ([], s)
  | p :: cls', c :: s' =>
      if p c then
        match match_classes cls' s' with
        | Some (txt, r) => Some (c :: txt, r)
        | None => None
        end
      else None
  | _ :: _, [] => None
  end.

(** The first result among the candidates, as a backtracking matcher finds it. *)
Fixpoint first_some {A B} (f : A -> option B) (l : list A) : option B :=
  match l with
  | [] => None
  | x :: l' =>
      match f x with
      | Some y => Some y
      | None => first_some f l'
      end
  end.

Fixpoint count_spaces (s : list ascii) : nat :=
  match s with
  | c :: s' => if py_isspace c then S (count_spaces s') else 0
  | [] => 0
  end.

(** The splits of a greedy [\s+]: the longest run first, down to one. *)
Definition space_splits (s : list ascii) : list (list ascii) :=
  map (fun n => drop n s) (rev (seq 1 (count_spaces s))).

Definition found_dict := list (directive * list ascii).

(** [re.match] of the compiled format (case-insensitive) on [s]: the groups
    and the text that is left. *)
Fixpoint re_match (items : list fmt_item) (s : list ascii) (found : found_dict)
  : option (found_dict * list ascii) :=
  match items with
  | [] => Some (found, s)
  | FLit c :: k =>
      match s with
      | c' :: s' =>
          if Ascii.eqb (char_lower c) (char_lower c') then re_match k s' found else None
      | [] => None
      end
  | FSpaces :: k => first_some (fun s' => re_match k s' found) (space_splits s)
  | FDir d :: k =>
      first_some
        (fun alt =>
           match match_classes alt s with
           | Some (txt, s') => re_match k s' ((d, txt) :: found)
           | None => None
           end)
        (alternatives d)
  end.

Fixpoint group (d : directive) (found : found_dict) : option (list ascii) :=
  match found with
  | [] => None
  | (d', txt) :: found' => if directive_eqb d d' then Some txt else group d found'
  end.

(** [int] on a group of the match; the day may start with a blank. *)
Definition group_int (d : directive) (dflt : Z) (found : found_dict) : Z :=
  match group d found with
  | Some txt => digits_value (lstrip py_isspace txt)
  | None => dflt
  end.

(** [datetime.strptime(s, fmt)] on a string; [None] is [ValueError]:
    no match, unconverted data, or a date that does not exist. *)
Definition strptime_string (s fmt : string) : option datetime :=
  items ← compile_format false (chars fmt);
  '(found, rest) ← re_match items (chars s) [];
  match rest with
  | _ :: _ => None
  | [] =>
      let y := group_int DY 1900 found in
      let m := group_int Dm 1 found in
      let d := group_int Dd 1 found in
      if ((1 <=? y) && (y <=? 9999) && (1 <=? m) && (m <=? 12)
          && (1 <=? d) && (d <=? days_in_month y m))%Z
      then Some (mk_datetime y m d (group_int DH 0 found) (group_int DM 0 found))
      else None
  end.

Definition strptime (v : pyval) (fmt : string) : result datetime :=
  match v with
  | PStr s =>
      match strptime_string s fmt with
      | Some dt => Ret dt
      | None => Raise ValueError
      end
  | _ => Raise TypeError
  end.

(** ** [src/validator.py]: class [FlightValidator]

    The validator receives the rows of [csv.DictReader] after
    [CSVParser.parse_file] has stripped them: a dict from strings to strings. *)

Module FlightValidator.

Definition VALID_AIRPORTS : gset string :=
  list_to_set
    ["LHR"; "JFK"; "FRA"; "RIX"; "OSL"; "HEL"; "ARN"; "CDG"; "DXB";
     "DOH"; "SYD"; "AMS"; "LAX"; "BRU"; "ORD"; "ATL"; "DFW"; "DEN";
     "SFO"; "SEA"; "MIA"; "MCO"; "LAS"; "PHX"; "IAH"; "EWR"; "IST";
     "CLT"; "MSP"; "DTW"; "PHL"; "LGA"; "BOS"; "SLC"; "BWI"; "TPA";
     "SAN"; "PDX"; "STL"; "HNL"; "SVO"; "LON"].

Definition datetime_format : string := "%m/%d/%Y %H:%M".

Definition required_fields : list string :=
  ["flight_id"; "origin"; "destination";
   "departure_datetime"; "arrival_datetime"; "price"].

(** [flight_data[field]] *)
Definition getitem (flight_data : gmap string string) (field : string) : result string :=
  match flight_data !! field with
  | Some v => Ret v
  | None => Raise KeyError
  end.

Definition _validate_flight_id (flight_id : string) : bool :=
  if String.eqb flight_id "" then false
  else if ((String.length flight_id <? 2) || (8 <? String.length flight_id))%nat then false
  else isalnum flight_id.

Definition _validate_airport_code (code : string) : bool :=
  if String.eqb code "" then false
  else if negb (String.length code =? 3)%nat then false
  else if negb (isupper code) || negb (isalpha code) then false
  else bool_decide (code ∈ VALID_AIRPORTS).

(** [field not in flight_data or flight_data[field] == ''] *)
Definition is_missing (flight_data : gmap string string) (field : string) : bool :=
  match flight_data !! field with
  | None => true
  | Some v => String.eqb v ""
  end.

Definition missing_message (field : string) : string :=
  "missing " ++ field ++ " field".

(** The loop over [required_fields] *)
Definition check_required (flight_data : gmap string string) : list string :=
  foldl (fun errors field =>
           if is_missing flight_data field
           then (errors ++ [missing_message field])%list
           else errors)
        [] required_fields.

Definition append_if (cond : bool) (errors : list string) (msg : string) : list string :=
  if cond then (errors ++ [msg])%list else errors.

Definition validate_flight (flight_data : gmap string string)
  : result (bool * list string) :=
  let errors := check_required flight_data in
  if negb (Nat.eqb (List.length errors) 0) then Ret (false, errors)
  else
    flight_id ← getitem flight_data "flight_id";
    let errors :=
      append_if (negb (_validate_flight_id flight_id)) errors
                "invalid flight_id (must be 2-8 alphanumeric characters)" in
    origin ← getitem flight_data "origin";
    let errors :=
      append_if (negb (_validate_airport_code origin)) errors "invalid origin code" in
    destination ← getitem flight_data "destination";
    let errors :=
      append_if (negb (_validate_airport_code destination)) errors
                "invalid destination code" in
    '(departure_dt, errors) ←
      try_except
        (s ← getitem flight_data "departure_datetime";
         dt ← strptime (PStr s) datetime_format;
         mret (Some dt, errors))
        [ValueError; TypeError]
        (mret (None, errors ++ ["invalid departure datetime"])%list);
    '(arrival_dt, errors) ←
      try_except
        (s ← getitem flight_data "arrival_datetime";
         dt ← strptime (PStr s) datetime_format;
         mret (Some dt, errors))
        [ValueError; TypeError]
        (mret (None, errors ++ ["invalid arrival datetime"])%list);
    let errors :=
      match departure_dt, arrival_dt with
      | Some departure, Some arrival =>
          append_if (dt_le arrival departure) errors "arrival before departure"
      | _, _ => errors
      end in
    errors ←
      try_except
        (s ← getitem flight_data "price";
         price ← py_float (PStr s);
         mret (append_if (SFleb price float_zero) errors "negative price value"))
        [ValueError; TypeError]
        (mret (errors ++ ["invalid price format"])%list);
    mret (Nat.eqb (List.length errors) 0, errors).

Definition convert_to_typed_flight (flight_data : gmap string string) : result pyval :=
  flight_id ← getitem flight_data "flight_id";
  origin ← getitem flight_data "origin";
  destination ← getitem flight_data "destination";
  departure_datetime ← getitem flight_data "departure_datetime";
  arrival_datetime ← getitem flight_data "arrival_datetime";
  price ← (s ← getitem flight_data "price"; py_float (PStr s));
  mret (PDict (<["flight_id" := PStr flight_id]>
               (<["origin" := PStr origin]>
                (<["destination" := PStr destination]>
                 (<["departure_datetime" := PStr departure_datetime]>
                  (<["arrival_datetime" := PStr arrival_datetime]>
                   (<["price" := PFloat price]> ∅))))))).

End FlightValidator.

(** ** [src/parser.py]: the step of [CSVParser.parse_file] on one row *)

Module CSVParser.

(** Validate the row, then convert it when it is valid: the typed flight
    that joins [valid_flights], or the messages of the error record. *)
Definition validate_row (flight_data : gmap string string)
  : result (pyval + list string) :=
  '(is_valid, error_messages) ← FlightValidator.validate_flight flight_data;
  if (is_valid : bool) then
    typed_flight ← FlightValidator.convert_to_typed_flight flight_data;
    mret (inl typed_flight)
  else mret (inr error_messages).

End CSVParser.

(** ** [src/query_engine.py]: class [QueryEngine] *)

Module QueryEngine.

Definition datetime_format : string := "%Y-%m-%d %H:%M".

Definition exact_match_fields : list string := ["flight_id"; "origin"; "destination"].

(** A criterion returns [false] where the method executes [return False]. *)
Definition and_then (criterion rest : result bool) : result bool :=
  ok ← criterion; if (ok : bool) then rest else mret false.

Fixpoint exact_match_loop (fields : list string) (flight query : pyval) : result bool :=
  match fields with
  | [] => mret true
  | field :: rest =>
      present ← py_contains field query;
      if (present : bool) then
        a ← py_get flight field;
        b ← py_getitem query field;
        if py_ne a b then mret false else exact_match_loop rest flight query
      else exact_match_loop rest flight query
  end.

Definition departure_criterion (flight query : pyval) : result bool :=
  present ← py_contains "departure_datetime" query;
  if (present : bool) then
    try_except
      (qv ← py_getitem query "departure_datetime";
       query_dt ← strptime qv datetime_format;
       fv ← py_getitem flight "departure_datetime";
       flight_dt ← strptime fv datetime_format;
       mret (negb (dt_lt flight_dt query_dt)))
      [ValueError; KeyError]
      (mret false)
  else mret true.

Definition arrival_criterion (flight query : pyval) : result bool :=
  present ← py_contains "arrival_datetime" query;
  if (present : bool) then
    try_except
      (qv ← py_getitem query "arrival_datetime";
       query_dt ← strptime qv datetime_format;
       fv ← py_getitem flight "arrival_datetime";
       flight_dt ← strptime fv datetime_format;
       mret (negb (dt_gt flight_dt query_dt)))
      [ValueError; KeyError]
      (mret false)
  else mret true.

Definition price_criterion (flight query : pyval) : result bool :=
  present ← py_contains "price" query;
  if (present : bool) then
    try_except
      (qv ← py_getitem query "price";
       query_price ← py_float qv;
       fv ← py_getitem flight "price";
       flight_price ← py_float fv;
       mret (negb (SFltb query_price flight_price)))
      [ValueError; KeyError]
      (mret false)
  else mret true.

Definition _flight_matches_query (flight query : pyval) : result bool :=
  and_then (exact_match_loop exact_match_fields flight query)
    (and_then (departure_criterion flight query)
       (and_then (arrival_criterion flight query)
          (and_then (price_criterion flight query)
             (mret true)))).

(** The loop of [execute_query], with the list [matches] it appends to. *)
Fixpoint execute_loop (flights : list pyval) (query : pyval) (matches : list pyval)
  : result (list pyval) :=
  match flights with
  | [] => mret matches
  | flight :: rest =>
      ok ← _flight_matches_query flight query;
      execute_loop rest query (if (ok : bool) then (matches ++ [flight])%list else matches)
  end.

Definition execute_query (flights : list pyval) (query : pyval) : result (list pyval) :=
  execute_loop flights query [].

(** [{'query': query, 'matches': matches}] *)
Definition query_result (query : pyval) (matches : list pyval) : pyval :=
  PDict (<["query" := query]> (<["matches" := PList matches]> ∅)).

Fixpoint results_loop (flights : list pyval) (queries : list pyval) (results : list pyval)
  : result (list pyval) :=
  match queries with
  | [] => mret results
  | query :: rest =>
      matches ← execute_query flights query;
      results_loop flights rest (results ++ [query_result query matches])%list
  end.

(** [execute_queries_from_file], from the value [json.load] has decoded. *)
Definition execute_queries_from_file (flights : list pyval) (queries : pyval)
  : result (list pyval) :=
  match queries with
  | PDict _ => results_loop flights [queries] []
  | PList l => results_loop flights l []
  | _ => Raise ValueError
  end.

End QueryEngine.


(** ** [src/parser.py]: the loops of [CSVParser.parse_file] and
    [CSVParser.parse_directory]

    Reading the file and [csv.DictReader] are the library's; the loop of
    [parse_file] is modelled on the pairs that [zip(lines[1:], reader)]
    yields: a raw line with the row that stands at the same position among
    the rows of the reader.  The reader passes over the lines that are
    empty, so the row of a pair need not be the row of its raw line, and the
    pairs end with the shorter of the two; nothing here assumes more of the
    pairs than that they are given.  A row maps the header names to the
    fields; the reader puts the fields beyond the header in a list under the
    key [None], and [None] in the place of a field that is missing. *)

Module CSVParserFiles.

Inductive cell :=
| CStr (s : string)
| CNone
| CRest (l : list string).

Definition row : Type := list (option string * cell).

(** [s.strip()] *)
Definition py_strip (s : string) : string :=
  string_of_list_ascii (strip py_isspace (chars s)).

(** [s.startswith('#')] *)
Definition startswith_hash (s : string) : bool :=
  match s with
  | String c _ => Ascii.eqb c "#"
  | EmptyString => false
  end.

(** [v.strip() if v else '']; a list has no [strip]. *)
Definition clean_value (v : cell) : result string :=
  match v with
  | CStr s => Ret (if String.eqb s "" then "" else py_strip s)
  | CNone => Ret ""
  | CRest [] => Ret ""
  | CRest (_ :: _) => Raise AttributeError
  end.

(** [{k.strip(): v.strip() if v else '' for k, v in row.items() if k}],
    item after item, a later item replacing an earlier one of the same key *)
Fixpoint clean_row (r : row) (flight_data : gmap string string)
  : result (gmap string string) :=
  match r with
  | [] => Ret flight_data
  | (k, v) :: rest =>
      match k with
      | Some name =>
          if negb (String.eqb name "") then
            value ← clean_value v;
            clean_row rest (<[py_strip name := value]> flight_data)
          else clean_row rest flight_data
      | None => clean_row rest flight_data
      end
  end.

(** [{'line_number': line_num, 'content': content, 'reason': reason}] *)
Definition error_record (line_num : Z) (content reason : string) : gmap string pyval :=
  <["line_number" := PInt line_num]>
  (<["content" := PStr content]>
   (<["reason" := PStr reason]> ∅)).

(** [sep.join(l)] *)
Definition join (sep : string) (l : list string) : string := String.concat sep l.

Definition comment_reason : string := "comment line, ignored for data parsing".

(** The loop of [parse_file], with its counter and its two lists *)
Fixpoint parse_rows (rows : list (string * row)) (line_num : Z)
    (valid_flights : list pyval) (errors : list (gmap string pyval))
  : result (list pyval * list (gmap string pyval)) :=
  match rows with
  | [] => Ret (valid_flights, errors)
  | (raw_line, r) :: rest =>
      let line_num := (line_num + 1)%Z in
      if String.eqb (py_strip raw_line) "" then
        parse_rows rest line_num valid_flights errors
      else if startswith_hash (py_strip raw_line) then
        parse_rows rest line_num valid_flights
          (errors ++ [error_record line_num (py_strip raw_line) comment_reason])%list
      else
        flight_data ← clean_row r ∅;
        '(is_valid, error_messages) ← FlightValidator.validate_flight flight_data;
        if (is_valid : bool) then
          typed_flight ← FlightValidator.convert_to_typed_flight flight_data;
          parse_rows rest line_num (valid_flights ++ [typed_flight])%list errors
        else
          parse_rows rest line_num valid_flights
            (errors ++ [error_record line_num (py_strip raw_line)
                                     (join ", " error_messages)])%list
  end.

(** What [parse_file] gives: the two lists, or the [Exception] its handler
    raises in the place of the exception [cause] of the loop. *)
Inductive parsed :=
| Parsed (valid_flights : list pyval) (errors : list (gmap string pyval))
| ParsingFailed (cause : exn).

Definition parse_file (rows : list (string * row)) : parsed :=
  match parse_rows rows 1 [] [] with
  | Ret (valid_flights, errors) => Parsed valid_flights errors
  | Raise e => ParsingFailed e
  end.

(** The loop of [parse_directory] over the files, in their sorted order:
    each file's name with its rows. *)
Fixpoint parse_files (files : list (string * list (string * row)))
    (all_valid_flights : list pyval) (all_errors : list (gmap string pyval)) : parsed :=
  match files with
  | [] => Parsed all_valid_flights all_errors
  | (name, rows) :: rest =>
      match parse_file rows with
      | Parsed valid_flights errors =>
          parse_files rest
            (all_valid_flights ++ valid_flights)%list
            (all_errors ++ (insert "filename" (PStr name) <$> errors))%list
      | ParsingFailed e => ParsingFailed e
      end
  end.

Definition parse_directory (files : list (string * list (string * row))) : parsed :=
  parse_files files [] [].

End CSVParserFiles.

(** ** [src/parser.py]: [JSONParser.load], from the decoded file *)

Module JSONParser.

Definition load (data : pyval) : result (list pyval) :=
  match data with
  | PList flights => Ret flights
  | _ => Raise ValueError
  end.

End JSONParser.

(** * The validation rules *)

(** ** What the specification says, in its words *)

(** A required field is missing when it is absent or empty. *)
Definition absent_or_empty (raw : gmap string string) (field : string) : Prop :=
  raw !! field = None ∨ raw !! field = Some "".

#[global] Instance absent_or_empty_dec raw field : Decision (absent_or_empty raw field).
Proof. unfold absent_or_empty. apply _. Defined.

(** One reason per missing field, in the order of the required fields. *)
Definition missing_reasons (raw : gmap string string) : list string :=
  (λ field, "missing " ++ field ++ " field") <$>
    filter (absent_or_empty raw) FlightValidator.required_fields.

(** The six required fields are present and not empty, with these values. *)
Record complete (raw : gmap string string)
    (flight_id origin destination departure arrival price : string) : Prop := {
  has_flight_id : raw !! "flight_id" = Some flight_id;
  has_origin : raw !! "origin" = Some origin;
  has_destination : raw !! "destination" = Some destination;
  has_departure : raw !! "departure_datetime" = Some departure;
  has_arrival : raw !! "arrival_datetime" = Some arrival;
  has_price : raw !! "price" = Some price;
  flight_id_not_empty : flight_id ≠ "";
  origin_not_empty : origin ≠ "";
  destination_not_empty : destination ≠ "";
  departure_not_empty : departure ≠ "";
  arrival_not_empty : arrival ≠ "";
  price_not_empty : price ≠ ""
}.

Definition storage_format : string := "%m/%d/%Y %H:%M".
Definition query_format : string := "%Y-%m-%d %H:%M".

Definition reason_if (failed : bool) (msg : string) : list string :=
  if failed then [msg] else [].

(** Step 2, in the words of the specification: the length is between 2 and
    8 inclusive and every character is alphanumeric, a letter or a digit as
    [str.isalnum] classes the characters. *)
Definition flight_id_shape (flight_id : string) : bool :=
  (2 <=? String.length flight_id)%nat && (String.length flight_id <=? 8)%nat
  && forallb char_isalnum (chars flight_id).

(** The allow-list of airport codes, as the specification lists it *)
Definition allowed_airports : list string :=
  ["LHR"; "JFK"; "FRA"; "RIX"; "OSL"; "HEL"; "ARN"; "CDG"; "DXB"; "DOH"; "SYD";
   "AMS"; "LAX"; "BRU"; "ORD"; "ATL"; "DFW"; "DEN"; "SFO"; "SEA"; "MIA"; "MCO";
   "LAS"; "PHX"; "IAH"; "EWR"; "IST"; "CLT"; "MSP"; "DTW"; "PHL"; "LGA"; "BOS";
   "SLC"; "BWI"; "TPA"; "SAN"; "PDX"; "STL"; "HNL"; "SVO"; "LON"].

(** An uppercase letter, [A] to [Z] *)
Definition uppercase_letter (c : ascii) : bool := in_range 65 90 c.

(** Step 3, in the words of the specification: exactly 3 characters, all of
    them uppercase letters, and the code is a member of the allow-list. *)
Definition airport_rule (code : string) : bool :=
  (String.length code =? 3)%nat && forallb uppercase_letter (chars code)
  && bool_decide (code ∈ allowed_airports).

(** Steps 2 and 3: the shape of the flight id, the two airport codes *)
Definition flight_id_reasons (flight_id : string) : list string :=
  reason_if (negb (flight_id_shape flight_id))
            "invalid flight_id (must be 2-8 alphanumeric characters)".

Definition origin_reasons (origin : string) : list string :=
  reason_if (negb (airport_rule origin)) "invalid origin code".

Definition destination_reasons (destination : string) : list string :=
  reason_if (negb (airport_rule destination)) "invalid destination code".

(** Step 4: each datetime parses; when both do, arrival is strictly later. *)
Definition departure_reasons (departure : string) : list string :=
  match strptime_string departure storage_format with
  | Some _ => []
  | None => ["invalid departure datetime"]
  end.

Definition arrival_reasons (arrival : string) : list string :=
  match strptime_string arrival storage_format with
  | Some _ => []
  | None => ["invalid arrival datetime"]
  end.

Definition ordering_reasons (departure arrival : string) : list string :=
  match strptime_string departure storage_format,
        strptime_string arrival storage_format with
  | Some d, Some a => reason_if (dt_le a d) "arrival before departure"
  | _, _ => []
  end.

(** Step 5: the price parses, and is not less than or equal to zero. *)
Definition price_reasons (price : string) : list string :=
  match float_of_string price with
  | None => ["invalid price format"]
  | Some p => reason_if (SFleb p float_zero) "negative price value"
  end.

(** Steps 2 to 5, accumulated in their order *)
Definition accumulated_reasons
    (flight_id origin destination departure arrival price : string) : list string :=
  (flight_id_reasons flight_id ++ origin_reasons origin
   ++ destination_reasons destination
   ++ departure_reasons departure ++ arrival_reasons arrival
   ++ ordering_reasons departure arrival
   ++ price_reasons price)%list.

(** The typed record of an accepted row *)
Definition typed_flight
    (flight_id origin destination departure arrival : string) (price : spec_float)
  : pyval :=
  PDict (<["flight_id" := PStr flight_id]>
         (<["origin" := PStr origin]>
          (<["destination" := PStr destination]>
           (<["departure_datetime" := PStr departure]>
            (<["arrival_datetime" := PStr arrival]>
             (<["price" := PFloat price]> ∅)))))).

(** [price > 0] *)
Definition positive (p : spec_float) : bool := SFltb float_zero p.

(** ** The example of the specification *)

Definition sample_row : gmap string string :=
  <["flight_id" := "AB12"]>
  (<["origin" := "LHR"]>
   (<["destination" := "JFK"]>
    (<["departure_datetime" := "01/15/2025 10:00"]>
     (<["arrival_datetime" := "01/15/2025 18:00"]>
      (<["price" := "450.0"]> ∅))))).

(** The double 450.0 *)
Definition price_450 : spec_float := S754_finite false 7916483719987200 (-44).

Definition sample_flight : pyval :=
  typed_flight "AB12" "LHR" "JFK" "01/15/2025 10:00" "01/15/2025 18:00" price_450.

(** Rows that differ from the example in one or two fields *)
Definition row_without_origin : gmap string string :=
  <["price" := ""]> (delete "origin" sample_row).

Definition row_without_price : gmap string string :=
  <["arrival_datetime" := "01/15/2025 09:00"]> (delete "price" sample_row).

Definition row_arriving_early : gmap string string :=
  <["arrival_datetime" := "01/15/2025 09:00"]> sample_row.

Definition row_priced_nan : gmap string string := <["price" := "nan"]> sample_row.

(** A complete row that fails three checks: the flight id has one
    character that is not alphanumeric, the origin is not a known airport,
    the price is negative. *)
Definition row_with_three_faults : gmap string string :=
  <["flight_id" := "!"]> (<["origin" := "XXX"]> (<["price" := "-10"]> sample_row)).

(** * The query matcher *)

(** ** What the specification says, in its words *)

(** A datetime value of a query or of a record, parsed with the query
    format; what does not parse is [None]. *)
Definition as_datetime (v : pyval) : option datetime :=
  match v with
  | PStr s => strptime_string s query_format
  | _ => None
  end.

(** A price coerced to a real number; what cannot be coerced is [None]. *)
Definition as_float (v : pyval) : option spec_float :=
  match py_float v with
  | Ret f => Some f
  | Raise _ => None
  end.

(** Exact equality against the record's field, for a key of the query *)
Definition spec_exact (record query : gmap string pyval) (field : string) : bool :=
  match query !! field with
  | None => true
  | Some v => py_eq (default PNone (record !! field)) v
  end.

(** The record departs at the query's value or later; fail closed. *)
Definition spec_departure (record query : gmap string pyval) : bool :=
  match query !! "departure_datetime" with
  | None => true
  | Some qv =>
      match as_datetime qv, record !! "departure_datetime" ≫= as_datetime with
      | Some query_dt, Some flight_dt => dt_ge flight_dt query_dt
      | _, _ => false
      end
  end.

(** The record arrives at the query's value or earlier; fail closed. *)
Definition spec_arrival (record query : gmap string pyval) : bool :=
  match query !! "arrival_datetime" with
  | None => true
  | Some qv =>
      match as_datetime qv, record !! "arrival_datetime" ≫= as_datetime with
      | Some query_dt, Some flight_dt => dt_le flight_dt query_dt
      | _, _ => false
      end
  end.

(** [a <= b] on floats, as the negation of [a > b] *)
Definition float_le (a b : spec_float) : bool := negb (SFltb b a).

(** The record's price is at most the query's value; fail closed. *)
Definition spec_price (record query : gmap string pyval) : bool :=
  match query !! "price" with
  | None => true
  | Some qv =>
      match as_float qv, record !! "price" ≫= as_float with
      | Some query_price, Some flight_price => float_le flight_price query_price
      | _, _ => false
      end
  end.

(** All the criteria of the keys that are present *)
Definition spec_matches (record query : gmap string pyval) : bool :=
  forallb (spec_exact record query) ["flight_id"; "origin"; "destination"]
  && spec_departure record query
  && spec_arrival record query
  && spec_price record query.

(** An order-preserving filter by a test that may raise *)
Fixpoint filter_result {A} (test : A → result bool) (l : list A) : result (list A) :=
  match l with
  | [] => Ret []
  | x :: l' =>
      ok ← test x;
      rest ← filter_result test l';
      Ret (if (ok : bool) then x :: rest else rest)
  end.

(** One result per query, in order, each pairing the query with its matches *)
Fixpoint results_of (flights queries : list pyval) : result (list pyval) :=
  match queries with
  | [] => Ret []
  | query :: rest =>
      matches ← QueryEngine.execute_query flights query;
      others ← results_of flights rest;
      Ret (QueryEngine.query_result query matches :: others)
  end.

(** ** Values of the expected types *)

(** The datetime under [key], when present, is a string. *)
Definition string_or_absent (m : gmap string pyval) (key : string) : Prop :=
  match m !! key with
  | Some (PStr _) | None => True
  | Some _ => False
  end.

(** [float(v)] returns or raises [ValueError]: [v] is a string, a float, a
    boolean, or an integer in the range of the floats. *)
Definition coercible (v : pyval) : Prop :=
  match py_float v with
  | Ret _ | Raise ValueError => True
  | Raise _ => False
  end.

Definition price_coercible (m : gmap string pyval) : Prop :=
  match m !! "price" with
  | Some v => coercible v
  | None => True
  end.

Record well_typed (m : gmap string pyval) : Prop := {
  departure_typed : string_or_absent m "departure_datetime";
  arrival_typed : string_or_absent m "arrival_datetime";
  price_typed : price_coercible m
}.

Definition is_dict (v : pyval) : bool :=
  match v with
  | PDict _ => true
  | _ => false
  end.

(** ** Sample queries and records *)

Definition sample_record : gmap string pyval :=
  <["flight_id" := PStr "AB12"]>
  (<["origin" := PStr "LHR"]>
   (<["destination" := PStr "JFK"]>
    (<["departure_datetime" := PStr "01/15/2025 10:00"]>
     (<["arrival_datetime" := PStr "01/15/2025 18:00"]>
      (<["price" := PFloat price_450]> ∅))))).

(** [{"origin": "LHR", "price": 500}] *)
Definition query_origin_price : gmap string pyval :=
  <["origin" := PStr "LHR"]> (<["price" := PInt 500]> ∅).

(** [{"departure_datetime": 20250116}] *)
Definition query_departure_number : gmap string pyval :=
  <["departure_datetime" := PInt 20250116]> ∅.

(** [{"departure_datetime": null}] and [{"arrival_datetime": null}] *)
Definition query_departure_null : gmap string pyval :=
  <["departure_datetime" := PNone]> ∅.
Definition query_arrival_null : gmap string pyval :=
  <["arrival_datetime" := PNone]> ∅.

(** [{"price": null}] *)
Definition query_price_null : gmap string pyval := <["price" := PNone]> ∅.

(** [{"flight_id": null}] *)
Definition query_flight_id_null : gmap string pyval := <["flight_id" := PNone]> ∅.

(** [{"departure_datetime": "2025-01-16 00:00"}] *)
Definition query_departure : gmap string pyval :=
  <["departure_datetime" := PStr "2025-01-16 00:00"]> ∅.

(** The record of the example without its flight id *)
Definition record_without_flight_id : gmap string pyval := delete "flight_id" sample_record.

(** The record of the example without its price *)
Definition record_without_price : gmap string pyval := delete "price" sample_record.

(** The test returned [True]. *)
Definition returns_true (m : result bool) : bool :=
  match m with
  | Ret true => true
  | _ => false
  end.

(** The six fields a query may name *)
Definition query_fields : list string :=
  ["flight_id"; "origin"; "destination"; "departure_datetime"; "arrival_datetime"; "price"].

Definition is_list (v : pyval) : bool :=
  match v with
  | PList _ => true
  | _ => false
  end.

(** * Accepted flights, rows and files: what the further properties speak of *)

(** What validation has checked of an accepted flight *)
Record accepted (flight_id origin destination departure arrival : string)
    (price : spec_float) : Prop := {
  accepted_flight_id : FlightValidator._validate_flight_id flight_id = true;
  accepted_origin : origin ∈ FlightValidator.VALID_AIRPORTS;
  accepted_destination : destination ∈ FlightValidator.VALID_AIRPORTS;
  accepted_times :
    ∃ departs arrives,
      strptime_string departure storage_format = Some departs
      ∧ strptime_string arrival storage_format = Some arrives
      ∧ dt_lt departs arrives = true;
  accepted_price : positive price = true ∨ price = S754_nan
}.

Definition is_accepted_flight (flight : pyval) : Prop :=
  ∃ flight_id origin destination departure arrival price,
    flight = typed_flight flight_id origin destination departure arrival price
    ∧ accepted flight_id origin destination departure arrival price.

(** A raw line that is blank, and one that is a comment *)
Definition is_blank (raw_line : string) : bool :=
  String.eqb (CSVParserFiles.py_strip raw_line) "".

Definition is_comment (raw_line : string) : bool :=
  negb (is_blank raw_line)
  && CSVParserFiles.startswith_hash (CSVParserFiles.py_strip raw_line).

(** The key is kept by the cleaning of the row: it is a non-empty name. *)
Definition kept_key (k : option string) : bool :=
  match k with
  | Some name => negb (String.eqb name "")
  | None => false
  end.

(** No list of surplus fields stands under a name: the reader puts it under
    the key [None]. *)
Definition row_from_reader (r : CSVParserFiles.row) : Prop :=
  ∀ k l, (k, CSVParserFiles.CRest l) ∈ r → kept_key k = true → l = [].

(** The line number of an error record *)
Definition line_number (error : gmap string pyval) : option pyval :=
  error !! "line_number".

(** Sample rows of a file: a data row, a blank line, a comment, a row with
    a negative price *)
Definition sample_csv_row : CSVParserFiles.row :=
  [(Some "flight_id", CSVParserFiles.CStr "AB12");
   (Some "origin", CSVParserFiles.CStr "LHR");
   (Some "destination", CSVParserFiles.CStr "JFK");
   (Some "departure_datetime", CSVParserFiles.CStr "01/15/2025 10:00");
   (Some "arrival_datetime", CSVParserFiles.CStr "01/15/2025 18:00");
   (Some "price", CSVParserFiles.CStr "450.0")].

Definition sample_csv_short_row : CSVParserFiles.row :=
  [(Some "flight_id", CSVParserFiles.CStr "CD34");
   (Some "origin", CSVParserFiles.CStr "LHR");
   (Some "destination", CSVParserFiles.CStr "JFK");
   (Some "departure_datetime", CSVParserFiles.CStr "01/15/2025 10:00");
   (Some "arrival_datetime", CSVParserFiles.CStr "01/15/2025 18:00");
   (Some "price", CSVParserFiles.CNone)].

Definition sample_lines : list (string * CSVParserFiles.row) :=
  [("AB12,LHR,JFK,01/15/2025 10:00,01/15/2025 18:00,450.0", sample_csv_row);
   ("# a comment", sample_csv_row);
   ("   ", sample_csv_row);
   ("CD34,LHR,JFK,01/15/2025 10:00,01/15/2025 18:00", sample_csv_short_row)].

(** What the loop of [parse_file] does with one row: nothing, or a flight
    for [valid_flights], or a record for [errors] *)
Inductive row_outcome :=
| Skipped
| Accepted (flight : pyval)
| Reported (error : gmap string pyval).

Definition row_outcome_of (line_num : Z) (raw_line : string) (r : CSVParserFiles.row)
  : result row_outcome :=
  if is_blank raw_line then Ret Skipped
  else if is_comment raw_line then
    Ret (Reported (CSVParserFiles.error_record line_num
                     (CSVParserFiles.py_strip raw_line) CSVParserFiles.comment_reason))
  else
    flight_data ← CSVParserFiles.clean_row r ∅;
    outcome ← CSVParser.validate_row flight_data;
    Ret (match outcome with
         | inl flight => Accepted flight
         | inr reasons =>
             Reported (CSVParserFiles.error_record line_num
                         (CSVParserFiles.py_strip raw_line)
                         (CSVParserFiles.join ", " reasons))
         end).

(** The flights and the error records of a list of outcomes, in order *)
Definition flights_of (outcomes : list row_outcome) : list pyval :=
  omap (λ o, match o with Accepted flight => Some flight | _ => None end) outcomes.

Definition errors_of (outcomes : list row_outcome) : list (gmap string pyval) :=
  omap (λ o, match o with Reported error => Some error | _ => None end) outcomes.

(** The outcomes of the rows from line [line_num + 1] on *)
Fixpoint outcomes_of (line_num : Z) (rows : list (string * CSVParserFiles.row))
  : result (list row_outcome) :=
  match rows with
  | [] => Ret []
  | (raw_line, r) :: rest =>
      outcome ← row_outcome_of (line_num + 1) raw_line r;
      others ← outcomes_of (line_num + 1) rest;
      Ret (outcome :: others)
  end.

(** The record [e1] is of an earlier line than [e2]. *)
Definition line_before (e1 e2 : gmap string pyval) : Prop :=
  ∃ a b, line_number e1 = Some (PInt a) ∧ line_number e2 = Some (PInt b) ∧ (a < b)%Z.

(** The reason that the loop records for a pair: that of a comment when the
    raw line is one, and else the reasons of the validation of the cleaned
    row of the pair, joined. *)
Definition reason_of_pair (raw_line : string) (r : CSVParserFiles.row)
    (reason : string) : Prop :=
  if is_comment raw_line then reason = CSVParserFiles.comment_reason
  else ∃ cleaned reasons,
         CSVParserFiles.clean_row r ∅ = Ret cleaned
         ∧ FlightValidator.validate_flight cleaned = Ret (false, reasons)
         ∧ reason = CSVParserFiles.join ", " reasons.

(** The record is that of the pair at position [i] of the pairs: the raw
    line of the pair is not blank, and the record has the line number
    [i + 2] (the header is line 1), the stripped raw line of the pair and
    the reason of the pair, and nothing else. *)
Definition record_of_pair (rows : list (string * CSVParserFiles.row))
    (error : gmap string pyval) : Prop :=
  ∃ (i : nat) raw_line r reason,
    rows !! i = Some (raw_line, r)
    ∧ is_blank raw_line = false
    ∧ reason_of_pair raw_line r reason
    ∧ error = CSVParserFiles.error_record (Z.of_nat i + 2)
                (CSVParserFiles.py_strip raw_line) reason.

(** The field [value] under [key] comes from an item of the row: an item
    with a non-empty name that strips to [key] and a value that cleans to
    [value]. *)
Definition from_item (r : CSVParserFiles.row) (key value : string) : Prop :=
  ∃ name v, (Some name, v) ∈ r ∧ name ≠ "" ∧ key = CSVParserFiles.py_strip name
            ∧ CSVParserFiles.clean_value v = Ret value.

(** The value [v'] under [key] is a threshold that is not stricter than [v]:
    an earlier departure, a later arrival, a higher price; both values are
    of those the criterion converts. *)
Definition relaxes (key : string) (v v' : pyval) : Prop :=
  (key = "departure_datetime"
   ∧ ∃ t t', strptime v QueryEngine.datetime_format = Ret t
             ∧ strptime v' QueryEngine.datetime_format = Ret t'
             ∧ dt_le t' t = true)
  ∨ (key = "arrival_datetime"
     ∧ ∃ t t', strptime v QueryEngine.datetime_format = Ret t
               ∧ strptime v' QueryEngine.datetime_format = Ret t'
               ∧ dt_le t t' = true)
  ∨ (key = "price"
     ∧ ∃ p p', py_float v = Ret p ∧ py_float v' = Ret p' ∧ SFleb p p' = true).

(** ** The monad *)

Lemma bind_Ret {A B} (a : A) (f : A → result B) : (Ret a ≫= f) = f a.
Proof. reflexivity. Qed.

Lemma bind_Raise {A B} (e : exn) (f : A → result B) : (Raise e ≫= f) = Raise e.
Proof. reflexivity. Qed.

Lemma bind_returns {A B} (m : result A) (f : A → result B) (b : B) :
  m ≫= f = Ret b → ∃ a, m = Ret a ∧ f a = Ret b.
Proof. destruct m as [a|e]; [eauto | discriminate]. Qed.

Ltac monad_step :=
  repeat first
    [ rewrite bind_Ret | rewrite bind_Raise
    | progress cbn beta iota
    | progress cbn [try_except existsb exn_eqb orb mret result_ret] ].

(** ** The embedding on the examples of the specification *)

Example float_450 : float_of_string "450.0" = Some price_450.
Proof. reflexivity. Qed.

Example float_minus_ten :
  float_of_string "-10" = Some (S754_finite true 5629499534213120 (-49))
  ∧ SFleb (S754_finite true 5629499534213120 (-49)) float_zero = true.
Proof. split; reflexivity. Qed.

Example float_underflows_to_zero : float_of_string "1e-400" = Some (S754_zero false).
Proof. reflexivity. Qed.

Example float_rejects_text :
  float_of_string "abc" = None ∧ float_of_string "" = None ∧ float_of_string "1e" = None.
Proof. repeat split; reflexivity. Qed.

Example float_of_large_int : float_of_int (10 ^ 400) = Raise OverflowError.
Proof. vm_compute. reflexivity. Qed.

Example strptime_storage :
  strptime_string "01/15/2025 10:00" storage_format = Some (mk_datetime 2025 1 15 10 0).
Proof. reflexivity. Qed.

Example strptime_query :
  strptime_string "2025-01-16 00:00" query_format = Some (mk_datetime 2025 1 16 0 0).
Proof. reflexivity. Qed.

Example strptime_rejects :
  strptime_string "02/29/2025 10:00" storage_format = None
  ∧ strptime_string "01/15/2025 24:00" storage_format = None
  ∧ strptime_string "01/15/2025 10:00 " storage_format = None
  ∧ strptime_string "01/15/0000 10:00" storage_format = None.
Proof. repeat split; reflexivity. Qed.

Example strptime_leap_day :
  strptime_string "2/29/2024 9:05" storage_format = Some (mk_datetime 2024 2 29 9 5).
Proof. reflexivity. Qed.

Example airport_codes :
  FlightValidator._validate_airport_code "LHR" = true
  ∧ FlightValidator._validate_airport_code "XXX" = false
  ∧ FlightValidator._validate_airport_code "lhr" = false.
Proof. repeat split; vm_compute; reflexivity. Qed.

Example flight_ids :
  FlightValidator._validate_flight_id "AB12" = true
  ∧ FlightValidator._validate_flight_id "A" = false
  ∧ FlightValidator._validate_flight_id "AB-12" = false
  ∧ FlightValidator._validate_flight_id "ABCDEFGHI" = false.
Proof. repeat split; reflexivity. Qed.

Example negative_price_rejected :
  FlightValidator.validate_flight (<["price" := "-10"]> sample_row)
  = Ret (false, ["negative price value"]).
Proof. vm_compute. reflexivity. Qed.

Example example_query_matches :
  QueryEngine._flight_matches_query sample_flight (PDict query_origin_price) = Ret true.
Proof. vm_compute. reflexivity. Qed.

Example example_query_excludes :
  QueryEngine._flight_matches_query sample_flight (PDict query_departure) = Ret false.
Proof. vm_compute. reflexivity. Qed.

(** ** The required fields *)

Section Required.
Import FlightValidator.

Lemma foldl_append_if {A} (p : A → bool) (g : A → string) (l : list A) (acc : list string) :
  foldl (λ errors x, if p x then (errors ++ [g x])%list else errors) acc l
  = (acc ++ (g <$> List.filter p l))%list.
Proof.
  revert acc. induction l as [|x l IH]; intros acc; simpl.
  - by rewrite app_nil_r.
  - rewrite IH. destruct (p x); simpl; [by rewrite <- app_assoc | done].
Qed.

Lemma is_missing_spec raw field :
  is_missing raw field = bool_decide (absent_or_empty raw field).
Proof.
  unfold is_missing.
  destruct (raw !! field) as [v|] eqn:E.
  - destruct (String.eqb_spec v "") as [->|Hne]; symmetry.
    + apply bool_decide_eq_true. by right.
    + apply bool_decide_eq_false. unfold absent_or_empty. intros [?|?]; congruence.
  - symmetry. apply bool_decide_eq_true. by left.
Qed.

Lemma filter_bool_decide {A} (P : A → Prop) `{∀ x, Decision (P x)} (l : list A) :
  List.filter (λ x, bool_decide (P x)) l = filter P l.
Proof.
  induction l as [|x l IH]; [done|]. simpl. rewrite IH.
  rewrite filter_cons. by destruct (decide (P x)) as [Hp|Hp];
    [rewrite bool_decide_eq_true_2 | rewrite bool_decide_eq_false_2].
Qed.

Lemma check_required_spec raw : check_required raw = missing_reasons raw.
Proof.
  unfold check_required, missing_reasons, missing_message.
  rewrite foldl_append_if, app_nil_l. f_equal.
  rewrite <- filter_bool_decide. apply List.filter_ext. intros x.
  apply is_missing_spec.
Qed.

End Required.

(** ** The validator on complete and on incomplete rows *)

Section Validator.
Import FlightValidator.

Lemma length_zero_decide {A} `{EqDecision A} (l : list A) :
  Nat.eqb (List.length l) 0 = bool_decide (l = []).
Proof. by destruct l. Qed.

Lemma append_if_spec cond errors msg :
  append_if cond errors msg = (errors ++ reason_if cond msg)%list.
Proof. destruct cond; simpl; [done | by rewrite app_nil_r]. Qed.

(** The check of the flight id is the rule of step 2. *)
Lemma validate_flight_id_shape flight_id :
  _validate_flight_id flight_id = flight_id_shape flight_id.
Proof.
  unfold _validate_flight_id, flight_id_shape, isalnum.
  destruct (String.eqb_spec flight_id "") as [->|Hne]; [reflexivity|].
  cbn [negb andb].
  destruct (Nat.ltb_spec (String.length flight_id) 2) as [Hlt|Hge]; cbn [orb].
  - symmetry. apply andb_false_intro1, andb_false_intro1.
    apply Nat.leb_gt. exact Hlt.
  - rewrite (proj2 (Nat.leb_le _ _) Hge). cbn [andb].
    destruct (Nat.ltb_spec 8 (String.length flight_id)) as [Hlt|Hle].
    + symmetry. apply andb_false_intro1. apply Nat.leb_gt. exact Hlt.
    + by rewrite (proj2 (Nat.leb_le _ _) Hle).
Qed.

Lemma allowed_airports_are_valid code :
  code ∈ allowed_airports →
  _validate_airport_code code = true ∧ airport_rule code = true.
Proof.
  unfold allowed_airports. rewrite !elem_of_cons, elem_of_nil.
  intros H.
  repeat (destruct H as [->|H]; [split; vm_compute; reflexivity|]). done.
Qed.

(** The check of an airport code is the rule of step 3, and both are the
    membership in the allow-list. *)
Lemma validate_airport_code_rule code :
  _validate_airport_code code = airport_rule code.
Proof.
  destruct (decide (code ∈ allowed_airports)) as [Hin|Hout].
  - destruct (allowed_airports_are_valid _ Hin) as [-> ->]. reflexivity.
  - unfold airport_rule. rewrite (bool_decide_eq_false_2 _ Hout), andb_false_r.
    unfold _validate_airport_code.
    destruct (String.eqb code ""); [done|].
    destruct (negb _); [done|].
    destruct (negb (isupper code) || negb (isalpha code)); [done|].
    apply bool_decide_eq_false_2. unfold VALID_AIRPORTS.
    by rewrite elem_of_list_to_set.
Qed.

Lemma validate_flight_incomplete raw :
  missing_reasons raw ≠ [] →
  validate_flight raw = Ret (false, missing_reasons raw).
Proof.
  intros Hne. unfold validate_flight. rewrite check_required_spec.
  destruct (missing_reasons raw); [done | reflexivity].
Qed.

Lemma is_missing_false raw field v :
  raw !! field = Some v → v ≠ "" → is_missing raw field = false.
Proof.
  intros Hl Hne. unfold is_missing. rewrite Hl. by apply String.eqb_neq.
Qed.

Lemma complete_not_missing raw fid o d dep arr p :
  complete raw fid o d dep arr p → missing_reasons raw = [].
Proof.
  intros [H1 H2 H3 H4 H5 H6 N1 N2 N3 N4 N5 N6].
  rewrite <- check_required_spec. unfold check_required, required_fields.
  cbn [foldl].
  by rewrite (is_missing_false _ _ _ H1 N1), (is_missing_false _ _ _ H2 N2),
    (is_missing_false _ _ _ H3 N3), (is_missing_false _ _ _ H4 N4),
    (is_missing_false _ _ _ H5 N5), (is_missing_false _ _ _ H6 N6).
Qed.

Lemma validate_flight_complete raw fid o d dep arr p :
  complete raw fid o d dep arr p →
  validate_flight raw =
    Ret (bool_decide (accumulated_reasons fid o d dep arr p = []),
         accumulated_reasons fid o d dep arr p).
Proof.
  intros Hc. unfold validate_flight.
  rewrite check_required_spec, (complete_not_missing _ _ _ _ _ _ _ Hc).
  destruct Hc as [H1 H2 H3 H4 H5 H6 _ _ _ _ _ _].
  cbn [List.length Nat.eqb negb]. unfold getitem.
  rewrite H1, H2, H3, H4, H5, H6. unfold strptime, py_float.
  change datetime_format with storage_format.
  unfold accumulated_reasons, flight_id_reasons, origin_reasons, destination_reasons,
    departure_reasons, arrival_reasons, ordering_reasons, price_reasons.
  rewrite <- (validate_flight_id_shape fid), <- !validate_airport_code_rule.
  monad_step.
  destruct (strptime_string dep storage_format) as [dd|]; monad_step;
    (destruct (strptime_string arr storage_format) as [ad|]; monad_step);
    (destruct (float_of_string p) as [pf|]; monad_step);
    rewrite ?append_if_spec, ?length_zero_decide; cbn [reason_if];
    rewrite ?app_nil_r, ?app_nil_l, <- ?app_assoc; reflexivity.
Qed.
End Validator.

(** ** The row step of the parser *)

Section Rows.
Import FlightValidator CSVParser.

Lemma validate_row_incomplete raw :
  missing_reasons raw ≠ [] → validate_row raw = Ret (inr (missing_reasons raw)).
Proof.
  intros Hne. unfold validate_row. by rewrite (validate_flight_incomplete _ Hne).
Qed.

Lemma accumulated_nil_price fid o d dep arr p :
  accumulated_reasons fid o d dep arr p = [] →
  ∃ price, float_of_string p = Some price ∧ SFleb price float_zero = false.
Proof.
  unfold accumulated_reasons. intros H.
  repeat (apply app_eq_nil in H; destruct H as [_ H]).
  unfold price_reasons in H. destruct (float_of_string p) as [f|]; [|done].
  exists f. split; [done|]. by destruct (SFleb f float_zero).
Qed.

Lemma convert_complete raw fid o d dep arr p price :
  complete raw fid o d dep arr p → float_of_string p = Some price →
  convert_to_typed_flight raw = Ret (typed_flight fid o d dep arr price).
Proof.
  intros [H1 H2 H3 H4 H5 H6 _ _ _ _ _ _] Hp.
  unfold convert_to_typed_flight, getitem, py_float.
  rewrite H1, H2, H3, H4, H5, H6. monad_step. by rewrite Hp.
Qed.

Lemma validate_row_accepts raw fid o d dep arr p :
  complete raw fid o d dep arr p →
  accumulated_reasons fid o d dep arr p = [] →
  ∃ price, float_of_string p = Some price
           ∧ SFleb price float_zero = false
           ∧ validate_row raw = Ret (inl (typed_flight fid o d dep arr price)).
Proof.
  intros Hc Hnil. destruct (accumulated_nil_price _ _ _ _ _ _ Hnil) as (price & Hp & Hle).
  exists price. repeat split; [done..|].
  unfold validate_row. rewrite (validate_flight_complete _ _ _ _ _ _ _ Hc), Hnil.
  monad_step. by rewrite (convert_complete _ _ _ _ _ _ _ _ Hc Hp).
Qed.

Lemma validate_row_rejects raw fid o d dep arr p :
  complete raw fid o d dep arr p →
  accumulated_reasons fid o d dep arr p ≠ [] →
  validate_row raw = Ret (inr (accumulated_reasons fid o d dep arr p)).
Proof.
  intros Hc Hne. unfold validate_row.
  rewrite (validate_flight_complete _ _ _ _ _ _ _ Hc).
  by rewrite bool_decide_eq_false_2.
Qed.

Lemma is_missing_false_inv raw field :
  is_missing raw field = false → ∃ v, raw !! field = Some v ∧ v ≠ "".
Proof.
  unfold is_missing. destruct (raw !! field) as [v|]; [|done].
  intros H. exists v. split; [done|]. by apply String.eqb_neq.
Qed.

(** A row without a missing field is complete. *)
Lemma not_missing_complete raw :
  missing_reasons raw = [] → ∃ fid o d dep arr p, complete raw fid o d dep arr p.
Proof.
  rewrite <- check_required_spec. unfold check_required, required_fields.
  cbn [foldl].
  destruct (is_missing raw "flight_id") eqn:E1;
    destruct (is_missing raw "origin") eqn:E2;
    destruct (is_missing raw "destination") eqn:E3;
    destruct (is_missing raw "departure_datetime") eqn:E4;
    destruct (is_missing raw "arrival_datetime") eqn:E5;
    destruct (is_missing raw "price") eqn:E6; cbn [app]; try discriminate.
  intros _.
  destruct (is_missing_false_inv _ _ E1) as (fid & ? & ?).
  destruct (is_missing_false_inv _ _ E2) as (o & ? & ?).
  destruct (is_missing_false_inv _ _ E3) as (d & ? & ?).
  destruct (is_missing_false_inv _ _ E4) as (dep & ? & ?).
  destruct (is_missing_false_inv _ _ E5) as (arr & ? & ?).
  destruct (is_missing_false_inv _ _ E6) as (p & ? & ?).
  exists fid, o, d, dep, arr, p. by constructor.
Qed.

(** Validation returns on every row: no exception leaves it. *)
Lemma validate_flight_total raw :
  ∃ ok reasons, validate_flight raw = Ret (ok, reasons) ∧ (ok = true ↔ reasons = []).
Proof.
  destruct (decide (missing_reasons raw = [])) as [Hnil|Hne].
  - destruct (not_missing_complete _ Hnil) as (fid & o & d & dep & arr & p & Hc).
    eexists _, _. split; [apply (validate_flight_complete _ _ _ _ _ _ _ Hc)|].
    apply bool_decide_eq_true.
  - eexists _, _. split; [apply (validate_flight_incomplete _ Hne)|]. split; done.
Qed.

Lemma validate_row_total raw :
  (∃ flight, validate_row raw = Ret (inl flight))
  ∨ (∃ reasons, reasons ≠ [] ∧ validate_row raw = Ret (inr reasons)).
Proof.
  destruct (decide (missing_reasons raw = [])) as [Hnil|Hne].
  - destruct (not_missing_complete _ Hnil) as (fid & o & d & dep & arr & p & Hc).
    destruct (decide (accumulated_reasons fid o d dep arr p = [])) as [Ha|Ha].
    + left. destruct (validate_row_accepts _ _ _ _ _ _ _ Hc Ha) as (price & _ & _ & ->).
      eauto.
    + right. eexists. split; [exact Ha|]. by apply validate_row_rejects.
  - right. eexists. split; [exact Hne|]. by apply validate_row_incomplete.
Qed.

End Rows.

(** * The query matcher *)

(** ** The two formats *)

Section Formats.

Lemma compile_storage_format :
  compile_format false (chars storage_format)
  = Some [FDir Dm; FLit "/"; FDir Dd; FLit "/"; FDir DY; FSpaces;
          FDir DH; FLit ":"; FDir DM].
Proof. reflexivity. Qed.

Lemma compile_query_format :
  compile_format false (chars query_format)
  = Some [FDir DY; FLit "-"; FDir Dm; FLit "-"; FDir Dd; FSpaces;
          FDir DH; FLit ":"; FDir DM].
Proof. reflexivity. Qed.

(** A character that matches the literal [/] is not a digit. *)
Lemma slash_not_digit c :
  Ascii.eqb (char_lower "/") (char_lower c) = true → is_digit c = false.
Proof.
  destruct c as [[] [] [] [] [] [] [] []]; vm_compute; congruence.
Qed.

(** A match of [%m/...] has the slash as its second or third character. *)
Lemma month_then_slash k cs found r :
  re_match (FDir Dm :: FLit "/" :: k) cs found = Some r →
  (∃ a c rest, cs = a :: c :: rest ∧ is_digit c = false)
  ∨ (∃ a b c rest, cs = a :: b :: c :: rest ∧ is_digit c = false).
Proof.
  cbn [re_match alternatives first_some match_classes].
  destruct cs as [|a [|b tl]]; [discriminate | |].
  - destruct (one "1" a), (one "0" a), (between "1" "9" a); discriminate.
  - destruct (one "1" a), (one "0" a), (between "1" "9" a),
      (between "0" "2" b), (between "1" "9" b);
      cbn [re_match first_some match_classes]; try discriminate;
      destruct tl as [|c rest];
      cbn [re_match first_some match_classes]; try discriminate;
      repeat match goal with
        | |- context [Ascii.eqb (char_lower "/") (char_lower ?x)] =>
            destruct (Ascii.eqb (char_lower "/") (char_lower x)) eqn:?
        end;
      try discriminate; intros _;
      first [ left; eexists _, _, _; split;
              [reflexivity | apply slash_not_digit; assumption]
            | right; eexists _, _, _, _; split;
              [reflexivity | apply slash_not_digit; assumption] ].
Qed.

(** A match of [%Y...] starts with four digits. *)
Lemma year_digits k cs found r :
  re_match (FDir DY :: k) cs found = Some r →
  ∃ a b c d rest, cs = a :: b :: c :: d :: rest
                  ∧ is_digit a = true ∧ is_digit b = true
                  ∧ is_digit c = true ∧ is_digit d = true.
Proof.
  cbn [re_match alternatives first_some match_classes].
  destruct cs as [|a [|b [|c [|d rest]]]];
    try (destruct (is_digit a); try discriminate;
         try (destruct (is_digit b); try discriminate;
              try (destruct (is_digit c); discriminate)); fail).
  - discriminate.
  - destruct (is_digit a) eqn:Ea; [|discriminate].
    destruct (is_digit b) eqn:Eb; [|discriminate].
    destruct (is_digit c) eqn:Ec; [|discriminate].
    destruct (is_digit d) eqn:Ed; [|discriminate].
    intros _. by exists a, b, c, d, rest.
Qed.

(** A string in the storage format does not parse under the query format. *)
Lemma storage_string_fails_query_format s :
  is_Some (strptime_string s storage_format) →
  strptime_string s query_format = None.
Proof.
  unfold strptime_string.
  rewrite compile_storage_format, compile_query_format.
  cbn [mbind option_bind].
  destruct (re_match _ (chars s) []) as [[found rest]|] eqn:Es;
    [|by intros [? ?]].
  intros _.
  destruct (re_match (FDir DY :: _) (chars s) []) as [[found' rest']|] eqn:Eq;
    [|done].
  exfalso.
  apply year_digits in Eq as (a & b & c & d & tl & Hs & Ha & Hb & Hc & Hd).
  apply month_then_slash in Es as [(a' & c' & tl' & Hs' & Hn)|(a' & b' & c' & tl' & Hs' & Hn)];
    rewrite Hs in Hs'; simplify_eq; congruence.
Qed.

End Formats.

(** ** The criteria on a dict record and a dict query *)

Section Criteria.
Import QueryEngine.

Lemma contains_dict key (q : gmap string pyval) :
  py_contains key (PDict q) = Ret (bool_decide (is_Some (q !! key))).
Proof. reflexivity. Qed.

(** The loop over the exact-match fields never raises on dicts. *)
Lemma exact_match_loop_dict fields (r q : gmap string pyval) :
  exact_match_loop fields (PDict r) (PDict q) = Ret (forallb (spec_exact r q) fields).
Proof.
  induction fields as [|field fields IH]; [reflexivity|].
  cbn [exact_match_loop forallb]. rewrite contains_dict. monad_step.
  unfold spec_exact at 1, py_get, py_getitem, py_ne.
  destruct (q !! field) as [v|] eqn:Eq.
  - rewrite bool_decide_eq_true_2 by eauto. monad_step.
    destruct (py_eq (default PNone (r !! field)) v); [exact IH | reflexivity].
  - rewrite bool_decide_eq_false_2 by (by intros [? ?]). exact IH.
Qed.

Lemma string_or_absent_cases (m : gmap string pyval) key :
  string_or_absent m key → m !! key = None ∨ ∃ s, m !! key = Some (PStr s).
Proof.
  unfold string_or_absent. destruct (m !! key) as [[]|]; try done; eauto.
Qed.

Lemma departure_criterion_absent flight (q : gmap string pyval) :
  q !! "departure_datetime" = None → departure_criterion flight (PDict q) = Ret true.
Proof.
  intros Hq. unfold departure_criterion. rewrite contains_dict, Hq.
  by rewrite bool_decide_eq_false_2 by (by intros [? ?]).
Qed.

Lemma arrival_criterion_absent flight (q : gmap string pyval) :
  q !! "arrival_datetime" = None → arrival_criterion flight (PDict q) = Ret true.
Proof.
  intros Hq. unfold arrival_criterion. rewrite contains_dict, Hq.
  by rewrite bool_decide_eq_false_2 by (by intros [? ?]).
Qed.

Lemma price_criterion_absent flight (q : gmap string pyval) :
  q !! "price" = None → price_criterion flight (PDict q) = Ret true.
Proof.
  intros Hq. unfold price_criterion. rewrite contains_dict, Hq.
  by rewrite bool_decide_eq_false_2 by (by intros [? ?]).
Qed.

(** On strings the departure criterion is the one of the specification. *)
Lemma departure_criterion_typed (r q : gmap string pyval) :
  string_or_absent q "departure_datetime" →
  string_or_absent r "departure_datetime" →
  departure_criterion (PDict r) (PDict q) = Ret (spec_departure r q).
Proof.
  intros [Hq|[qs Hq]]%string_or_absent_cases Hr%string_or_absent_cases.
  - rewrite (departure_criterion_absent _ _ Hq). unfold spec_departure. by rewrite Hq.
  - unfold departure_criterion, spec_departure.
    rewrite contains_dict, Hq, bool_decide_eq_true_2 by eauto.
    unfold py_getitem, strptime, as_datetime. rewrite Hq. monad_step.
    change datetime_format with query_format.
    destruct (strptime_string qs query_format) as [qd|]; monad_step; [|done].
    destruct Hr as [Hr|[fs Hr]]; rewrite Hr; monad_step; [done|].
    cbn [mbind option_bind].
    by destruct (strptime_string fs query_format) as [fd|]; monad_step.
Qed.

Lemma arrival_criterion_typed (r q : gmap string pyval) :
  string_or_absent q "arrival_datetime" →
  string_or_absent r "arrival_datetime" →
  arrival_criterion (PDict r) (PDict q) = Ret (spec_arrival r q).
Proof.
  intros [Hq|[qs Hq]]%string_or_absent_cases Hr%string_or_absent_cases.
  - rewrite (arrival_criterion_absent _ _ Hq). unfold spec_arrival. by rewrite Hq.
  - unfold arrival_criterion, spec_arrival.
    rewrite contains_dict, Hq, bool_decide_eq_true_2 by eauto.
    unfold py_getitem, strptime, as_datetime. rewrite Hq. monad_step.
    change datetime_format with query_format.
    destruct (strptime_string qs query_format) as [qd|]; monad_step; [|done].
    destruct Hr as [Hr|[fs Hr]]; rewrite Hr; monad_step; [done|].
    cbn [mbind option_bind].
    by destruct (strptime_string fs query_format) as [fd|]; monad_step.
Qed.

Lemma price_criterion_typed (r q : gmap string pyval) :
  price_coercible q → price_coercible r →
  price_criterion (PDict r) (PDict q) = Ret (spec_price r q).
Proof.
  unfold price_coercible. intros Hq Hr.
  destruct (q !! "price") as [qv|] eqn:Eq.
  - unfold price_criterion, spec_price.
    rewrite contains_dict, Eq, bool_decide_eq_true_2 by eauto.
    unfold py_getitem, as_float. rewrite Eq. monad_step.
    unfold coercible in Hq.
    destruct (py_float qv) as [qf|[]]; try done; monad_step; try done.
    destruct (r !! "price") as [fv|]; monad_step; [|done].
    cbn [mbind option_bind]. unfold coercible in Hr.
    by destruct (py_float fv) as [ff|[]]; try done; monad_step.
  - rewrite (price_criterion_absent _ _ Eq). unfold spec_price. by rewrite Eq.
Qed.

(** A query datetime that is not a string raises [TypeError], whatever
    the record. *)
Lemma departure_criterion_type_error flight (q : gmap string pyval) v :
  q !! "departure_datetime" = Some v → (∀ s, v ≠ PStr s) →
  departure_criterion flight (PDict q) = Raise TypeError.
Proof.
  intros Hq Hv. unfold departure_criterion.
  rewrite contains_dict, Hq, bool_decide_eq_true_2 by eauto.
  unfold py_getitem. rewrite Hq. monad_step.
  destruct v; try reflexivity. by destruct (Hv s).
Qed.

Lemma arrival_criterion_type_error flight (q : gmap string pyval) v :
  q !! "arrival_datetime" = Some v → (∀ s, v ≠ PStr s) →
  arrival_criterion flight (PDict q) = Raise TypeError.
Proof.
  intros Hq Hv. unfold arrival_criterion.
  rewrite contains_dict, Hq, bool_decide_eq_true_2 by eauto.
  unfold py_getitem. rewrite Hq. monad_step.
  destruct v; try reflexivity. by destruct (Hv s).
Qed.

(** The matcher on values of the expected types is the conjunction of the
    criteria of the specification, and returns. *)
Lemma matches_well_typed (r q : gmap string pyval) :
  well_typed r → well_typed q →
  _flight_matches_query (PDict r) (PDict q) = Ret (spec_matches r q).
Proof.
  intros [Hr1 Hr2 Hr3] [Hq1 Hq2 Hq3]. unfold _flight_matches_query, and_then.
  rewrite exact_match_loop_dict, departure_criterion_typed,
    arrival_criterion_typed, price_criterion_typed by done.
  unfold spec_matches, exact_match_fields. monad_step.
  by destruct (forallb _ _), (spec_departure r q), (spec_arrival r q), (spec_price r q).
Qed.

End Criteria.

(** ** What a missing field does to each criterion *)

Section MissingField.
Import QueryEngine.

Lemma py_eq_None v : v ≠ PNone → py_eq PNone v = false.
Proof. by destruct v. Qed.

Lemma and_then_true c k : and_then c k = Ret true → c = Ret true ∧ k = Ret true.
Proof.
  unfold and_then. destruct c as [[]|e]; monad_step; [done | discriminate..].
Qed.

Lemma exact_missing_fails fields (r q : gmap string pyval) field v :
  field ∈ fields → q !! field = Some v → v ≠ PNone → r !! field = None →
  forallb (spec_exact r q) fields = false.
Proof.
  intros Hin Hq Hv Hr. apply not_true_is_false. intros Hall.
  rewrite forallb_forall in Hall. specialize (Hall field).
  rewrite <- list_elem_of_In in Hall. specialize (Hall Hin).
  unfold spec_exact in Hall. rewrite Hq, Hr in Hall.
  change (py_eq PNone v = true) in Hall. by rewrite py_eq_None in Hall.
Qed.

Lemma departure_missing_never_passes (r q : gmap string pyval) :
  is_Some (q !! "departure_datetime") → r !! "departure_datetime" = None →
  departure_criterion (PDict r) (PDict q) ≠ Ret true.
Proof.
  intros [qv Hq] Hr. unfold departure_criterion.
  rewrite contains_dict, Hq, bool_decide_eq_true_2 by eauto.
  unfold py_getitem. rewrite Hq, Hr. monad_step.
  by destruct (strptime qv datetime_format) as [?|[]]; monad_step.
Qed.

Lemma arrival_missing_never_passes (r q : gmap string pyval) :
  is_Some (q !! "arrival_datetime") → r !! "arrival_datetime" = None →
  arrival_criterion (PDict r) (PDict q) ≠ Ret true.
Proof.
  intros [qv Hq] Hr. unfold arrival_criterion.
  rewrite contains_dict, Hq, bool_decide_eq_true_2 by eauto.
  unfold py_getitem. rewrite Hq, Hr. monad_step.
  by destruct (strptime qv datetime_format) as [?|[]]; monad_step.
Qed.

Lemma price_missing_never_passes (r q : gmap string pyval) :
  is_Some (q !! "price") → r !! "price" = None →
  price_criterion (PDict r) (PDict q) ≠ Ret true.
Proof.
  intros [qv Hq] Hr. unfold price_criterion.
  rewrite contains_dict, Hq, bool_decide_eq_true_2 by eauto.
  unfold py_getitem. rewrite Hq, Hr. monad_step.
  by destruct (py_float qv) as [?|[]]; monad_step.
Qed.

Lemma spec_departure_missing (r q : gmap string pyval) :
  is_Some (q !! "departure_datetime") → r !! "departure_datetime" = None →
  spec_departure r q = false.
Proof.
  intros [qv Hq] Hr. unfold spec_departure. rewrite Hq, Hr.
  by destruct (as_datetime qv).
Qed.

Lemma spec_arrival_missing (r q : gmap string pyval) :
  is_Some (q !! "arrival_datetime") → r !! "arrival_datetime" = None →
  spec_arrival r q = false.
Proof.
  intros [qv Hq] Hr. unfold spec_arrival. rewrite Hq, Hr.
  by destruct (as_datetime qv).
Qed.

Lemma spec_price_missing (r q : gmap string pyval) :
  is_Some (q !! "price") → r !! "price" = None → spec_price r q = false.
Proof.
  intros [qv Hq] Hr. unfold spec_price. rewrite Hq, Hr.
  by destruct (as_float qv).
Qed.

Lemma spec_matches_missing (r q : gmap string pyval) field :
  field ∈ query_fields → is_Some (q !! field) → r !! field = None →
  (field ∈ exact_match_fields → q !! field ≠ Some PNone) →
  spec_matches r q = false.
Proof.
  intros Hin Hq Hr Hnull. unfold spec_matches.
  destruct (decide (field ∈ exact_match_fields)) as [Hex|Hex].
  - destruct Hq as [v Hq].
    rewrite (exact_missing_fails _ r q field v); [done..| |done].
    specialize (Hnull Hex). congruence.
  - unfold query_fields, exact_match_fields in *.
    assert (field = "departure_datetime" ∨ field = "arrival_datetime" ∨ field = "price")
      as [->|[->| ->]] by set_solver.
    + rewrite spec_departure_missing by done. by rewrite andb_false_r.
    + rewrite spec_arrival_missing by done. by rewrite andb_false_r.
    + rewrite spec_price_missing by done. by rewrite andb_false_r.
Qed.

End MissingField.

(** ** Executing a query *)

Section Execute.
Import QueryEngine.

(** The loop appends the matches to the list it was given. *)
Lemma execute_loop_spec flights query (matches : list pyval) :
  execute_loop flights query matches
  = rest ← filter_result (λ flight, _flight_matches_query flight query) flights;
    Ret (matches ++ rest)%list.
Proof.
  revert matches. induction flights as [|flight flights IH]; intros matches.
  - cbn [execute_loop filter_result]. monad_step. by rewrite app_nil_r.
  - cbn [execute_loop filter_result].
    destruct (_flight_matches_query flight query) as [ok|e]; monad_step; [|done].
    rewrite IH.
    destruct (filter_result _ flights) as [rest|e]; monad_step; [|done].
    destruct ok; [by rewrite <- app_assoc | done].
Qed.

Lemma execute_query_spec flights query :
  execute_query flights query
  = filter_result (λ flight, _flight_matches_query flight query) flights.
Proof.
  unfold execute_query. rewrite execute_loop_spec.
  by destruct (filter_result _ flights).
Qed.

(** When the test returns on every element, the filter is the usual one. *)
Lemma filter_result_returns {A} (test : A → result bool) (l : list A) :
  Forall (λ x, ∃ ok, test x = Ret ok) l →
  filter_result test l = Ret (List.filter (λ x, returns_true (test x)) l).
Proof.
  induction 1 as [|x l [ok Hx] _ IH]; [reflexivity|].
  cbn [filter_result List.filter]. rewrite Hx, IH. monad_step. by destruct ok.
Qed.

(** The filter returns only when the test returned on every element. *)
Lemma filter_result_inv {A} (test : A → result bool) (l res : list A) :
  filter_result test l = Ret res → Forall (λ x, ∃ ok, test x = Ret ok) l.
Proof.
  revert res. induction l as [|x l IH]; intros res; [constructor|].
  cbn [filter_result].
  destruct (test x) as [ok|e] eqn:Hx; monad_step; [|discriminate].
  destruct (filter_result test l) as [rest|e] eqn:Hl; monad_step; [|discriminate].
  intros _. constructor; eauto.
Qed.

(** A query without keys matches every record. *)
Lemma empty_query_matches flight : _flight_matches_query flight (PDict ∅) = Ret true.
Proof. reflexivity. Qed.

Lemma filter_all {A} (l : list A) : List.filter (λ _, true) l = l.
Proof. induction l as [|x l IH]; [done|]. simpl. by rewrite IH. Qed.

Lemma execute_empty_query flights : execute_query flights (PDict ∅) = Ret flights.
Proof.
  rewrite execute_query_spec, filter_result_returns.
  - f_equal. apply filter_all.
  - apply Forall_forall. intros flight _. exists true. apply empty_query_matches.
Qed.

(** Only the fields the query names are read from the record. *)
Lemma matches_depends_on_query_keys (r r' q : gmap string pyval) :
  (∀ key, is_Some (q !! key) → r !! key = r' !! key) →
  _flight_matches_query (PDict r) (PDict q) = _flight_matches_query (PDict r') (PDict q).
Proof.
  intros Hsame. unfold _flight_matches_query.
  rewrite !exact_match_loop_dict.
  assert (∀ field, spec_exact r q field = spec_exact r' q field) as Hexact.
  { intros field. unfold spec_exact.
    destruct (q !! field) as [v|] eqn:Hq; [|done]. by rewrite (Hsame field). }
  assert (forallb (spec_exact r q) exact_match_fields
          = forallb (spec_exact r' q) exact_match_fields) as ->.
  { induction exact_match_fields as [|f fs IH]; [done|].
    cbn [forallb]. by rewrite Hexact, IH. }
  assert (departure_criterion (PDict r) (PDict q)
          = departure_criterion (PDict r') (PDict q)) as ->.
  { unfold departure_criterion. rewrite contains_dict.
    destruct (q !! "departure_datetime") as [v|] eqn:Hq.
    - unfold py_getitem. by rewrite (Hsame "departure_datetime").
    - by rewrite bool_decide_eq_false_2 by (by intros [? ?]). }
  assert (arrival_criterion (PDict r) (PDict q)
          = arrival_criterion (PDict r') (PDict q)) as ->.
  { unfold arrival_criterion. rewrite contains_dict.
    destruct (q !! "arrival_datetime") as [v|] eqn:Hq.
    - unfold py_getitem. by rewrite (Hsame "arrival_datetime").
    - by rewrite bool_decide_eq_false_2 by (by intros [? ?]). }
  assert (price_criterion (PDict r) (PDict q)
          = price_criterion (PDict r') (PDict q)) as ->.
  { unfold price_criterion. rewrite contains_dict.
    destruct (q !! "price") as [v|] eqn:Hq.
    - unfold py_getitem. by rewrite (Hsame "price").
    - by rewrite bool_decide_eq_false_2 by (by intros [? ?]). }
  reflexivity.
Qed.

End Execute.

(** ** Executing the queries of a file *)

Section QueryFile.
Import QueryEngine.

Lemma results_loop_spec flights queries (results : list pyval) :
  results_loop flights queries results
  = others ← results_of flights queries; Ret (results ++ others)%list.
Proof.
  revert results. induction queries as [|query queries IH]; intros results.
  - cbn [results_loop results_of]. monad_step. by rewrite app_nil_r.
  - cbn [results_loop results_of].
    destruct (execute_query flights query) as [matches|e]; monad_step; [|done].
    rewrite IH.
    destruct (results_of flights queries) as [others|e]; monad_step; [|done].
    by rewrite <- app_assoc.
Qed.

(** A single object is a sequence of one query; a sequence is taken as it
    is; anything else is the format error. *)
Lemma execute_queries_from_file_spec flights content :
  execute_queries_from_file flights content
  = match content with
    | PDict _ => results_of flights [content]
    | PList queries => results_of flights queries
    | _ => Raise ValueError
    end.
Proof.
  destruct content; try reflexivity;
    unfold execute_queries_from_file; rewrite results_loop_spec;
    by destruct (results_of _ _).
Qed.

(** One result per query, in the order of the queries. *)
Lemma results_of_returns flights queries results :
  results_of flights queries = Ret results →
  Forall2 (λ query res,
             ∃ matches, execute_query flights query = Ret matches
                        ∧ res = query_result query matches)
          queries results.
Proof.
  revert results. induction queries as [|query queries IH]; intros results.
  - cbn [results_of]. intros [= <-]. constructor.
  - cbn [results_of].
    destruct (execute_query flights query) as [matches|e] eqn:Hq; monad_step;
      [|discriminate].
    destruct (results_of flights queries) as [others|e]; monad_step; [|discriminate].
    intros [= <-]. constructor; eauto.
Qed.

Lemma results_of_total flights queries :
  Forall (λ query, ∃ matches, execute_query flights query = Ret matches) queries →
  ∃ results, results_of flights queries = Ret results.
Proof.
  induction 1 as [|query queries [matches Hq] _ [others IH]]; [by eexists|].
  cbn [results_of]. rewrite Hq, IH. monad_step. by eexists.
Qed.

(** *** The matcher never raises [ValueError] *)

Lemma try_except_not_value_error {A} (body : result A) (a : A) :
  try_except body [ValueError; KeyError] (Ret a) ≠ Raise ValueError.
Proof. by destruct body as [?|[]]. Qed.

Lemma and_then_raise c k e :
  and_then c k = Raise e → c = Raise e ∨ k = Raise e.
Proof. unfold and_then. destruct c as [[]|e']; monad_step; auto; discriminate. Qed.

Lemma exact_match_loop_not_value_error fields flight query :
  exact_match_loop fields flight query ≠ Raise ValueError.
Proof.
  induction fields as [|field fields IH]; [done|].
  cbn [exact_match_loop].
  destruct (py_contains field query) as [[]|e] eqn:Hc; monad_step.
  - destruct (py_get flight field) as [a|e] eqn:Ha; monad_step.
    + destruct (py_getitem query field) as [b|e] eqn:Hb; monad_step.
      * by destruct (py_ne a b).
      * intros [= ->]. destruct query; try discriminate.
        unfold py_contains in Hc. unfold py_getitem in Hb.
        destruct (m !! field) eqn:Hm; [discriminate|].
        rewrite bool_decide_eq_false_2 in Hc by (by intros [? ?]). discriminate.
    + intros [= ->]. by destruct flight.
  - exact IH.
  - intros [= ->]. by destruct query.
Qed.

Lemma departure_criterion_not_value_error flight query :
  departure_criterion flight query ≠ Raise ValueError.
Proof.
  unfold departure_criterion.
  destruct (py_contains _ query) as [[]|e] eqn:Hc; monad_step.
  - apply try_except_not_value_error.
  - done.
  - intros [= ->]. by destruct query.
Qed.

Lemma arrival_criterion_not_value_error flight query :
  arrival_criterion flight query ≠ Raise ValueError.
Proof.
  unfold arrival_criterion.
  destruct (py_contains _ query) as [[]|e] eqn:Hc; monad_step.
  - apply try_except_not_value_error.
  - done.
  - intros [= ->]. by destruct query.
Qed.

Lemma price_criterion_not_value_error flight query :
  price_criterion flight query ≠ Raise ValueError.
Proof.
  unfold price_criterion.
  destruct (py_contains _ query) as [[]|e] eqn:Hc; monad_step.
  - apply try_except_not_value_error.
  - done.
  - intros [= ->]. by destruct query.
Qed.

Lemma matches_not_value_error flight query :
  _flight_matches_query flight query ≠ Raise ValueError.
Proof.
  unfold _flight_matches_query.
  intros [H|[H|[H|[H|H]%and_then_raise]%and_then_raise]%and_then_raise]%and_then_raise.
  - by apply exact_match_loop_not_value_error in H.
  - by apply departure_criterion_not_value_error in H.
  - by apply arrival_criterion_not_value_error in H.
  - by apply price_criterion_not_value_error in H.
  - discriminate.
Qed.

Lemma filter_result_raise {A} (test : A → result bool) (l : list A) e :
  filter_result test l = Raise e → ∃ x, x ∈ l ∧ test x = Raise e.
Proof.
  induction l as [|x l IH]; [discriminate|]. cbn [filter_result].
  destruct (test x) as [ok|e'] eqn:Hx; monad_step.
  - destruct (filter_result test l) as [rest|e'']; monad_step; [discriminate|].
    intros [= ->]. destruct IH as (y & Hy & Hty); [done|].
    exists y. split; [by right | done].
  - intros [= ->]. exists x. split; [by left | done].
Qed.

Lemma execute_query_not_value_error flights query :
  execute_query flights query ≠ Raise ValueError.
Proof.
  rewrite execute_query_spec. intros (flight & _ & H)%filter_result_raise.
  by apply matches_not_value_error in H.
Qed.

Lemma results_of_not_value_error flights queries :
  results_of flights queries ≠ Raise ValueError.
Proof.
  induction queries as [|query queries IH]; [done|]. cbn [results_of].
  destruct (execute_query flights query) as [matches|e] eqn:Hq; monad_step.
  - destruct (results_of flights queries) as [others|e]; monad_step; [done|].
    intros [= ->]. done.
  - intros [= ->]. by apply execute_query_not_value_error in Hq.
Qed.

(** The format error is raised exactly on a content that is neither an
    object nor a sequence. *)
Lemma format_error_iff flights content :
  execute_queries_from_file flights content = Raise ValueError
  ↔ is_dict content = false ∧ is_list content = false.
Proof.
  rewrite execute_queries_from_file_spec. split.
  - destruct content; try done; intros H; by apply results_of_not_value_error in H.
  - by destruct content; intros [? ?].
Qed.

End QueryFile.


(** ** Membership in the accumulated reasons *)

Section Reasons.
Import FlightValidator CSVParser.

Lemma elem_of_reason_if x cond msg : x ∈ reason_if cond msg ↔ cond = true ∧ x = msg.
Proof.
  destruct cond; simpl.
  - rewrite list_elem_of_singleton. naive_solver.
  - split; [by intros ?%not_elem_of_nil | by intros [? _]].
Qed.

Lemma elem_of_existsb x (l : list string) :
  x ∈ l ↔ existsb (String.eqb x) l = true.
Proof.
  rewrite existsb_exists, list_elem_of_In. split.
  - intros Hin. exists x. by rewrite String.eqb_refl.
  - intros (y & Hin & ->%String.eqb_eq). done.
Qed.

Lemma existsb_reason_if x cond msg :
  existsb (String.eqb x) (reason_if cond msg) = cond && String.eqb x msg.
Proof. destruct cond; simpl; [apply orb_false_r | done]. Qed.

Ltac eval_string_eqb :=
  repeat match goal with
    | |- context [String.eqb ?a ?b] =>
        let v := eval vm_compute in (String.eqb a b) in
        change (String.eqb a b) with v
    end.

(** Every message is a literal: membership is decided by cases on the
    three parses and by comparing the literals. *)
Ltac reason_membership dep arr p :=
  rewrite elem_of_existsb;
  unfold accumulated_reasons, flight_id_reasons, origin_reasons, destination_reasons,
    departure_reasons, arrival_reasons, ordering_reasons, price_reasons;
  destruct (strptime_string dep storage_format), (strptime_string arr storage_format),
    (float_of_string p);
  rewrite ?existsb_app, ?existsb_reason_if; cbn [existsb];
  eval_string_eqb;
  rewrite ?andb_false_r, ?andb_true_r, ?orb_false_r; cbn [orb];
  naive_solver.

Lemma departure_reason_reported fid o d dep arr p :
  "invalid departure datetime" ∈ accumulated_reasons fid o d dep arr p
  ↔ strptime_string dep storage_format = None.
Proof. reason_membership dep arr p. Qed.

Lemma arrival_reason_reported fid o d dep arr p :
  "invalid arrival datetime" ∈ accumulated_reasons fid o d dep arr p
  ↔ strptime_string arr storage_format = None.
Proof. reason_membership dep arr p. Qed.

Lemma ordering_reason_reported fid o d dep arr p :
  "arrival before departure" ∈ accumulated_reasons fid o d dep arr p
  ↔ ∃ dd ad, strptime_string dep storage_format = Some dd
             ∧ strptime_string arr storage_format = Some ad
             ∧ dt_le ad dd = true.
Proof. reason_membership dep arr p. Qed.

Lemma price_format_reason_reported fid o d dep arr p :
  "invalid price format" ∈ accumulated_reasons fid o d dep arr p
  ↔ float_of_string p = None.
Proof. reason_membership dep arr p. Qed.

Lemma price_value_reason_reported fid o d dep arr p :
  "negative price value" ∈ accumulated_reasons fid o d dep arr p
  ↔ ∃ price, float_of_string p = Some price ∧ SFleb price float_zero = true.
Proof. reason_membership dep arr p. Qed.

End Reasons.

(** * The claims on validation *)

Section ValidationClaims.
Import FlightValidator CSVParser.

(** C5: a row in which a required field is absent or empty is rejected,
    and its reasons are exactly the messages "missing <field> field" of the
    missing fields, one for each, in the order of the required fields;
    no other check contributes a reason. *)
Theorem missing_fields_short_circuit (raw : gmap string string) (field : string) :
  field ∈ required_fields → absent_or_empty raw field →
  validate_flight raw = Ret (false, missing_reasons raw)
  ∧ validate_row raw = Ret (inr (missing_reasons raw))
  ∧ missing_reasons raw =
      ((λ f, "missing " ++ f ++ " field") <$> filter (absent_or_empty raw) required_fields)
  ∧ List.length (missing_reasons raw)
      = List.length (filter (absent_or_empty raw) required_fields)
  ∧ (∀ msg, msg ∈ missing_reasons raw ↔
       ∃ f, msg = "missing " ++ f ++ " field" ∧ f ∈ required_fields
            ∧ absent_or_empty raw f).
Proof.
  intros Hin Habs.
  assert (missing_reasons raw ≠ []) as Hne.
  { unfold missing_reasons. intros Hnil%fmap_nil_inv.
    assert (field ∈ filter (absent_or_empty raw) required_fields) as Hf
      by (apply list_elem_of_filter; split; assumption).
    rewrite Hnil in Hf. by apply not_elem_of_nil in Hf. }
  split; [by apply validate_flight_incomplete|].
  split; [by apply validate_row_incomplete|].
  split; [reflexivity|].
  split; [unfold missing_reasons; by rewrite length_fmap|].
  intros msg. unfold missing_reasons. rewrite list_elem_of_fmap.
  split.
  - intros (f & -> & [Hp Hf]%list_elem_of_filter). by exists f.
  - intros (f & -> & Hf & Hp). exists f. split; [done|]. by apply list_elem_of_filter.
Qed.

Lemma missing_fields_short_circuit_witness :
  validate_flight row_without_origin
  = Ret (false, ["missing origin field"; "missing price field"]).
Proof.
  refine (proj1 (missing_fields_short_circuit row_without_origin "origin" _ _)).
  - (unfold required_fields; set_solver).
  - (left; reflexivity).
Defined.

(** C6: on a row whose six required fields are present and not empty,
    the checks of steps 2 to 5 all run and their reasons accumulate in the
    fixed order: the flight id of 2 to 8 alphanumeric characters, the
    origin and the destination of 3 uppercase letters in the allow-list,
    the two datetimes and their order, the price.  The row is accepted, as
    the typed record with the price converted to a float and the other
    fields kept, exactly when no reason was accumulated, and is rejected
    with the accumulated reasons otherwise. *)
Theorem complete_row_accumulates_reasons
    (raw : gmap string string) (fid o d dep arr p : string) :
  complete raw fid o d dep arr p →
  validate_flight raw
  = Ret (bool_decide (accumulated_reasons fid o d dep arr p = []),
         accumulated_reasons fid o d dep arr p)
  ∧ (accumulated_reasons fid o d dep arr p = [] →
     ∃ price, float_of_string p = Some price
              ∧ validate_row raw = Ret (inl (typed_flight fid o d dep arr price)))
  ∧ (accumulated_reasons fid o d dep arr p ≠ [] →
     validate_row raw = Ret (inr (accumulated_reasons fid o d dep arr p))).
Proof.
  intros Hc. split; [by apply validate_flight_complete|]. split.
  - intros Hnil.
    destruct (validate_row_accepts _ _ _ _ _ _ _ Hc Hnil) as (price & Hp & _ & Hr).
    by exists price.
  - by apply validate_row_rejects.
Qed.

Lemma sample_row_complete :
  complete sample_row "AB12" "LHR" "JFK" "01/15/2025 10:00" "01/15/2025 18:00" "450.0".
Proof. by constructor. Qed.

Lemma row_with_three_faults_complete :
  complete row_with_three_faults
    "!" "XXX" "JFK" "01/15/2025 10:00" "01/15/2025 18:00" "-10".
Proof. by constructor. Qed.

Lemma complete_row_accumulates_reasons_witness :
  validate_flight row_with_three_faults
  = Ret (false, ["invalid flight_id (must be 2-8 alphanumeric characters)";
                 "invalid origin code"; "negative price value"])
  ∧ validate_flight sample_row = Ret (true, []).
Proof.
  split.
  - exact (proj1 (complete_row_accumulates_reasons row_with_three_faults
                    "!" "XXX" "JFK" "01/15/2025 10:00" "01/15/2025 18:00" "-10"
                    row_with_three_faults_complete)).
  - exact (proj1 (complete_row_accumulates_reasons sample_row
                    "AB12" "LHR" "JFK" "01/15/2025 10:00" "01/15/2025 18:00" "450.0"
                    sample_row_complete)).
Defined.

(** C7, as it is stated, fails on a row that misses a required field: both
    datetimes of [row_without_price] parse, the arrival is before the
    departure, and the only reason is the missing price. *)
Lemma ordering_not_reported_on_incomplete_row :
  row_without_price !! "departure_datetime" = Some "01/15/2025 10:00"
  ∧ row_without_price !! "arrival_datetime" = Some "01/15/2025 09:00"
  ∧ strptime_string "01/15/2025 10:00" storage_format
    = Some (mk_datetime 2025 1 15 10 0)
  ∧ strptime_string "01/15/2025 09:00" storage_format
    = Some (mk_datetime 2025 1 15 9 0)
  ∧ dt_le (mk_datetime 2025 1 15 9 0) (mk_datetime 2025 1 15 10 0) = true
  ∧ validate_flight row_without_price = Ret (false, ["missing price field"])
  ∧ "arrival before departure" ∉ ["missing price field"].
Proof.
  repeat split; try (vm_compute; reflexivity).
  intros [E|[]%elem_of_nil]%elem_of_cons. discriminate E.
Qed.

(** C7, amended: on a row whose six required fields are present and not
    empty, validation reports "invalid departure datetime" exactly when the
    departure does not parse under the storage format, "invalid arrival
    datetime" exactly when the arrival does not parse, and "arrival before
    departure" exactly when both parse and the arrival is less than or
    equal to the departure; the row is then rejected. *)
Theorem datetime_reasons_of_complete_row
    (raw : gmap string string) (fid o d dep arr p : string) :
  complete raw fid o d dep arr p →
  ∃ ok reasons,
    validate_flight raw = Ret (ok, reasons)
    ∧ (ok = true ↔ reasons = [])
    ∧ ("invalid departure datetime" ∈ reasons
       ↔ strptime_string dep storage_format = None)
    ∧ ("invalid arrival datetime" ∈ reasons
       ↔ strptime_string arr storage_format = None)
    ∧ ("arrival before departure" ∈ reasons
       ↔ ∃ dd ad, strptime_string dep storage_format = Some dd
                  ∧ strptime_string arr storage_format = Some ad
                  ∧ dt_le ad dd = true).
Proof.
  intros Hc. eexists _, _.
  split; [apply (validate_flight_complete _ _ _ _ _ _ _ Hc)|].
  split; [apply bool_decide_eq_true|].
  split; [apply departure_reason_reported|].
  split; [apply arrival_reason_reported | apply ordering_reason_reported].
Qed.

Lemma row_arriving_early_complete :
  complete row_arriving_early
           "AB12" "LHR" "JFK" "01/15/2025 10:00" "01/15/2025 09:00" "450.0".
Proof. by constructor. Qed.

Lemma datetime_reasons_of_complete_row_witness :
  ∃ ok reasons,
    validate_flight row_arriving_early = Ret (ok, reasons)
    ∧ (ok = true ↔ reasons = [])
    ∧ ("invalid departure datetime" ∈ reasons
       ↔ strptime_string "01/15/2025 10:00" storage_format = None)
    ∧ ("invalid arrival datetime" ∈ reasons
       ↔ strptime_string "01/15/2025 09:00" storage_format = None)
    ∧ ("arrival before departure" ∈ reasons
       ↔ ∃ dd ad, strptime_string "01/15/2025 10:00" storage_format = Some dd
                  ∧ strptime_string "01/15/2025 09:00" storage_format = Some ad
                  ∧ dt_le ad dd = true).
Proof.
  exact (datetime_reasons_of_complete_row row_arriving_early
           "AB12" "LHR" "JFK" "01/15/2025 10:00" "01/15/2025 09:00" "450.0"
           row_arriving_early_complete).
Defined.

(** What holds of the price check on a complete row: one reason at most,
    "invalid price format" when the price does not parse, "negative price
    value" when it parses to a float less than or equal to zero. *)
Lemma price_reasons_of_complete_row raw fid o d dep arr p :
  complete raw fid o d dep arr p →
  ∃ ok reasons,
    validate_flight raw = Ret (ok, reasons)
    ∧ ("invalid price format" ∈ reasons ↔ float_of_string p = None)
    ∧ ("negative price value" ∈ reasons
       ↔ ∃ price, float_of_string p = Some price ∧ SFleb price float_zero = true)
    ∧ ¬ ("invalid price format" ∈ reasons ∧ "negative price value" ∈ reasons).
Proof.
  intros Hc. eexists _, _.
  split; [apply (validate_flight_complete _ _ _ _ _ _ _ Hc)|].
  split; [apply price_format_reason_reported|].
  split; [apply price_value_reason_reported|].
  rewrite price_format_reason_reported, price_value_reason_reported.
  intros [Hn (price & Hs & _)]. congruence.
Qed.

(** The price of an accepted row is a float that is not less than or equal
    to zero: a positive float, or NaN. *)
Lemma accepted_price_positive_or_nan raw fid o d dep arr p :
  complete raw fid o d dep arr p →
  accumulated_reasons fid o d dep arr p = [] →
  ∃ price, validate_row raw = Ret (inl (typed_flight fid o d dep arr price))
           ∧ (positive price = true ∨ price = S754_nan).
Proof.
  intros Hc Hnil.
  destruct (validate_row_accepts _ _ _ _ _ _ _ Hc Hnil) as (price & _ & Hle & Hr).
  exists price. split; [done|].
  unfold positive, SFltb, SFleb, float_zero in *.
  destruct price as [s|s| |s m e]; simpl in *; try done; auto.
  - destruct s; [done | by left].
  - destruct s; [done | by left].
Qed.

(** C8 fails on the price "nan": it parses, NaN is not less than or equal
    to zero, so no reason is given and the row is accepted, with a price
    that is not greater than zero. *)
Theorem nan_price_is_accepted :
  float_of_string "nan" = Some S754_nan
  ∧ validate_flight row_priced_nan = Ret (true, [])
  ∧ validate_row row_priced_nan
    = Ret (inl (typed_flight "AB12" "LHR" "JFK" "01/15/2025 10:00" "01/15/2025 18:00"
                             S754_nan))
  ∧ positive S754_nan = false.
Proof. repeat split; vm_compute; reflexivity. Qed.

End ValidationClaims.


(** * The claims on query matching *)

Section QueryClaims.
Import FlightValidator CSVParser QueryEngine.

Lemma sample_flight_record : sample_flight = PDict sample_record.
Proof. reflexivity. Qed.

Lemma sample_row_accepted : validate_row sample_row = Ret (inl sample_flight).
Proof. vm_compute. reflexivity. Qed.

(** What holds of C1: a record whose datetimes are strings in the storage
    format matches no query that has a datetime key, when the values under
    the datetime keys of the query are strings. *)
Lemma datetime_query_excludes_stored_record (r q : gmap string pyval) (dep arr : string) :
  r !! "departure_datetime" = Some (PStr dep) →
  r !! "arrival_datetime" = Some (PStr arr) →
  is_Some (strptime_string dep storage_format) →
  is_Some (strptime_string arr storage_format) →
  string_or_absent q "departure_datetime" →
  string_or_absent q "arrival_datetime" →
  is_Some (q !! "departure_datetime") ∨ is_Some (q !! "arrival_datetime") →
  _flight_matches_query (PDict r) (PDict q) = Ret false.
Proof.
  intros Hd Ha Hpd Hpa Hqd Hqa Hkey.
  apply storage_string_fails_query_format in Hpd, Hpa.
  unfold _flight_matches_query, and_then.
  rewrite exact_match_loop_dict.
  rewrite departure_criterion_typed, arrival_criterion_typed;
    [| done | by unfold string_or_absent; rewrite Ha
     | done | by unfold string_or_absent; rewrite Hd].
  assert (is_Some (q !! "departure_datetime") → spec_departure r q = false) as Hsd.
  { intros [qv Hq]. unfold spec_departure. rewrite Hq, Hd. cbn [mbind option_bind].
    unfold as_datetime at 2. rewrite Hpd. by destruct (as_datetime qv). }
  assert (is_Some (q !! "arrival_datetime") → spec_arrival r q = false) as Hsa.
  { intros [qv Hq]. unfold spec_arrival. rewrite Hq, Ha. cbn [mbind option_bind].
    unfold as_datetime at 2. rewrite Hpa. by destruct (as_datetime qv). }
  monad_step.
  destruct (forallb _ _); [|done].
  destruct Hkey as [Hk|Hk].
  - by rewrite (Hsd Hk).
  - rewrite (Hsa Hk). by destruct (spec_departure r q).
Qed.

(** C1 fails on a query whose datetime value is not a string: the
    accepted record of the example, against [{"departure_datetime":
    20250116}], raises [TypeError] where the claim returns false. *)
Theorem datetime_query_with_number_raises :
  validate_row sample_row = Ret (inl sample_flight)
  ∧ query_departure_number !! "departure_datetime" = Some (PInt 20250116)
  ∧ _flight_matches_query sample_flight (PDict query_departure_number)
    = Raise TypeError.
Proof. repeat split; vm_compute; reflexivity. Qed.

(** What holds of C2: on strings, the departure criterion passes exactly
    when both sides parse under the query format and the record's departure
    is greater than or equal to the query's; the arrival criterion passes
    exactly when both parse and the record's arrival is less than or equal
    to the query's. *)
Lemma datetime_criteria_on_strings (r q : gmap string pyval) :
  (string_or_absent q "departure_datetime" → string_or_absent r "departure_datetime" →
   departure_criterion (PDict r) (PDict q) = Ret (spec_departure r q))
  ∧ (string_or_absent q "arrival_datetime" → string_or_absent r "arrival_datetime" →
     arrival_criterion (PDict r) (PDict q) = Ret (spec_arrival r q)).
Proof. split; [apply departure_criterion_typed | apply arrival_criterion_typed]. Qed.

(** C2 fails on a query value that is not a string: parsing it raises
    [TypeError], which the criterion does not catch, so the matcher raises
    where the claim has the record not match. *)
Theorem datetime_query_null_raises :
  _flight_matches_query sample_flight (PDict query_departure_null) = Raise TypeError
  ∧ _flight_matches_query sample_flight (PDict query_arrival_null) = Raise TypeError
  ∧ departure_criterion sample_flight (PDict query_departure_null) = Raise TypeError
  ∧ arrival_criterion sample_flight (PDict query_arrival_null) = Raise TypeError.
Proof. repeat split; vm_compute; reflexivity. Qed.

(** C3, as it is stated, fails on an exact-match key whose query value is
    null: the record without a flight id matches [{"flight_id": null}]. *)
Lemma missing_flight_id_matches_null :
  record_without_flight_id !! "flight_id" = None
  ∧ query_flight_id_null !! "flight_id" = Some PNone
  ∧ _flight_matches_query (PDict record_without_flight_id) (PDict query_flight_id_null)
    = Ret true.
Proof. repeat split; vm_compute; reflexivity. Qed.

(** C3, amended: a record that lacks a field named by a key of the query,
    where for the keys flight_id, origin and destination the query value
    is not null, never matches; on a record and a query whose datetime
    values are strings and whose prices can be coerced, the matcher returns
    false. *)
Theorem missing_field_never_matches (r q : gmap string pyval) (field : string) :
  field ∈ query_fields → is_Some (q !! field) → r !! field = None →
  (field ∈ exact_match_fields → q !! field ≠ Some PNone) →
  _flight_matches_query (PDict r) (PDict q) ≠ Ret true
  ∧ (well_typed r → well_typed q →
     _flight_matches_query (PDict r) (PDict q) = Ret false).
Proof.
  intros Hin Hq Hr Hnull. split.
  - unfold _flight_matches_query.
    intros (He & (Hd & (Ha & (Hp & _)%and_then_true)%and_then_true)%and_then_true)
      %and_then_true.
    destruct (decide (field ∈ exact_match_fields)) as [Hex|Hex].
    + rewrite exact_match_loop_dict in He. destruct Hq as [v Hq].
      rewrite (exact_missing_fails _ r q field v) in He; [done..| |done].
      specialize (Hnull Hex). congruence.
    + unfold query_fields, exact_match_fields in *.
      assert (field = "departure_datetime" ∨ field = "arrival_datetime"
              ∨ field = "price") as [->|[->| ->]] by set_solver.
      * by apply departure_missing_never_passes in Hd.
      * by apply arrival_missing_never_passes in Ha.
      * by apply price_missing_never_passes in Hp.
  - intros Hwr Hwq. rewrite matches_well_typed by done.
    by rewrite (spec_matches_missing r q field).
Qed.

Lemma missing_field_never_matches_witness :
  _flight_matches_query (PDict record_without_price) (PDict query_origin_price)
  = Ret false.
Proof.
  refine (proj2 (missing_field_never_matches record_without_price query_origin_price
                   "price" _ _ _ _) _ _).
  - unfold query_fields. set_solver.
  - by eexists.
  - reflexivity.
  - unfold exact_match_fields. set_solver.
  - by constructor.
  - by constructor.
Defined.

(** What holds of C4: validation returns on every row, and the matcher
    returns on every record and query of the expected types. *)
Lemma validate_and_match_return (raw : gmap string string) (r q : gmap string pyval) :
  (∃ ok reasons, validate_flight raw = Ret (ok, reasons))
  ∧ (well_typed r → well_typed q →
     ∃ ok, _flight_matches_query (PDict r) (PDict q) = Ret ok).
Proof.
  split.
  - destruct (validate_flight_total raw) as (ok & reasons & H & _). eauto.
  - intros Hr Hq. eexists. by apply matches_well_typed.
Qed.

(** C4 fails on the matcher: against [{"price": null}] the coercion of the
    query value raises [TypeError], which is not among the exceptions the
    criterion catches, and the call returns no boolean. *)
Theorem price_query_null_raises :
  validate_row sample_row = Ret (inl sample_flight)
  ∧ py_float PNone = Raise TypeError
  ∧ _flight_matches_query sample_flight (PDict query_price_null) = Raise TypeError.
Proof. repeat split; vm_compute; reflexivity. Qed.

(** What holds of C9: [execute] is the order-preserving filter by
    [matches] where the matcher returns on every record of the working
    set: it then returns exactly the records on which the matcher returns
    true, in the order of the working set; a query without keys matches
    every record and returns the working set unchanged; a key that is
    absent from the query imposes no constraint, the fields it would name
    are not looked at. *)
Lemma execute_query_is_filter
    (flights : list pyval) (query : pyval) (r r' q : gmap string pyval) :
  execute_query flights query
  = filter_result (λ flight, _flight_matches_query flight query) flights
  ∧ (Forall (λ flight, ∃ ok, _flight_matches_query flight query = Ret ok) flights →
     execute_query flights query
     = Ret (List.filter (λ flight, returns_true (_flight_matches_query flight query))
                        flights))
  ∧ (∀ matches, execute_query flights query = Ret matches →
     Forall (λ flight, ∃ ok, _flight_matches_query flight query = Ret ok) flights)
  ∧ Forall (λ flight, _flight_matches_query flight (PDict ∅) = Ret true) flights
  ∧ execute_query flights (PDict ∅) = Ret flights
  ∧ ((∀ key, is_Some (q !! key) → r !! key = r' !! key) →
     _flight_matches_query (PDict r) (PDict q)
     = _flight_matches_query (PDict r') (PDict q)).
Proof.
  split; [apply execute_query_spec|].
  split; [intros Hall; rewrite execute_query_spec; by apply filter_result_returns|].
  split; [intros matches; rewrite execute_query_spec; apply filter_result_inv|].
  split; [apply Forall_forall; intros flight _; apply empty_query_matches|].
  split; [apply execute_empty_query | apply matches_depends_on_query_keys].
Qed.

Lemma execute_query_is_filter_witness :
  execute_query [sample_flight; PDict record_without_price] (PDict query_origin_price)
  = Ret [sample_flight]
  ∧ _flight_matches_query (PDict sample_record) (PDict query_departure)
    = _flight_matches_query (PDict record_without_price) (PDict query_departure).
Proof.
  pose proof (execute_query_is_filter
                [sample_flight; PDict record_without_price] (PDict query_origin_price)
                sample_record record_without_price query_departure)
    as (_ & Hfilter & _ & _ & _ & Hkeys).
  split.
  - apply Hfilter. repeat constructor; eexists; vm_compute; reflexivity.
  - apply Hkeys. intros key [v Hv].
    destruct (decide (key = "departure_datetime")) as [->|Hne]; [reflexivity|].
    unfold query_departure in Hv. rewrite lookup_insert_ne in Hv by done.
    by rewrite lookup_empty in Hv.
Defined.

(** C9 fails on a query whose price is not a number: on the working set
    of the one accepted record of the example, [execute] with
    [{"price": null}] returns no list of records: the [TypeError] of the
    matcher leaves it. *)
Theorem execute_query_raises_on_null_price :
  execute_query [sample_flight] (PDict query_price_null) = Raise TypeError.
Proof. vm_compute. reflexivity. Qed.

(** What holds of C10: a single object is executed as the sequence of that
    one query; when the queries are executed without an exception there is
    one result per query, in the order of the input, pairing the query with
    what [execute] returns for it; the format error is raised exactly when
    the content is neither an object nor a sequence. *)
Lemma execute_queries_from_file_results (flights : list pyval) (content : pyval) :
  (is_dict content = true →
   execute_queries_from_file flights content
   = execute_queries_from_file flights (PList [content]))
  ∧ (∀ queries results,
       execute_queries_from_file flights (PList queries) = Ret results →
       Forall2 (λ query res,
                  ∃ matches, execute_query flights query = Ret matches
                             ∧ res = query_result query matches)
               queries results)
  ∧ (execute_queries_from_file flights content = Raise ValueError
     ↔ is_dict content = false ∧ is_list content = false).
Proof.
  split; [|split].
  - intros Hd. rewrite !execute_queries_from_file_spec. by destruct content.
  - intros queries results. rewrite execute_queries_from_file_spec.
    apply results_of_returns.
  - apply format_error_iff.
Qed.

(** C10 fails on a sequence with an element that is not an object: the
    elements are not checked, the string "abc" is executed as a query (no
    key is a substring of it, so every flight matches), and a result is
    returned where the claim has a format error. *)
Theorem sequence_of_non_objects_is_executed :
  is_dict (PStr "abc") = false
  ∧ execute_queries_from_file [sample_flight] (PList [PStr "abc"])
    = Ret [query_result (PStr "abc") [sample_flight]]
  ∧ execute_queries_from_file [] (PList [PInt 5]) = Ret [query_result (PInt 5) []]
  ∧ execute_queries_from_file [sample_flight] (PList [PInt 5]) = Raise TypeError.
Proof. repeat split; vm_compute; reflexivity. Qed.

End QueryClaims.


(** * Further properties of the validator *)

Section ValidatorExtras.
Import FlightValidator CSVParser.

Lemma valid_airports_listed code :
  code ∈ VALID_AIRPORTS → _validate_airport_code code = true.
Proof.
  unfold VALID_AIRPORTS. rewrite elem_of_list_to_set, !elem_of_cons, elem_of_nil.
  intros H.
  repeat (destruct H as [->|H]; [vm_compute; reflexivity|]). done.
Qed.

Lemma valid_code_is_listed code :
  _validate_airport_code code = true → code ∈ VALID_AIRPORTS.
Proof.
  unfold _validate_airport_code.
  destruct (String.eqb code ""); [done|].
  destruct (negb _); [done|].
  destruct (negb (isupper code) || negb (isalpha code)); [done|].
  apply bool_decide_eq_true.
Qed.

(** X1: an airport code is valid exactly when it is in the list of the
    known airports; the checks of the length and of the upper-case letters
    reject nothing the list would accept. *)
Theorem airport_code_valid_iff_listed (code : string) :
  _validate_airport_code code = true ↔ code ∈ VALID_AIRPORTS.
Proof. split; [apply valid_code_is_listed | apply valid_airports_listed]. Qed.



(** ** The order of the datetimes *)

Lemma dt_compare_refl t : dt_compare t t = Eq.
Proof. unfold dt_compare. by rewrite !Z.compare_refl. Qed.

Lemma dt_compare_antisym a b : dt_compare b a = CompOpp (dt_compare a b).
Proof.
  unfold dt_compare.
  rewrite (Z.compare_antisym (year a) (year b)).
  destruct (year a ?= year b)%Z; simpl; try done.
  rewrite (Z.compare_antisym (month a) (month b)).
  destruct (month a ?= month b)%Z; simpl; try done.
  rewrite (Z.compare_antisym (day a) (day b)).
  destruct (day a ?= day b)%Z; simpl; try done.
  rewrite (Z.compare_antisym (hour a) (hour b)).
  destruct (hour a ?= hour b)%Z; simpl; try done.
  apply Z.compare_antisym.
Qed.

(** [arrival <= departure] is the negation of [departure < arrival]. *)
Lemma dt_le_not_lt a b : dt_le a b = negb (dt_lt b a).
Proof.
  unfold dt_le, dt_gt, dt_lt. rewrite (dt_compare_antisym a b).
  by destruct (dt_compare a b).
Qed.

Lemma reason_if_nil cond msg : reason_if cond msg = [] → cond = false.
Proof. by destruct cond. Qed.

Lemma price_not_le_zero price :
  SFleb price float_zero = false ↔ positive price = true ∨ price = S754_nan.
Proof.
  unfold positive, SFltb, SFleb, float_zero.
  destruct price as [s|[]| |[] m e]; simpl; naive_solver.
Qed.

(** The checks behind an empty list of reasons *)
Lemma accumulated_nil_accepted fid o d dep arr p price :
  accumulated_reasons fid o d dep arr p = [] →
  float_of_string p = Some price →
  accepted fid o d dep arr price.
Proof.
  unfold accumulated_reasons. intros H Hp.
  apply app_eq_nil in H as [Hf H]. apply app_eq_nil in H as [Ho H].
  apply app_eq_nil in H as [Hd H]. apply app_eq_nil in H as [Hdep H].
  apply app_eq_nil in H as [Harr H]. apply app_eq_nil in H as [Hord Hprice].
  apply reason_if_nil, negb_false_iff in Hf, Ho, Hd.
  rewrite <- validate_flight_id_shape in Hf.
  rewrite <- validate_airport_code_rule in Ho, Hd.
  unfold departure_reasons in Hdep. unfold arrival_reasons in Harr.
  unfold ordering_reasons in Hord. unfold price_reasons in Hprice.
  rewrite Hp in Hprice. apply reason_if_nil in Hprice.
  destruct (strptime_string dep storage_format) as [dd|] eqn:Edep; [|done].
  destruct (strptime_string arr storage_format) as [ad|] eqn:Earr; [|done].
  apply reason_if_nil in Hord. rewrite dt_le_not_lt in Hord.
  apply negb_false_iff in Hord.
  constructor; try done.
  - by apply valid_code_is_listed.
  - by apply valid_code_is_listed.
  - by exists dd, ad.
  - by apply price_not_le_zero.
Qed.

(** The flight of an accepted row is an accepted flight. *)
Lemma validate_row_accepted raw flight :
  validate_row raw = Ret (inl flight) → is_accepted_flight flight.
Proof.
  intros Hrow.
  destruct (decide (missing_reasons raw = [])) as [Hnil|Hne];
    [|by rewrite (validate_row_incomplete _ Hne) in Hrow].
  destruct (not_missing_complete _ Hnil) as (fid & o & d & dep & arr & p & Hc).
  destruct (decide (accumulated_reasons fid o d dep arr p = [])) as [Ha|Ha];
    [|by rewrite (validate_row_rejects _ _ _ _ _ _ _ Hc Ha) in Hrow].
  destruct (validate_row_accepts _ _ _ _ _ _ _ Hc Ha) as (price & Hp & _ & Hr).
  rewrite Hr in Hrow. injection Hrow as <-.
  exists fid, o, d, dep, arr, price. split; [done|].
  by apply accumulated_nil_accepted with p.
Qed.

(** X2: a row is accepted only as the typed record of its own six fields,
    with the price converted by [float]; its flight id has the valid
    shape, both airports are known, both datetimes parse under the storage
    format with the arrival strictly after the departure, and the price is
    greater than zero or NaN. *)
Theorem accepted_row_invariant (raw : gmap string string) (flight : pyval) :
  validate_row raw = Ret (inl flight) →
  ∃ fid o d dep arr p price,
    complete raw fid o d dep arr p
    ∧ float_of_string p = Some price
    ∧ flight = typed_flight fid o d dep arr price
    ∧ accepted fid o d dep arr price.
Proof.
  intros Hrow.
  destruct (decide (missing_reasons raw = [])) as [Hnil|Hne];
    [|by rewrite (validate_row_incomplete _ Hne) in Hrow].
  destruct (not_missing_complete _ Hnil) as (fid & o & d & dep & arr & p & Hc).
  destruct (decide (accumulated_reasons fid o d dep arr p = [])) as [Ha|Ha];
    [|by rewrite (validate_row_rejects _ _ _ _ _ _ _ Hc Ha) in Hrow].
  destruct (validate_row_accepts _ _ _ _ _ _ _ Hc Ha) as (price & Hp & _ & Hr).
  rewrite Hr in Hrow. injection Hrow as <-.
  exists fid, o, d, dep, arr, p, price.
  split; [done|]. split; [done|]. split; [done|].
  by apply accumulated_nil_accepted with p.
Qed.

Lemma accepted_row_invariant_witness :
  ∃ fid o d dep arr p price,
    complete sample_row fid o d dep arr p
    ∧ float_of_string p = Some price
    ∧ sample_flight = typed_flight fid o d dep arr price
    ∧ accepted fid o d dep arr price.
Proof. exact (accepted_row_invariant sample_row sample_flight sample_row_accepted). Defined.

(** X3: on a complete row whose two datetimes parse to the same instant,
    in particular on equal datetime strings, validation fails with the
    reason "arrival before departure": the arrival has to be strictly
    later. *)
Theorem same_instant_rejected
    (raw : gmap string string) (fid o d dep arr p : string) (t : datetime) :
  complete raw fid o d dep arr p →
  strptime_string dep storage_format = Some t →
  strptime_string arr storage_format = Some t →
  ∃ reasons, validate_flight raw = Ret (false, reasons)
             ∧ "arrival before departure" ∈ reasons
             ∧ ∃ rejected, validate_row raw = Ret (inr rejected)
                           ∧ "arrival before departure" ∈ rejected.
Proof.
  intros Hc Hd Ha.
  assert ("arrival before departure" ∈ accumulated_reasons fid o d dep arr p) as Hin.
  { apply ordering_reason_reported. exists t, t. repeat split; try done.
    unfold dt_le, dt_gt. by rewrite dt_compare_refl. }
  assert (accumulated_reasons fid o d dep arr p ≠ []) as Hne.
  { intros Hnil. rewrite Hnil in Hin. by apply elem_of_nil in Hin. }
  exists (accumulated_reasons fid o d dep arr p). split; [|split; [done|]].
  - rewrite (validate_flight_complete _ _ _ _ _ _ _ Hc).
    by rewrite bool_decide_eq_false_2.
  - eexists. split; [by apply validate_row_rejects | done].
Qed.

Lemma same_instant_rejected_witness :
  ∃ reasons,
    validate_flight (<["arrival_datetime" := "1/15/2025 10:00"]> sample_row)
    = Ret (false, reasons)
    ∧ "arrival before departure" ∈ reasons
    ∧ ∃ rejected,
        validate_row (<["arrival_datetime" := "1/15/2025 10:00"]> sample_row)
        = Ret (inr rejected)
        ∧ "arrival before departure" ∈ rejected.
Proof.
  refine (same_instant_rejected
            (<["arrival_datetime" := "1/15/2025 10:00"]> sample_row)
            "AB12" "LHR" "JFK" "01/15/2025 10:00" "1/15/2025 10:00" "450.0"
            (mk_datetime 2025 1 15 10 0) _ _ _).
  - by constructor.
  - reflexivity.
  - reflexivity.
Defined.

End ValidatorExtras.

(** * Further properties of the query matcher *)

Section QueryExtras.
Import QueryEngine.

(** ** The matcher reads the query through its six keys *)

Lemma exact_match_loop_same_keys fields flight (q q' : gmap string pyval) :
  (∀ key, key ∈ fields → q !! key = q' !! key) →
  exact_match_loop fields flight (PDict q) = exact_match_loop fields flight (PDict q').
Proof.
  induction fields as [|field fields IH]; intros Hsame; [done|].
  cbn [exact_match_loop]. rewrite !contains_dict. unfold py_getitem.
  rewrite (Hsame field) by left.
  rewrite IH by (intros key Hk; apply Hsame; by right). reflexivity.
Qed.

Lemma matches_same_keys flight (q q' : gmap string pyval) :
  (∀ key, key ∈ query_fields → q !! key = q' !! key) →
  _flight_matches_query flight (PDict q) = _flight_matches_query flight (PDict q').
Proof.
  intros Hsame. unfold _flight_matches_query.
  rewrite (exact_match_loop_same_keys _ flight q q')
    by (intros key Hk; apply Hsame; unfold exact_match_fields, query_fields in *;
        set_solver).
  unfold departure_criterion, arrival_criterion, price_criterion.
  rewrite !contains_dict. unfold py_getitem.
  rewrite (Hsame "departure_datetime"), (Hsame "arrival_datetime"), (Hsame "price")
    by (unfold query_fields; set_solver).
  reflexivity.
Qed.

(** X4: a key of the query that is none of the six is ignored: with or
    without it the matcher gives the same result, on every record. *)
Theorem unknown_query_key_ignored
    (flight : pyval) (q : gmap string pyval) (key : string) (v : pyval) :
  key ∉ query_fields →
  _flight_matches_query flight (PDict (<[key := v]> q))
  = _flight_matches_query flight (PDict q).
Proof.
  intros Hkey. apply matches_same_keys. intros k Hk.
  apply lookup_insert_ne. intros ->. done.
Qed.

Lemma unknown_query_key_ignored_witness :
  _flight_matches_query sample_flight
    (PDict (<["airline" := PStr "BA"]> query_origin_price))
  = _flight_matches_query sample_flight (PDict query_origin_price).
Proof.
  apply (unknown_query_key_ignored sample_flight query_origin_price "airline").
  unfold query_fields. set_solver.
Defined.

End QueryExtras.

Section Narrowing.
Import QueryEngine.

Lemma exact_match_loop_narrow fields flight (q q' : gmap string pyval) :
  q ⊆ q' →
  exact_match_loop fields flight (PDict q') = Ret true →
  exact_match_loop fields flight (PDict q) = Ret true.
Proof.
  intros Hsub. induction fields as [|field fields IH]; [done|].
  cbn [exact_match_loop]. rewrite !contains_dict. unfold py_getitem.
  destruct (q !! field) as [v|] eqn:Hq.
  - rewrite (lookup_weaken _ _ _ _ Hq Hsub).
    rewrite bool_decide_eq_true_2 by eauto. monad_step.
    destruct (py_get flight field) as [a|e]; monad_step; [|done].
    by destruct (py_ne a v).
  - rewrite (bool_decide_eq_false_2 (is_Some None)) by (by intros [? ?]).
    monad_step.
    destruct (q' !! field) as [v'|] eqn:Hq'.
    + rewrite bool_decide_eq_true_2 by eauto. monad_step.
      destruct (py_get flight field) as [a|e]; monad_step; [|done].
      by destruct (py_ne a v').
    + by rewrite bool_decide_eq_false_2 by (by intros [? ?]).
Qed.

Lemma departure_criterion_narrow flight (q q' : gmap string pyval) :
  q ⊆ q' →
  departure_criterion flight (PDict q') = Ret true →
  departure_criterion flight (PDict q) = Ret true.
Proof.
  intros Hsub. destruct (q !! "departure_datetime") as [v|] eqn:Hq.
  - unfold departure_criterion. rewrite !contains_dict. unfold py_getitem.
    by rewrite (lookup_weaken _ _ _ _ Hq Hsub), Hq.
  - intros _. by apply departure_criterion_absent.
Qed.

Lemma arrival_criterion_narrow flight (q q' : gmap string pyval) :
  q ⊆ q' →
  arrival_criterion flight (PDict q') = Ret true →
  arrival_criterion flight (PDict q) = Ret true.
Proof.
  intros Hsub. destruct (q !! "arrival_datetime") as [v|] eqn:Hq.
  - unfold arrival_criterion. rewrite !contains_dict. unfold py_getitem.
    by rewrite (lookup_weaken _ _ _ _ Hq Hsub), Hq.
  - intros _. by apply arrival_criterion_absent.
Qed.

Lemma price_criterion_narrow flight (q q' : gmap string pyval) :
  q ⊆ q' →
  price_criterion flight (PDict q') = Ret true →
  price_criterion flight (PDict q) = Ret true.
Proof.
  intros Hsub. destruct (q !! "price") as [v|] eqn:Hq.
  - unfold price_criterion. rewrite !contains_dict. unfold py_getitem.
    by rewrite (lookup_weaken _ _ _ _ Hq Hsub), Hq.
  - intros _. by apply price_criterion_absent.
Qed.

Lemma matches_narrow flight (q q' : gmap string pyval) :
  q ⊆ q' →
  _flight_matches_query flight (PDict q') = Ret true →
  _flight_matches_query flight (PDict q) = Ret true.
Proof.
  intros Hsub. unfold _flight_matches_query.
  intros (He & (Hd & (Ha & (Hp & _)%and_then_true)%and_then_true)%and_then_true)
    %and_then_true.
  rewrite (exact_match_loop_narrow _ _ _ _ Hsub He),
    (departure_criterion_narrow _ _ _ Hsub Hd),
    (arrival_criterion_narrow _ _ _ Hsub Ha),
    (price_criterion_narrow _ _ _ Hsub Hp).
  reflexivity.
Qed.

Lemma filter_sublist_impl {A} (p p' : A → bool) (l : list A) :
  (∀ x, x ∈ l → p' x = true → p x = true) →
  List.filter p' l `sublist_of` List.filter p l.
Proof.
  induction l as [|x l IH]; intros Himpl; [constructor|].
  assert (List.filter p' l `sublist_of` List.filter p l) as Hrec
    by (apply IH; intros y Hy; apply Himpl; by right).
  simpl. destruct (p' x) eqn:Hp'.
  - rewrite (Himpl x) by (done || by left). by constructor.
  - destruct (p x); [by constructor | done].
Qed.

(** X5: the criteria are conjoined, so a query with more keys selects
    less: a record that matches a query matches every query with a part of
    its keys and the same values, and what [execute] returns for the larger
    query is a sublist of what it returns for the smaller one. *)
Theorem narrower_query_selects_less
    (flights : list pyval) (q q' : gmap string pyval) :
  q ⊆ q' →
  (∀ flight, _flight_matches_query flight (PDict q') = Ret true →
             _flight_matches_query flight (PDict q) = Ret true)
  ∧ (∀ selected' selected,
       execute_query flights (PDict q') = Ret selected' →
       execute_query flights (PDict q) = Ret selected →
       selected' `sublist_of` selected).
Proof.
  intros Hsub. split; [intros flight; by apply matches_narrow|].
  intros selected' selected. rewrite !execute_query_spec. intros H' H.
  pose proof (filter_result_inv _ _ _ H') as Hall'.
  pose proof (filter_result_inv _ _ _ H) as Hall.
  rewrite (filter_result_returns _ _ Hall') in H'.
  rewrite (filter_result_returns _ _ Hall) in H.
  injection H' as <-. injection H as <-.
  apply filter_sublist_impl. intros flight _ Ht.
  unfold returns_true in *.
  destruct (_flight_matches_query flight (PDict q')) as [[]|] eqn:Hm; try done.
  by rewrite (matches_narrow _ _ _ Hsub Hm).
Qed.

Lemma narrower_query_selects_less_witness :
  _flight_matches_query sample_flight (PDict (delete "price" query_origin_price))
  = Ret true.
Proof.
  apply (proj1 (narrower_query_selects_less []
                  (delete "price" query_origin_price) query_origin_price
                  (delete_subseteq _ _))).
  vm_compute. reflexivity.
Defined.

End Narrowing.

Section Criteria2.
Import QueryEngine.

Lemma py_eq_string a v : py_eq (PStr a) v = true ↔ v = PStr a.
Proof.
  destruct v; simpl; try (split; [discriminate | done]).
  rewrite String.eqb_eq. split; [by intros -> | by intros [= ->]].
Qed.

Lemma exact_singleton (r : gmap string pyval) field a v :
  field ∈ exact_match_fields → r !! field = Some (PStr a) →
  forallb (spec_exact r {[field := v]}) exact_match_fields = py_eq (PStr a) v.
Proof.
  intros Hin Hr. unfold exact_match_fields in *.
  assert (field = "flight_id" ∨ field = "origin" ∨ field = "destination")
    as [->|[->| ->]] by set_solver;
    cbn [forallb]; unfold spec_exact;
    rewrite ?lookup_singleton_eq, ?lookup_singleton_ne, ?Hr by done;
    cbn [default from_option id]; by rewrite ?andb_true_r.
Qed.

(** X6: on a record whose field is a string, an exact-match key passes
    only for the query value that is the same string: no conversion, no
    folding of case, no trimming.  A query with that key alone returns,
    and matches exactly then. *)
Theorem exact_match_is_string_equality
    (r : gmap string pyval) (field a : string) (v : pyval) :
  field ∈ exact_match_fields → r !! field = Some (PStr a) →
  ∃ ok, _flight_matches_query (PDict r) (PDict {[field := v]}) = Ret ok
        ∧ (ok = true ↔ v = PStr a).
Proof.
  intros Hin Hr. exists (py_eq (PStr a) v). split; [|apply py_eq_string].
  unfold _flight_matches_query, and_then.
  rewrite exact_match_loop_dict, (exact_singleton r field a v Hin Hr).
  assert (field ≠ "departure_datetime" ∧ field ≠ "arrival_datetime" ∧ field ≠ "price")
    as (Hd & Ha & Hp) by (unfold exact_match_fields in Hin; set_solver).
  rewrite departure_criterion_absent, arrival_criterion_absent, price_criterion_absent
    by (by apply lookup_singleton_ne).
  monad_step. by destruct (py_eq (PStr a) v).
Qed.

Lemma exact_match_is_string_equality_witness :
  ∃ ok, _flight_matches_query (PDict sample_record) (PDict {["origin" := PStr "lhr"]})
        = Ret ok
        ∧ (ok = true ↔ PStr "lhr" = PStr "LHR").
Proof.
  apply (exact_match_is_string_equality sample_record "origin" "LHR" (PStr "lhr")).
  - unfold exact_match_fields. set_solver.
  - reflexivity.
Defined.

(** X7: no float is greater than NaN and NaN is greater than no float: a
    record whose price converts to NaN passes the price criterion of every
    query whose price converts to a float, and a query price that converts
    to NaN is passed by every record whose price converts to a float. *)
Theorem nan_passes_price_criterion
    (r q : gmap string pyval) (fv qv : pyval) (flight_price query_price : spec_float) :
  r !! "price" = Some fv → q !! "price" = Some qv →
  py_float fv = Ret flight_price → py_float qv = Ret query_price →
  flight_price = S754_nan ∨ query_price = S754_nan →
  price_criterion (PDict r) (PDict q) = Ret true.
Proof.
  intros Hr Hq Hf Hqf Hnan. unfold price_criterion.
  rewrite contains_dict, Hq, bool_decide_eq_true_2 by eauto.
  unfold py_getitem. rewrite Hq, Hr. monad_step. rewrite Hqf. monad_step.
  rewrite Hf. monad_step.
  destruct Hnan as [-> | ->]; [by destruct query_price | done].
Qed.

Lemma nan_passes_price_criterion_witness :
  price_criterion (PDict (<["price" := PFloat S754_nan]> sample_record))
                  (PDict query_origin_price)
  = Ret true.
Proof.
  apply (nan_passes_price_criterion
           (<["price" := PFloat S754_nan]> sample_record) query_origin_price
           (PFloat S754_nan) (PInt 500) S754_nan
           (S754_finite false 8796093022208000 (-44)));
    try reflexivity. by left.
Defined.

End Criteria2.

Section Raises.
Import QueryEngine.

Lemma bind_raise {A B} (m : result A) (f : A → result B) e :
  m ≫= f = Raise e → m = Raise e ∨ ∃ a, m = Ret a ∧ f a = Raise e.
Proof. destruct m as [a|e']; monad_step; [eauto | intros [= ->]; by left]. Qed.

Lemma try_except_raise {A} (body : result A) (a : A) e :
  try_except body [ValueError; KeyError] (Ret a) = Raise e →
  body = Raise e ∧ e ≠ ValueError ∧ e ≠ KeyError.
Proof. destruct body as [?|[]]; cbn; intros [= <-]; done. Qed.

Lemma py_contains_raise key container e :
  py_contains key container = Raise e → e = TypeError.
Proof. destruct container; cbn; congruence. Qed.

Lemma py_getitem_raise container key e :
  py_getitem container key = Raise e → e = KeyError ∨ e = TypeError.
Proof.
  destruct container; cbn; try (intros [= <-]; by right).
  destruct (m !! key); [done | intros [= <-]; by left].
Qed.

Lemma strptime_raise v fmt e :
  strptime v fmt = Raise e → e = ValueError ∨ e = TypeError.
Proof.
  destruct v; cbn; try (intros [= <-]; by right).
  destruct (strptime_string s fmt); [done | intros [= <-]; by left].
Qed.

Lemma float_of_int_raise z e : float_of_int z = Raise e → e = OverflowError.
Proof.
  unfold float_of_int. destruct (binary_normalize _ _ _ _ _); congruence.
Qed.

Lemma py_float_raise v e :
  py_float v = Raise e → e = ValueError ∨ e = TypeError ∨ e = OverflowError.
Proof.
  destruct v; cbn; try (intros [= <-]; auto; fail).
  - intros ->%float_of_int_raise. auto.
  - intros ->%float_of_int_raise. auto.
  - destruct (float_of_string s); [done | intros [= <-]; auto].
Qed.

(** What escapes a criterion is a [TypeError] or an [OverflowError]. *)
Lemma departure_criterion_raise flight query e :
  departure_criterion flight query = Raise e → e = TypeError ∨ e = OverflowError.
Proof.
  unfold departure_criterion.
  intros [H|([] & _ & H)]%bind_raise; [left; by eapply py_contains_raise| |done].
  apply try_except_raise in H as (H & Hv & Hk).
  apply bind_raise in H as [H|(qv & _ & H)];
    [apply py_getitem_raise in H as [->| ->]; by auto|].
  apply bind_raise in H as [H|(qd & _ & H)];
    [apply strptime_raise in H as [->| ->]; by auto|].
  apply bind_raise in H as [H|(fv & _ & H)];
    [apply py_getitem_raise in H as [->| ->]; by auto|].
  apply bind_raise in H as [H|(fd & _ & H)];
    [apply strptime_raise in H as [->| ->]; by auto | done].
Qed.

Lemma arrival_criterion_raise flight query e :
  arrival_criterion flight query = Raise e → e = TypeError ∨ e = OverflowError.
Proof.
  unfold arrival_criterion.
  intros [H|([] & _ & H)]%bind_raise; [left; by eapply py_contains_raise| |done].
  apply try_except_raise in H as (H & Hv & Hk).
  apply bind_raise in H as [H|(qv & _ & H)];
    [apply py_getitem_raise in H as [->| ->]; by auto|].
  apply bind_raise in H as [H|(qd & _ & H)];
    [apply strptime_raise in H as [->| ->]; by auto|].
  apply bind_raise in H as [H|(fv & _ & H)];
    [apply py_getitem_raise in H as [->| ->]; by auto|].
  apply bind_raise in H as [H|(fd & _ & H)];
    [apply strptime_raise in H as [->| ->]; by auto | done].
Qed.

Lemma price_criterion_raise flight query e :
  price_criterion flight query = Raise e → e = TypeError ∨ e = OverflowError.
Proof.
  unfold price_criterion.
  intros [H|([] & _ & H)]%bind_raise; [left; by eapply py_contains_raise| |done].
  apply try_except_raise in H as (H & Hv & Hk).
  apply bind_raise in H as [H|(qv & _ & H)];
    [apply py_getitem_raise in H as [->| ->]; by auto|].
  apply bind_raise in H as [H|(qd & _ & H)];
    [apply py_float_raise in H as [->|[->| ->]]; by auto|].
  apply bind_raise in H as [H|(fv & _ & H)];
    [apply py_getitem_raise in H as [->| ->]; by auto|].
  apply bind_raise in H as [H|(fd & _ & H)];
    [apply py_float_raise in H as [->|[->| ->]]; by auto | done].
Qed.

(** The exact-match loop raises a [TypeError] on a query that is no dict,
    and an [AttributeError] on a flight that is no dict. *)
Lemma exact_match_loop_raise fields flight query e :
  exact_match_loop fields flight query = Raise e →
  e = TypeError ∨ (e = AttributeError ∧ is_dict flight = false).
Proof.
  induction fields as [|field fields IH]; [done|].
  cbn [exact_match_loop].
  destruct (py_contains field query) as [[]|e'] eqn:Hc; monad_step.
  - destruct (py_get flight field) as [a|e'] eqn:Ha; monad_step.
    + destruct (py_getitem query field) as [b|e'] eqn:Hb; monad_step.
      * destruct (py_ne a b); [done | exact IH].
      * intros [= ->]. left. destruct query; try (cbn in Hb; congruence).
        unfold py_contains in Hc. unfold py_getitem in Hb.
        destruct (m !! field) eqn:Hm; [discriminate|].
        rewrite bool_decide_eq_false_2 in Hc by (by intros [? ?]). discriminate.
    + intros [= ->]. right. destruct flight; cbn in Ha; try done; by injection Ha as <-.
  - exact IH.
  - intros [= ->]. left. by eapply py_contains_raise.
Qed.

(** X8: the matcher never raises [ValueError] or [KeyError], which its
    criteria catch: an exception that leaves it is a [TypeError], an
    [OverflowError] (an integer price beyond the floats), or, only for a
    flight that is not a dict, an [AttributeError]. *)
Theorem matcher_raises_only (flight query : pyval) (e : exn) :
  _flight_matches_query flight query = Raise e →
  e = TypeError ∨ e = OverflowError
  ∨ (e = AttributeError ∧ is_dict flight = false).
Proof.
  unfold _flight_matches_query.
  intros [H|[H|[H|[H|H]%and_then_raise]%and_then_raise]%and_then_raise]%and_then_raise.
  - apply exact_match_loop_raise in H as [->|H]; auto.
  - apply departure_criterion_raise in H as [->| ->]; auto.
  - apply arrival_criterion_raise in H as [->| ->]; auto.
  - apply price_criterion_raise in H as [->| ->]; auto.
  - discriminate.
Qed.

Lemma matcher_raises_only_witness :
  TypeError = TypeError ∨ TypeError = OverflowError
  ∨ (TypeError = AttributeError ∧ is_dict sample_flight = false).
Proof.
  apply (matcher_raises_only sample_flight (PDict query_price_null) TypeError).
  vm_compute. reflexivity.
Defined.

End Raises.

Section ExecuteExtras.
Import QueryEngine.

Lemma filter_sublist {A} (p : A → bool) (l : list A) : List.filter p l `sublist_of` l.
Proof.
  induction l as [|x l IH]; [constructor|]. simpl.
  destruct (p x); by constructor.
Qed.

Lemma filter_filter_same {A} (p : A → bool) (l : list A) :
  List.filter p (List.filter p l) = List.filter p l.
Proof.
  induction l as [|x l IH]; [done|]. simpl.
  destruct (p x) eqn:Hp; [|done]. simpl. by rewrite Hp, IH.
Qed.

(** X9: what [execute] returns is a sublist of the working set, every
    record of it matches the query, and executing the same query on the
    result returns the result again. *)
Theorem execute_query_idempotent (flights selected : list pyval) (query : pyval) :
  execute_query flights query = Ret selected →
  selected `sublist_of` flights
  ∧ Forall (λ flight, _flight_matches_query flight query = Ret true) selected
  ∧ execute_query selected query = Ret selected.
Proof.
  rewrite !execute_query_spec. intros H.
  pose proof (filter_result_inv _ _ _ H) as Hall.
  rewrite (filter_result_returns _ _ Hall) in H. injection H as <-.
  assert (Forall (λ flight, _flight_matches_query flight query = Ret true)
            (List.filter (λ flight, returns_true (_flight_matches_query flight query))
                         flights)) as Htrue.
  { apply Forall_forall. intros flight [_ Ht]%list_elem_of_In%filter_In.
    unfold returns_true in Ht.
    by destruct (_flight_matches_query flight query) as [[]|]. }
  split; [apply filter_sublist|]. split; [done|].
  rewrite filter_result_returns.
  - by rewrite filter_filter_same.
  - eapply Forall_impl; [exact Htrue|]. intros flight Hf. by exists true.
Qed.

Lemma execute_query_idempotent_witness :
  [sample_flight] `sublist_of` [sample_flight; PDict record_without_price]
  ∧ Forall (λ flight, _flight_matches_query flight (PDict query_origin_price) = Ret true)
           [sample_flight]
  ∧ execute_query [sample_flight] (PDict query_origin_price) = Ret [sample_flight].
Proof.
  apply (execute_query_idempotent [sample_flight; PDict record_without_price]).
  vm_compute. reflexivity.
Defined.

End ExecuteExtras.

(** * Further properties of the parser's loop *)

Section ParseFile.
Import FlightValidator CSVParser CSVParserFiles.

(** The loop treats each row on its own: its two lists are the flights
    and the records of the rows' outcomes, in the order of the rows. *)
Lemma parse_rows_outcomes rows line_num valid_flights errors :
  parse_rows rows line_num valid_flights errors
  = outcomes ← outcomes_of line_num rows;
    Ret ((valid_flights ++ flights_of outcomes)%list,
         (errors ++ errors_of outcomes)%list).
Proof.
  revert line_num valid_flights errors.
  induction rows as [|[raw_line r] rows IH]; intros line_num valid_flights errors.
  - cbn [parse_rows outcomes_of]. monad_step.
    unfold flights_of, errors_of. cbn [omap list_omap]. by rewrite !app_nil_r.
  - cbn [parse_rows outcomes_of]. unfold row_outcome_of, is_comment, is_blank.
    destruct (String.eqb (py_strip raw_line) "") eqn:Hblank.
    { monad_step. rewrite IH.
      destruct (outcomes_of (line_num + 1) rows) as [others|e]; monad_step; done. }
    cbn [negb andb].
    destruct (startswith_hash (py_strip raw_line)) eqn:Hhash.
    { monad_step. rewrite IH.
      destruct (outcomes_of (line_num + 1) rows) as [others|e]; monad_step; [|done].
      unfold flights_of, errors_of. cbn [omap list_omap].
      by rewrite <- app_assoc. }
    destruct (clean_row r ∅) as [flight_data|e]; monad_step; [|done].
    unfold validate_row.
    destruct (validate_flight flight_data) as [[[] reasons]|e]; monad_step; [| |done].
    + destruct (convert_to_typed_flight flight_data) as [typed|e]; monad_step; [|done].
      rewrite IH.
      destruct (outcomes_of (line_num + 1) rows) as [others|e]; monad_step; [|done].
      unfold flights_of, errors_of. cbn [omap list_omap].
      by rewrite <- app_assoc.
    + rewrite IH.
      destruct (outcomes_of (line_num + 1) rows) as [others|e]; monad_step; [|done].
      unfold flights_of, errors_of. cbn [omap list_omap].
      by rewrite <- app_assoc.
Qed.



End ParseFile.
Section ParseFile2.
Import FlightValidator CSVParser CSVParserFiles.

Lemma parse_file_outcomes rows valid_flights errors :
  parse_file rows = Parsed valid_flights errors ↔
  ∃ outcomes, outcomes_of 1 rows = Ret outcomes
              ∧ valid_flights = flights_of outcomes ∧ errors = errors_of outcomes.
Proof.
  unfold parse_file. rewrite parse_rows_outcomes.
  destruct (outcomes_of 1 rows) as [outcomes|e]; monad_step.
  - split.
    + intros [= <- <-]. by exists outcomes.
    + intros (? & [= <-] & -> & ->). done.
  - split; [done | by intros (? & ? & _)].
Qed.

(** The outcome of a row that is not blank is a flight or a record. *)
Lemma row_outcome_skipped line_num raw_line r outcome :
  row_outcome_of line_num raw_line r = Ret outcome →
  (outcome = Skipped ↔ is_blank raw_line = true).
Proof.
  unfold row_outcome_of. destruct (is_blank raw_line).
  - intros [= <-]. done.
  - destruct (is_comment raw_line); [intros [= <-]; done|].
    destruct (clean_row r ∅) as [fd|]; monad_step; [|done].
    destruct (validate_row fd) as [[]|]; monad_step; [| |done];
      intros [= <-]; done.
Qed.

Lemma outcomes_account line_num rows outcomes :
  outcomes_of line_num rows = Ret outcomes →
  List.length (flights_of outcomes) + List.length (errors_of outcomes)
  + List.length (List.filter (λ row, is_blank row.1) rows)
  = List.length rows.
Proof.
  revert line_num outcomes.
  induction rows as [|[raw_line r] rows IH]; intros line_num outcomes.
  - intros [= <-]. done.
  - cbn [outcomes_of].
    destruct (row_outcome_of _ raw_line r) as [o|] eqn:Ho; monad_step; [|done].
    destruct (outcomes_of _ rows) as [others|] eqn:Hrest; monad_step; [|done].
    intros [= <-]. specialize (IH _ _ Hrest).
    apply row_outcome_skipped in Ho.
    unfold flights_of, errors_of in *. cbn [List.filter fst omap list_omap List.length].
    destruct o, (is_blank raw_line); cbn [List.length];
      try (destruct Ho as [Ho1 Ho2]; (by discriminate Ho1 || by discriminate Ho2 ||
           (by specialize (Ho1 eq_refl)) || (by specialize (Ho2 eq_refl)))); lia.
Qed.

(** X10: each pair of a raw line and a row that the loop iterates over
    adds exactly one flight or exactly one error record, except a pair
    whose raw line is blank, which adds nothing: the flights, the error
    records and the pairs with a blank raw line together are as many as
    the pairs. *)
Theorem parse_file_accounts_for_rows
    (rows : list (string * row)) (valid_flights : list pyval)
    (errors : list (gmap string pyval)) :
  parse_file rows = Parsed valid_flights errors →
  List.length valid_flights + List.length errors
  + List.length (List.filter (λ row, is_blank row.1) rows)
  = List.length rows.
Proof.
  intros (outcomes & Ho & -> & ->)%parse_file_outcomes.
  by apply outcomes_account with 1%Z.
Qed.

Lemma parse_file_accounts_for_rows_witness :
  ∃ valid_flights errors,
    parse_file sample_lines = Parsed valid_flights errors
    ∧ List.length valid_flights + List.length errors
      + List.length (List.filter (λ row, is_blank row.1) sample_lines)
      = List.length sample_lines.
Proof.
  eexists _, _. split; [vm_compute; reflexivity|].
  apply (parse_file_accounts_for_rows sample_lines). vm_compute. reflexivity.
Defined.

(** ** The line numbers *)

Lemma error_record_line line_num content reason :
  line_number (error_record line_num content reason) = Some (PInt line_num)
  ∧ error_record line_num content reason !! "content" = Some (PStr content)
  ∧ error_record line_num content reason !! "reason" = Some (PStr reason).
Proof. repeat split. Qed.

Lemma validate_row_rejected flight_data reasons :
  validate_row flight_data = Ret (inr reasons) →
  validate_flight flight_data = Ret (false, reasons).
Proof.
  unfold validate_row.
  destruct (validate_flight flight_data) as [[[] reasons']|]; monad_step; [| |done].
  - by destruct (convert_to_typed_flight flight_data).
  - by intros [= <-].
Qed.

(** A record is that of its pair. *)
Lemma row_outcome_reported line_num raw_line r error :
  row_outcome_of line_num raw_line r = Ret (Reported error) →
  is_blank raw_line = false
  ∧ ∃ reason, reason_of_pair raw_line r reason
              ∧ error = error_record line_num (py_strip raw_line) reason.
Proof.
  unfold row_outcome_of, reason_of_pair. destruct (is_blank raw_line); [done|].
  destruct (is_comment raw_line).
  { intros [= <-]. split; [done|]. by eexists. }
  destruct (clean_row r ∅) as [fd|]; monad_step; [|done].
  destruct (validate_row fd) as [[flight|reasons]|] eqn:Hv; monad_step; [done| |done].
  intros [= <-]. split; [done|]. eexists. split; [|done].
  exists fd, reasons. by split; [|split; [apply validate_row_rejected|]].
Qed.

Lemma outcomes_records line_num rows outcomes :
  outcomes_of line_num rows = Ret outcomes →
  Forall (λ error,
            ∃ (i : nat) raw_line r reason,
              rows !! i = Some (raw_line, r)
              ∧ is_blank raw_line = false
              ∧ reason_of_pair raw_line r reason
              ∧ error = error_record (line_num + 1 + Z.of_nat i)
                          (py_strip raw_line) reason)
         (errors_of outcomes).
Proof.
  revert line_num outcomes.
  induction rows as [|[raw_line r] rows IH]; intros line_num outcomes.
  - intros [= <-]. constructor.
  - cbn [outcomes_of].
    destruct (row_outcome_of _ raw_line r) as [o|] eqn:Ho; monad_step; [|done].
    destruct (outcomes_of _ rows) as [others|] eqn:Hrest; monad_step; [|done].
    intros [= <-]. specialize (IH _ _ Hrest).
    assert (Forall (λ error,
              ∃ (i : nat) raw_line0 r0 reason,
                ((raw_line, r) :: rows) !! i = Some (raw_line0, r0)
                ∧ is_blank raw_line0 = false
                ∧ reason_of_pair raw_line0 r0 reason
                ∧ error = error_record (line_num + 1 + Z.of_nat i)
                            (py_strip raw_line0) reason)
              (errors_of others)) as Hothers.
    { eapply Forall_impl; [exact IH|].
      intros error (i & raw0 & r0 & reason & Hi & Hb & Hr & ->).
      exists (S i), raw0, r0, reason. split; [done|]. split; [done|]. split; [done|].
      f_equal. lia. }
    unfold errors_of in *. cbn [omap list_omap]. destruct o; try done.
    constructor; [|done].
    apply row_outcome_reported in Ho as (Hb & reason & Hr & ->).
    exists 0%nat, raw_line, r, reason. split; [done|]. split; [done|]. split; [done|].
    f_equal. lia.
Qed.

Lemma outcomes_records_after line_num rows outcomes :
  outcomes_of line_num rows = Ret outcomes →
  Forall (λ error, ∃ a, line_number error = Some (PInt a) ∧ (line_num < a)%Z)
         (errors_of outcomes).
Proof.
  intros H. eapply Forall_impl; [exact (outcomes_records _ _ _ H)|].
  intros error (i & raw_line & r & reason & _ & _ & _ & ->).
  eexists. split; [apply error_record_line | lia].
Qed.

Lemma outcomes_sorted line_num rows outcomes :
  outcomes_of line_num rows = Ret outcomes →
  StronglySorted line_before (errors_of outcomes).
Proof.
  revert line_num outcomes.
  induction rows as [|[raw_line r] rows IH]; intros line_num outcomes.
  - intros [= <-]. constructor.
  - cbn [outcomes_of].
    destruct (row_outcome_of _ raw_line r) as [o|] eqn:Ho; monad_step; [|done].
    destruct (outcomes_of _ rows) as [others|] eqn:Hrest; monad_step; [|done].
    intros [= <-]. pose proof (IH _ _ Hrest) as Hsorted.
    pose proof (outcomes_records_after _ _ _ Hrest) as Hafter.
    unfold errors_of in *. cbn [omap list_omap]. destruct o; try done.
    constructor; [done|].
    apply row_outcome_reported in Ho as (_ & reason & _ & ->).
    eapply Forall_impl; [exact Hafter|].
    intros other (a & Ha & Hlt). exists (line_num + 1)%Z, a.
    split; [apply error_record_line | done].
Qed.

Lemma outcomes_records_of_pairs rows outcomes :
  outcomes_of 1 rows = Ret outcomes → Forall (record_of_pair rows) (errors_of outcomes).
Proof.
  intros Ho. eapply Forall_impl; [exact (outcomes_records _ _ _ Ho)|].
  intros error (i & raw_line & r & reason & Hi & Hb & Hr & ->).
  exists i, raw_line, r, reason. split; [done|]. split; [done|]. split; [done|].
  f_equal. lia.
Qed.

(** X11: every error record is that of one of the pairs the loop iterates
    over, whose raw line is not blank: it has the position of the pair
    plus 2 as line number (the header is line 1), the stripped raw line of
    the pair as content, and as reason that of a comment when the raw line
    is one, and else the joined reasons of the validation of the cleaned
    row of the pair; it has no other key.  The records are in the order of
    the pairs, with increasing line numbers. *)
Theorem error_records_point_to_lines
    (rows : list (string * row)) (valid_flights : list pyval)
    (errors : list (gmap string pyval)) :
  parse_file rows = Parsed valid_flights errors →
  Forall (record_of_pair rows) errors ∧ StronglySorted line_before errors.
Proof.
  intros (outcomes & Ho & -> & ->)%parse_file_outcomes. split.
  - by apply outcomes_records_of_pairs.
  - by apply outcomes_sorted with 1%Z rows.
Qed.

Lemma error_records_point_to_lines_witness :
  ∃ valid_flights errors,
    parse_file sample_lines = Parsed valid_flights errors
    ∧ Forall (record_of_pair sample_lines) errors
    ∧ StronglySorted line_before errors.
Proof.
  eexists _, _. split; [vm_compute; reflexivity|].
  apply (error_records_point_to_lines sample_lines [sample_flight]).
  vm_compute. reflexivity.
Defined.

End ParseFile2.

Section ParseFile3.
Import FlightValidator CSVParser CSVParserFiles.

(** The fields of a blank line and of a comment line are not read. *)
Lemma row_outcome_unread line_num raw_line r r' :
  is_blank raw_line = true ∨ is_comment raw_line = true →
  row_outcome_of line_num raw_line r' = row_outcome_of line_num raw_line r.
Proof.
  unfold row_outcome_of. intros [-> | Hc]; [done|].
  rewrite Hc. by destruct (is_blank raw_line).
Qed.

Lemma outcomes_unread line_num rows (i : nat) raw_line r r' :
  rows !! i = Some (raw_line, r) →
  is_blank raw_line = true ∨ is_comment raw_line = true →
  outcomes_of line_num (<[i := (raw_line, r')]> rows) = outcomes_of line_num rows.
Proof.
  revert line_num i.
  induction rows as [|[raw0 r0] rows IH]; intros line_num i Hi Hc; [done|].
  destruct i as [|i].
  - injection Hi as -> ->. cbn [outcomes_of insert list_insert].
    by rewrite (row_outcome_unread _ _ r r').
  - cbn [insert list_insert outcomes_of]. cbn in Hi.
    change (list_insert i (raw_line, r') rows) with (<[i := (raw_line, r')]> rows).
    by rewrite IH.
Qed.

Lemma outcomes_lookup line_num rows outcomes (i : nat) raw_line r :
  outcomes_of line_num rows = Ret outcomes →
  rows !! i = Some (raw_line, r) →
  ∃ outcome, outcomes !! i = Some outcome
             ∧ row_outcome_of (line_num + 1 + Z.of_nat i) raw_line r = Ret outcome.
Proof.
  revert line_num outcomes i.
  induction rows as [|[raw0 r0] rows IH]; intros line_num outcomes i; [done|].
  cbn [outcomes_of].
  destruct (row_outcome_of _ raw0 r0) as [o|] eqn:Ho; monad_step; [|done].
  destruct (outcomes_of _ rows) as [others|] eqn:Hrest; monad_step; [|done].
  intros [= <-] Hi. destruct i as [|i].
  - injection Hi as -> ->. exists o. split; [done|].
    rewrite <- Ho. f_equal. lia.
  - cbn in Hi. destruct (IH _ _ _ Hrest Hi) as (outcome & Hl & Hr).
    exists outcome. split; [done|]. rewrite <- Hr. f_equal. lia.
Qed.

Lemma errors_of_elem outcomes (i : nat) error :
  outcomes !! i = Some (Reported error) → error ∈ errors_of outcomes.
Proof.
  intros Hi. unfold errors_of. apply list_elem_of_omap.
  exists (Reported error). split; [|done]. by eapply list_elem_of_lookup_2.
Qed.

(** X12: the row of a pair whose raw line is blank or a comment is never
    read: with any other row in its place the result is the same, so a
    row that stands beside a blank raw line is dropped whatever it holds.
    A pair whose raw line starts with [#] after stripping gives the error
    record of a comment, with the position of the pair plus 2 as line
    number and the stripped raw line. *)
Theorem comment_and_blank_lines_unread
    (rows : list (string * row)) (i : nat) (raw_line : string) (r r' : row) :
  rows !! i = Some (raw_line, r) →
  is_blank raw_line = true ∨ is_comment raw_line = true →
  parse_file (<[i := (raw_line, r')]> rows) = parse_file rows
  ∧ (is_comment raw_line = true →
     ∀ valid_flights errors,
       parse_file rows = Parsed valid_flights errors →
       error_record (Z.of_nat i + 2) (py_strip raw_line) comment_reason ∈ errors).
Proof.
  intros Hi Hc. split.
  - unfold parse_file. rewrite !parse_rows_outcomes.
    by rewrite (outcomes_unread _ _ _ _ r r' Hi Hc).
  - intros Hcom valid_flights errors (outcomes & Ho & -> & ->)%parse_file_outcomes.
    destruct (outcomes_lookup _ _ _ _ _ _ Ho Hi) as (outcome & Hl & Hr).
    unfold row_outcome_of in Hr. rewrite Hcom in Hr.
    destruct (is_blank raw_line) eqn:Hb; [by unfold is_comment in Hcom; rewrite Hb in Hcom|].
    injection Hr as <-. apply (errors_of_elem _ i).
    rewrite Hl. do 2 f_equal. f_equal. lia.
Qed.

Lemma comment_and_blank_lines_unread_witness :
  parse_file (<[1%nat := ("# a comment", [])]> sample_lines) = parse_file sample_lines.
Proof.
  refine (proj1 (comment_and_blank_lines_unread sample_lines 1 "# a comment"
                   sample_csv_row [] _ _)).
  - reflexivity.
  - right. vm_compute. reflexivity.
Defined.

(** ** The flights of a parsed file *)

Lemma row_outcome_accepted line_num raw_line r flight :
  row_outcome_of line_num raw_line r = Ret (Accepted flight) →
  ∃ flight_data, clean_row r ∅ = Ret flight_data
                 ∧ validate_row flight_data = Ret (inl flight).
Proof.
  unfold row_outcome_of. destruct (is_blank raw_line); [done|].
  destruct (is_comment raw_line); [done|].
  destruct (clean_row r ∅) as [fd|]; monad_step; [|done].
  destruct (validate_row fd) as [[f|]|] eqn:Hv; monad_step; [|done..].
  intros [= <-]. by exists fd.
Qed.

Lemma outcomes_flights line_num rows outcomes :
  outcomes_of line_num rows = Ret outcomes →
  Forall is_accepted_flight (flights_of outcomes).
Proof.
  revert line_num outcomes.
  induction rows as [|[raw_line r] rows IH]; intros line_num outcomes.
  - intros [= <-]. constructor.
  - cbn [outcomes_of].
    destruct (row_outcome_of _ raw_line r) as [o|] eqn:Ho; monad_step; [|done].
    destruct (outcomes_of _ rows) as [others|] eqn:Hrest; monad_step; [|done].
    intros [= <-]. specialize (IH _ _ Hrest).
    unfold flights_of in *. cbn [omap list_omap]. destruct o; try done.
    constructor; [|done].
    apply row_outcome_accepted in Ho as (fd & _ & Hv).
    by apply validate_row_accepted in Hv.
Qed.

(** X13: every flight a file is parsed to is an accepted flight: the typed
    record of six fields with a valid flight id, two known airports, two
    datetimes in the storage format with the arrival strictly later, and a
    price that is positive or NaN. *)
Theorem parsed_flights_are_accepted
    (rows : list (string * row)) (valid_flights : list pyval)
    (errors : list (gmap string pyval)) :
  parse_file rows = Parsed valid_flights errors →
  Forall is_accepted_flight valid_flights.
Proof.
  intros (outcomes & Ho & -> & ->)%parse_file_outcomes.
  by apply outcomes_flights with 1%Z rows.
Qed.

Lemma parsed_flights_are_accepted_witness :
  Forall is_accepted_flight [sample_flight].
Proof.
  eapply (parsed_flights_are_accepted sample_lines). vm_compute. reflexivity.
Defined.

End ParseFile3.

Section ParseFile4.
Import FlightValidator CSVParser CSVParserFiles.

(** ** The body of the loop raises nothing *)

Lemma clean_row_returns r flight_data :
  row_from_reader r → ∃ cleaned, clean_row r flight_data = Ret cleaned.
Proof.
  revert flight_data. induction r as [|[k v] r IH]; intros flight_data Hr.
  - by eexists.
  - assert (row_from_reader r) as Hr'.
    { intros k' l Hin. apply Hr. by right. }
    cbn [clean_row]. destruct k as [name|]; [|by apply IH].
    destruct (negb (name =? "")) eqn:Hname; [|by apply IH].
    destruct v as [s| |[|x l]]; cbn [clean_value]; monad_step; try by apply IH.
    by specialize (Hr (Some name) (x :: l) ltac:(by left) Hname).
Qed.

Lemma row_outcome_returns line_num raw_line r :
  row_from_reader r → ∃ outcome, row_outcome_of line_num raw_line r = Ret outcome.
Proof.
  intros Hr. unfold row_outcome_of. destruct (is_blank raw_line); [by eexists|].
  destruct (is_comment raw_line); [by eexists|].
  destruct (clean_row_returns r ∅ Hr) as [cleaned ->]. monad_step.
  destruct (validate_row_total cleaned) as [[flight ->]|(reasons & _ & ->)];
    monad_step; by eexists.
Qed.

Lemma outcomes_return line_num rows :
  Forall (λ line, row_from_reader line.2) rows →
  ∃ outcomes, outcomes_of line_num rows = Ret outcomes.
Proof.
  intros Hrows. revert line_num.
  induction Hrows as [|[raw_line r] rows Hr _ IH]; intros line_num; [by eexists|].
  cbn [outcomes_of].
  destruct (row_outcome_returns (line_num + 1) raw_line r Hr) as [o ->].
  destruct (IH (line_num + 1)%Z) as [others ->]. monad_step. by eexists.
Qed.

(** X14: on the pairs that it iterates over, the body of the loop of
    [parse_file] raises no exception: whatever the fields of the rows, as
    [csv.DictReader] makes them (a list of surplus fields stands under the
    key [None] only), the cleaning, the validation and the conversion of
    an accepted row return, and the loop returns its two lists.  What the
    reader raises while it is read is not in the pairs and not in this
    statement. *)
Theorem parse_file_returns_on_reader_rows (rows : list (string * row)) :
  Forall (λ line, row_from_reader line.2) rows →
  ∃ valid_flights errors, parse_file rows = Parsed valid_flights errors.
Proof.
  intros Hrows. unfold parse_file. rewrite parse_rows_outcomes.
  destruct (outcomes_return 1 rows Hrows) as [outcomes ->].
  monad_step. by eexists _, _.
Qed.

Lemma parse_file_returns_on_reader_rows_witness :
  ∃ valid_flights errors, parse_file sample_lines = Parsed valid_flights errors.
Proof.
  apply (parse_file_returns_on_reader_rows sample_lines).
  repeat constructor; intros k l Hin Hk; cbn [snd] in Hin;
    repeat (apply elem_of_cons in Hin as [Hin|Hin]; [congruence|]);
    by apply elem_of_nil in Hin.
Defined.

End ParseFile4.

Section CleanRow.
Import FlightValidator CSVParser CSVParserFiles.

(** ** The cleaning of a row *)

Lemma lstrip_head p s : lstrip p (lstrip p s) = lstrip p s.
Proof.
  induction s as [|c s IH]; [done|]. cbn [lstrip].
  destruct (p c) eqn:Hc; [done|]. cbn [lstrip]. by rewrite Hc.
Qed.

Lemma lstrip_keeps_last p (u : list ascii) c :
  p c = false → ∃ w, lstrip p (u ++ [c])%list = (w ++ [c])%list.
Proof.
  intros Hc. induction u as [|x u IH].
  - exists []. cbn. by rewrite Hc.
  - cbn [app lstrip]. destruct (p x); [done|]. by exists (x :: u).
Qed.

Lemma lstrip_starts p s c s' : lstrip p s = c :: s' → p c = false.
Proof.
  induction s as [|x s IH]; [done|]. cbn [lstrip].
  destruct (p x) eqn:Hx; [done|]. by intros [= <- <-].
Qed.

Lemma lstrip_fixed p s : (∀ c s', s = c :: s' → p c = false) → lstrip p s = s.
Proof. destruct s as [|c s]; [done|]. intros H. cbn. by rewrite (H c s). Qed.

Lemma strip_strip p s : strip p (strip p s) = strip p s.
Proof.
  unfold strip.
  assert (lstrip p (rev (lstrip p (rev (lstrip p s))))
          = rev (lstrip p (rev (lstrip p s)))) as ->.
  { apply lstrip_fixed. intros c s' Heq.
    destruct (lstrip p s) as [|x u] eqn:Hs; [done|].
    pose proof (lstrip_starts _ _ _ _ Hs) as Hx.
    cbn [rev] in Heq.
    destruct (lstrip_keeps_last p (rev u) x Hx) as [w Hw].
    rewrite Hw, rev_app_distr in Heq. by injection Heq as <- <-. }
  by rewrite rev_involutive, lstrip_head.
Qed.

Lemma py_strip_strip s : py_strip (py_strip s) = py_strip s.
Proof.
  unfold py_strip, chars. by rewrite list_ascii_of_string_of_list_ascii, strip_strip.
Qed.

Lemma clean_value_stripped v value : clean_value v = Ret value → py_strip value = value.
Proof.
  destruct v as [s| |[|x l]]; cbn [clean_value]; intros [= <-]; try done.
  destruct (s =? ""); [done|apply py_strip_strip].
Qed.

Lemma clean_row_fields r flight_data cleaned key value :
  clean_row r flight_data = Ret cleaned →
  cleaned !! key = Some value →
  flight_data !! key = Some value ∨ from_item r key value.
Proof.
  revert flight_data.
  induction r as [|[[name|] v] r IH]; intros flight_data; cbn [clean_row].
  - intros [= <-]. by left.
  - destruct (negb (name =? "")) eqn:Hname.
    + destruct (clean_value v) as [value'|] eqn:Hv; monad_step; [|done].
      intros Hc Hl. destruct (IH _ Hc Hl) as [Hin|(n & v' & Hin & ? & ? & ?)].
      * destruct (decide (key = py_strip name)) as [->|Hne].
        -- rewrite lookup_insert_eq in Hin. injection Hin as ->.
           right. exists name, v. split; [by left|].
           split; [|done]. intros ->. done.
        -- rewrite lookup_insert_ne in Hin by done. by left.
      * right. exists n, v'. split; [by right|done].
    + intros Hc Hl. destruct (IH _ Hc Hl) as [?|(n & v' & Hin & ?)]; [by left|].
      right. exists n, v'. split; [by right|done].
  - intros Hc Hl. destruct (IH _ Hc Hl) as [?|(n & v' & Hin & ?)]; [by left|].
    right. exists n, v'. split; [by right|done].
Qed.

Lemma clean_row_keeps r flight_data cleaned key :
  clean_row r flight_data = Ret cleaned →
  is_Some (flight_data !! key) → is_Some (cleaned !! key).
Proof.
  revert flight_data.
  induction r as [|[[name|] v] r IH]; intros flight_data; cbn [clean_row].
  - by intros [= <-].
  - destruct (negb (name =? "")); [|apply IH].
    destruct (clean_value v) as [value'|]; monad_step; [|done].
    intros Hc Hk. apply (IH _ Hc).
    destruct (decide (key = py_strip name)) as [->|Hne].
    + by rewrite lookup_insert_eq.
    + by rewrite lookup_insert_ne.
  - apply IH.
Qed.

Lemma clean_row_keys r flight_data cleaned name v :
  clean_row r flight_data = Ret cleaned →
  (Some name, v) ∈ r → name ≠ "" → is_Some (cleaned !! py_strip name).
Proof.
  revert flight_data.
  induction r as [|[k v'] r IH]; intros flight_data Hc Hin Hname.
  - by apply elem_of_nil in Hin.
  - apply elem_of_cons in Hin as [[= <- <-]|Hin].
    + cbn [clean_row] in Hc.
      assert (negb (name =? "") = true) as Hn.
      { apply negb_true_iff, String.eqb_neq. done. }
      rewrite Hn in Hc.
      destruct (clean_value v) as [value'|]; monad_step; [|done].
      apply (clean_row_keeps _ _ _ _ Hc). by rewrite lookup_insert_eq.
    + cbn [clean_row] in Hc. destruct k as [n|]; [|by eapply IH].
      destruct (negb (n =? "")); [|by eapply IH].
      destruct (clean_value v') as [value'|]; monad_step; [|done].
      by eapply IH.
Qed.

(** X15: the dictionary that is validated has a key for every non-empty
    header name of the row, stripped, and no other key: the surplus fields
    under the key [None] do not reach the validator.  Every value comes
    from a field under such a name: it is the field stripped, or the empty
    string for a field that is missing or empty, and stripping it again
    changes nothing. *)
Theorem cleaned_row_fields (r : row) (cleaned : gmap string string) :
  clean_row r ∅ = Ret cleaned →
  (∀ key, is_Some (cleaned !! key)
          ↔ ∃ name v, (Some name, v) ∈ r ∧ name ≠ "" ∧ key = py_strip name)
  ∧ (∀ key value, cleaned !! key = Some value →
       py_strip value = value
       ∧ ∃ name v, (Some name, v) ∈ r ∧ name ≠ "" ∧ key = py_strip name
                   ∧ match v with
                     | CStr s => value = py_strip s
                     | CNone | CRest _ => value = ""
                     end).
Proof.
  intros Hc.
  assert (∀ key value, cleaned !! key = Some value → from_item r key value) as Hfrom.
  { intros key value Hl. by destruct (clean_row_fields _ _ _ _ _ Hc Hl). }
  split.
  - intros key. split.
    + intros [value Hl]. destruct (Hfrom _ _ Hl) as (name & v & ? & ? & ? & _).
      by exists name, v.
    + intros (name & v & Hin & Hname & ->). by eapply clean_row_keys.
  - intros key value Hl. destruct (Hfrom _ _ Hl) as (name & v & Hin & Hname & -> & Hv).
    split; [by eapply clean_value_stripped|].
    exists name, v. split; [done|]. split; [done|]. split; [done|].
    destruct v as [s| |[|x l]]; cbn [clean_value] in Hv; try congruence.
    injection Hv as <-. destruct (s =? "") eqn:Hs; [|done].
    apply String.eqb_eq in Hs as ->. reflexivity.
Qed.

Lemma cleaned_row_fields_witness :
  py_strip "AB12" = "AB12"
  ∧ ∃ name v, (Some name, v) ∈ [(Some " flight_id", CStr " AB12 ");
                                 (Some "price ", CNone);
                                 (None, CRest ["surplus"])]
              ∧ name ≠ "" ∧ "flight_id" = py_strip name
              ∧ match v with
                | CStr s => "AB12" = py_strip s
                | CNone | CRest _ => "AB12" = ""
                end.
Proof.
  refine (proj2 (cleaned_row_fields
                   [(Some " flight_id", CStr " AB12 ");
                    (Some "price ", CNone);
                    (None, CRest ["surplus"])]
                   (<["flight_id" := "AB12"]> (<["price" := ""]> ∅)) _)
                "flight_id" "AB12" _).
  - vm_compute. reflexivity.
  - reflexivity.
Defined.

End CleanRow.

Section Directory.
Import FlightValidator CSVParser CSVParserFiles.

(** ** The files of a directory *)

(** The loop of [parse_directory] adds to its two lists what it makes of
    the files from empty lists. *)
Lemma parse_files_from files all_valid_flights all_errors :
  parse_files files all_valid_flights all_errors
  = match parse_files files [] [] with
    | Parsed valid_flights errors =>
        Parsed (all_valid_flights ++ valid_flights)%list (all_errors ++ errors)%list
    | ParsingFailed cause => ParsingFailed cause
    end.
Proof.
  revert all_valid_flights all_errors.
  induction files as [|[name rows] files IH]; intros all_valid_flights all_errors.
  - cbn [parse_files]. by rewrite !app_nil_r.
  - cbn [parse_files]. destruct (parse_file rows) as [valid_flights errors|cause]; [|done].
    rewrite IH. rewrite (IH ([] ++ valid_flights)%list).
    destruct (parse_files files [] []) as [v e|cause]; [|done].
    cbn [app]. by rewrite !app_assoc.
Qed.

(** X16: the files of a directory are parsed one after the other and
    their results are appended: what a directory gives is what its first
    files give followed by what its other files give, and the parsing
    fails on the first file that fails; a single file gives its flights
    and its error records, each with the name of the file. *)
Theorem parse_directory_appends
    (files others : list (string * list (string * row)))
    (name : string) (rows : list (string * row)) :
  parse_directory (files ++ others)
  = match parse_directory files with
    | Parsed valid_flights errors =>
        match parse_directory others with
        | Parsed other_flights other_errors =>
            Parsed (valid_flights ++ other_flights)%list (errors ++ other_errors)%list
        | ParsingFailed cause => ParsingFailed cause
        end
    | ParsingFailed cause => ParsingFailed cause
    end
  ∧ parse_directory [(name, rows)]
    = match parse_file rows with
      | Parsed valid_flights errors =>
          Parsed valid_flights (insert "filename" (PStr name) <$> errors)
      | ParsingFailed cause => ParsingFailed cause
      end.
Proof.
  unfold parse_directory. split.
  - induction files as [|[name' rows'] files IH]; cbn [app parse_files].
    + by destruct (parse_files others [] []).
    + destruct (parse_file rows') as [valid_flights errors|cause]; [|done].
      rewrite parse_files_from, IH.
      rewrite (parse_files_from files ([] ++ valid_flights)%list).
      destruct (parse_files files [] []) as [v e|cause]; [|done].
      destruct (parse_files others [] []) as [v' e'|cause]; [|done].
      cbn [app]. by rewrite !app_assoc.
  - cbn [parse_files]. destruct (parse_file rows) as [valid_flights errors|cause]; [|done].
    reflexivity.
Qed.

Lemma parse_files_records files valid_flights errors :
  parse_files files [] [] = Parsed valid_flights errors →
  Forall is_accepted_flight valid_flights
  ∧ Forall (λ error, ∃ name rows record,
              (name, rows) ∈ files
              ∧ record_of_pair rows record
              ∧ error = <["filename" := PStr name]> record) errors.
Proof.
  revert valid_flights errors.
  induction files as [|[name rows] files IH]; intros valid_flights errors.
  - intros [= <- <-]. split; constructor.
  - cbn [parse_files]. destruct (parse_file rows) as [v e|cause] eqn:Hfile; [|done].
    rewrite parse_files_from.
    destruct (parse_files files [] []) as [v' e'|cause]; [|done].
    intros [= <- <-]. destruct (IH _ _ eq_refl) as [Hv He].
    apply parse_file_outcomes in Hfile as (outcomes & Ho & -> & ->).
    cbn [app]. split.
    + apply Forall_app. split; [by eapply outcomes_flights|done].
    + apply Forall_app. split.
      * apply Forall_fmap. eapply Forall_impl; [exact (outcomes_records_of_pairs _ _ Ho)|].
        intros record Hrecord. cbn.
        exists name, rows, record. split; [by left|]. by split.
      * eapply Forall_impl; [exact He|].
        intros error (n & rs & record & Hin & ?).
        exists n, rs, record. split; [by right|done].
Qed.

(** X17: every flight of a parsed directory is an accepted flight, and
    every error record is the record of a pair of one of the files of the
    directory (the number and the stripped text of the raw line of the
    pair, the reason of the pair) with the name of that file added under
    the key [filename]. *)
Theorem directory_records_name_their_file
    (files : list (string * list (string * row)))
    (valid_flights : list pyval) (errors : list (gmap string pyval)) :
  parse_directory files = Parsed valid_flights errors →
  Forall is_accepted_flight valid_flights
  ∧ Forall (λ error, ∃ name rows record,
              (name, rows) ∈ files
              ∧ record_of_pair rows record
              ∧ error = <["filename" := PStr name]> record) errors.
Proof. apply parse_files_records. Qed.

Lemma directory_records_name_their_file_witness :
  ∃ valid_flights errors,
    parse_directory [("a.csv", sample_lines); ("b.csv", sample_lines)]
    = Parsed valid_flights errors
    ∧ Forall is_accepted_flight valid_flights
    ∧ Forall (λ error, ∃ name rows record,
                (name, rows) ∈ [("a.csv", sample_lines); ("b.csv", sample_lines)]
                ∧ record_of_pair rows record
                ∧ error = <["filename" := PStr name]> record) errors.
Proof.
  eexists _, _. split; [vm_compute; reflexivity|].
  apply (directory_records_name_their_file
           [("a.csv", sample_lines); ("b.csv", sample_lines)]).
  vm_compute. reflexivity.
Defined.

End Directory.

Section Pipeline.
Import FlightValidator CSVParser CSVParserFiles QueryEngine.

(** ** Queries on the flights of a parsed file *)

Lemma accepted_flight_excluded flight (q : gmap string pyval) :
  is_accepted_flight flight →
  string_or_absent q "departure_datetime" →
  string_or_absent q "arrival_datetime" →
  is_Some (q !! "departure_datetime") ∨ is_Some (q !! "arrival_datetime") →
  _flight_matches_query flight (PDict q) = Ret false.
Proof.
  intros (fid & o & d & dep & arr & price & -> & Ha) Hqd Hqa Hkey.
  destruct (accepted_times _ _ _ _ _ _ Ha) as (departs & arrives & Hd & Harr & _).
  unfold typed_flight.
  apply datetime_query_excludes_stored_record with dep arr; done.
Qed.

Lemma filter_result_none {A} (test : A → result bool) (l : list A) :
  Forall (λ x, test x = Ret false) l → filter_result test l = Ret [].
Proof.
  induction 1 as [|x l Hx _ IH]; [done|].
  cbn [filter_result]. rewrite Hx, IH. by monad_step.
Qed.

(** X18: the flights of a parsed file keep their datetimes in the storage
    format, which the query format never parses: a query with a datetime
    key, its datetime values being strings, selects none of them, whatever
    its other keys. *)
Theorem datetime_query_selects_no_parsed_flight
    (rows : list (string * row)) (valid_flights : list pyval)
    (errors : list (gmap string pyval)) (q : gmap string pyval) :
  parse_file rows = Parsed valid_flights errors →
  string_or_absent q "departure_datetime" →
  string_or_absent q "arrival_datetime" →
  is_Some (q !! "departure_datetime") ∨ is_Some (q !! "arrival_datetime") →
  execute_query valid_flights (PDict q) = Ret [].
Proof.
  intros (outcomes & Ho & -> & ->)%parse_file_outcomes Hqd Hqa Hkey.
  rewrite execute_query_spec. apply filter_result_none.
  eapply Forall_impl; [exact (outcomes_flights _ _ _ Ho)|].
  intros flight Hf. by apply accepted_flight_excluded.
Qed.

Lemma datetime_query_selects_no_parsed_flight_witness :
  execute_query [sample_flight]
    (PDict (<["departure_datetime" := PStr "01/15/2025 10:00"]> ∅)) = Ret [].
Proof.
  apply (datetime_query_selects_no_parsed_flight sample_lines [sample_flight]
           (errors_of [Reported (error_record 3 "# a comment" comment_reason);
                       Reported (error_record 5
                                   "CD34,LHR,JFK,01/15/2025 10:00,01/15/2025 18:00"
                                   "missing price field")])).
  - vm_compute. reflexivity.
  - vm_compute. exact I.
  - vm_compute. exact I.
  - left. vm_compute. by eexists.
Defined.

End Pipeline.

Section Thresholds.
Import QueryEngine.

(** ** Relaxing a threshold *)

Lemma SFltb_SFleb_trans p p' f :
  SFleb p p' = true → SFltb p' f = true → SFltb p f = true.
Proof.
  unfold SFleb, SFltb.
  destruct p as [sp|sp| |sp mp ep], p' as [sq|sq| |sq mq eq], f as [sf|sf| |sf mf ef];
    cbn [SFcompare]; try done;
    try (destruct sp; done); try (destruct sq; done); try (destruct sf; done);
    try (destruct sp, sq; done); try (destruct sq, sf; done); try (destruct sp, sf; done);
    try (destruct sp, sq, sf; done).
  change (PosDef.Pos.compare_cont Eq) with Pos.compare.
  destruct sp, sq, sf; try done;
    destruct (Z.compare_spec ep eq), (Z.compare_spec eq ef), (Z.compare_spec ep ef);
    try done; try lia; subst;
    destruct (Pos.compare_spec mp mq), (Pos.compare_spec mq mf),
      (Pos.compare_spec mp mf); cbn [CompOpp]; try done; lia.
Qed.

Ltac compare_field f a b c :=
  destruct (Z.compare_spec (f a) (f b)), (Z.compare_spec (f b) (f c)),
    (Z.compare_spec (f a) (f c)); try done; try lia.

Lemma dt_lt_le_trans a b c : dt_lt a b = true → dt_le b c = true → dt_lt a c = true.
Proof.
  unfold dt_le, dt_gt, dt_lt, dt_compare.
  compare_field year a b c. compare_field month a b c. compare_field day a b c.
  compare_field hour a b c. compare_field minute a b c.
Qed.

Lemma dt_le_lt_trans a b c : dt_le a b = true → dt_lt b c = true → dt_lt a c = true.
Proof.
  unfold dt_le, dt_gt, dt_lt, dt_compare.
  compare_field year a b c. compare_field month a b c. compare_field day a b c.
  compare_field hour a b c. compare_field minute a b c.
Qed.

Lemma dt_gt_lt a b : dt_gt a b = dt_lt b a.
Proof. unfold dt_gt, dt_lt. rewrite (dt_compare_antisym a b). by destruct (dt_compare a b). Qed.

Lemma departure_criterion_key flight (q q' : gmap string pyval) :
  q !! "departure_datetime" = q' !! "departure_datetime" →
  departure_criterion flight (PDict q) = departure_criterion flight (PDict q').
Proof.
  intros H. unfold departure_criterion. rewrite !contains_dict. unfold py_getitem.
  by rewrite H.
Qed.

Lemma arrival_criterion_key flight (q q' : gmap string pyval) :
  q !! "arrival_datetime" = q' !! "arrival_datetime" →
  arrival_criterion flight (PDict q) = arrival_criterion flight (PDict q').
Proof.
  intros H. unfold arrival_criterion. rewrite !contains_dict. unfold py_getitem.
  by rewrite H.
Qed.

Lemma price_criterion_key flight (q q' : gmap string pyval) :
  q !! "price" = q' !! "price" →
  price_criterion flight (PDict q) = price_criterion flight (PDict q').
Proof.
  intros H. unfold price_criterion. rewrite !contains_dict. unfold py_getitem.
  by rewrite H.
Qed.

Lemma getitem_insert (q : gmap string pyval) key v :
  py_getitem (PDict (<[key := v]> q)) key = Ret v.
Proof. unfold py_getitem. by rewrite lookup_insert_eq. Qed.

Lemma departure_criterion_relaxed flight (q : gmap string pyval) v v' t t' :
  strptime v datetime_format = Ret t →
  strptime v' datetime_format = Ret t' →
  dt_le t' t = true →
  departure_criterion flight (PDict (<["departure_datetime" := v]> q)) = Ret true →
  departure_criterion flight (PDict (<["departure_datetime" := v']> q)) = Ret true.
Proof.
  intros Hv Hv' Hle. unfold departure_criterion. rewrite !contains_dict.
  rewrite !bool_decide_eq_true_2 by (rewrite lookup_insert_eq; eauto).
  monad_step. rewrite !getitem_insert. monad_step.
  rewrite Hv, Hv'. monad_step.
  destruct (py_getitem flight "departure_datetime") as [fv|[]]; monad_step; try done.
  destruct (strptime fv datetime_format) as [ft|[]]; monad_step; try done.
  intros [= Hpass]. f_equal. apply negb_true_iff. apply negb_true_iff in Hpass.
  destruct (dt_lt ft t') eqn:Hlt; [|done].
  by rewrite (dt_lt_le_trans _ _ _ Hlt Hle) in Hpass.
Qed.

Lemma arrival_criterion_relaxed flight (q : gmap string pyval) v v' t t' :
  strptime v datetime_format = Ret t →
  strptime v' datetime_format = Ret t' →
  dt_le t t' = true →
  arrival_criterion flight (PDict (<["arrival_datetime" := v]> q)) = Ret true →
  arrival_criterion flight (PDict (<["arrival_datetime" := v']> q)) = Ret true.
Proof.
  intros Hv Hv' Hle. unfold arrival_criterion. rewrite !contains_dict.
  rewrite !bool_decide_eq_true_2 by (rewrite lookup_insert_eq; eauto).
  monad_step. rewrite !getitem_insert. monad_step.
  rewrite Hv, Hv'. monad_step.
  destruct (py_getitem flight "arrival_datetime") as [fv|[]]; monad_step; try done.
  destruct (strptime fv datetime_format) as [ft|[]]; monad_step; try done.
  intros [= Hpass]. f_equal. apply negb_true_iff. apply negb_true_iff in Hpass.
  rewrite dt_gt_lt in *.
  destruct (dt_lt t' ft) eqn:Hlt; [|done].
  by rewrite (dt_le_lt_trans _ _ _ Hle Hlt) in Hpass.
Qed.

Lemma price_criterion_relaxed flight (q : gmap string pyval) v v' p p' :
  py_float v = Ret p →
  py_float v' = Ret p' →
  SFleb p p' = true →
  price_criterion flight (PDict (<["price" := v]> q)) = Ret true →
  price_criterion flight (PDict (<["price" := v']> q)) = Ret true.
Proof.
  intros Hv Hv' Hle. unfold price_criterion. rewrite !contains_dict.
  rewrite !bool_decide_eq_true_2 by (rewrite lookup_insert_eq; eauto).
  monad_step. rewrite !getitem_insert. monad_step.
  rewrite Hv, Hv'. monad_step.
  destruct (py_getitem flight "price") as [fv|[]]; monad_step; try done.
  destruct (py_float fv) as [fp|[]]; monad_step; try done.
  intros [= Hpass]. f_equal. apply negb_true_iff. apply negb_true_iff in Hpass.
  destruct (SFltb p' fp) eqn:Hlt; [|done].
  by rewrite (SFltb_SFleb_trans _ _ _ Hle Hlt) in Hpass.
Qed.

Lemma matches_relaxed flight (q : gmap string pyval) key v v' :
  relaxes key v v' →
  _flight_matches_query flight (PDict (<[key := v]> q)) = Ret true →
  _flight_matches_query flight (PDict (<[key := v']> q)) = Ret true.
Proof.
  intros Hrel. unfold _flight_matches_query.
  intros (He & (Hd & (Ha & (Hp & _)%and_then_true)%and_then_true)%and_then_true)
    %and_then_true.
  assert (exact_match_loop exact_match_fields flight (PDict (<[key := v']> q)) = Ret true)
    as ->.
  { rewrite <- He. apply exact_match_loop_same_keys. intros k Hk.
    assert (key ≠ k).
    { intros <-. unfold exact_match_fields in Hk.
      destruct Hrel as [[-> _]|[[-> _]|[-> _]]]; set_solver. }
    by rewrite !lookup_insert_ne. }
  destruct Hrel as [[-> (t & t' & Hv & Hv' & Hle)]
                   |[[-> (t & t' & Hv & Hv' & Hle)]|[-> (p & p' & Hv & Hv' & Hle)]]].
  - rewrite (departure_criterion_relaxed _ _ _ _ _ _ Hv Hv' Hle Hd).
    rewrite <- (arrival_criterion_key flight (<["departure_datetime" := v]> q)),
      <- (price_criterion_key flight (<["departure_datetime" := v]> q))
      by (by rewrite !lookup_insert_ne).
    by rewrite Ha, Hp.
  - rewrite (arrival_criterion_relaxed _ _ _ _ _ _ Hv Hv' Hle Ha).
    rewrite <- (departure_criterion_key flight (<["arrival_datetime" := v]> q)),
      <- (price_criterion_key flight (<["arrival_datetime" := v]> q))
      by (by rewrite !lookup_insert_ne).
    by rewrite Hd, Hp.
  - rewrite (price_criterion_relaxed _ _ _ _ _ _ Hv Hv' Hle Hp).
    rewrite <- (departure_criterion_key flight (<["price" := v]> q)),
      <- (arrival_criterion_key flight (<["price" := v]> q))
      by (by rewrite !lookup_insert_ne).
    by rewrite Hd, Ha.
Qed.

Lemma execute_sublist flights query query' selected selected' :
  (∀ flight, _flight_matches_query flight query = Ret true →
             _flight_matches_query flight query' = Ret true) →
  execute_query flights query = Ret selected →
  execute_query flights query' = Ret selected' →
  selected `sublist_of` selected'.
Proof.
  intros Himpl. rewrite !execute_query_spec. intros H H'.
  pose proof (filter_result_inv _ _ _ H) as Hall.
  pose proof (filter_result_inv _ _ _ H') as Hall'.
  rewrite (filter_result_returns _ _ Hall) in H.
  rewrite (filter_result_returns _ _ Hall') in H'.
  injection H as <-. injection H' as <-.
  apply filter_sublist_impl. intros flight _ Ht.
  unfold returns_true in *.
  destruct (_flight_matches_query flight query) as [[]|] eqn:Hm; try done.
  by rewrite (Himpl _ Hm).
Qed.

(** X19: relaxing a threshold of a query keeps every match: with an
    earlier departure threshold, a later arrival threshold or a higher
    price limit in the place of the one of the query, a record that matched
    still matches, and what [execute] returned is a sublist of what it
    returns now. *)
Theorem relaxed_threshold_keeps_matches
    (flights : list pyval) (q : gmap string pyval) (key : string) (v v' : pyval) :
  relaxes key v v' →
  (∀ flight, _flight_matches_query flight (PDict (<[key := v]> q)) = Ret true →
             _flight_matches_query flight (PDict (<[key := v']> q)) = Ret true)
  ∧ (∀ selected selected',
       execute_query flights (PDict (<[key := v]> q)) = Ret selected →
       execute_query flights (PDict (<[key := v']> q)) = Ret selected' →
       selected `sublist_of` selected').
Proof.
  intros Hrel. split; [intros flight; by apply matches_relaxed|].
  intros selected selected'. apply execute_sublist.
  intros flight. by apply matches_relaxed.
Qed.

Lemma relaxed_threshold_keeps_matches_witness :
  _flight_matches_query sample_flight
    (PDict (<["price" := PStr "1e3"]> query_origin_price)) = Ret true.
Proof.
  apply (proj1 (relaxed_threshold_keeps_matches [] query_origin_price "price"
                  (PInt 500) (PStr "1e3") ltac:(right; right; split; [reflexivity|];
                    eexists _, _; repeat split; vm_compute; reflexivity))).
  vm_compute. reflexivity.
Defined.

End Thresholds.

Section Verdict.
Import FlightValidator CSVParser.

(** ** The verdict and the reasons *)

Lemma missing_reasons_length raw : (List.length (missing_reasons raw) ≤ 6)%nat.
Proof.
  unfold missing_reasons. rewrite length_fmap.
  etrans; [apply length_filter|]. reflexivity.
Qed.

Lemma accumulated_reasons_length fid o d dep arr p :
  (List.length (accumulated_reasons fid o d dep arr p) ≤ 6)%nat.
Proof.
  unfold accumulated_reasons, flight_id_reasons, origin_reasons, destination_reasons,
    departure_reasons, arrival_reasons, ordering_reasons, price_reasons.
  destruct (negb (flight_id_shape fid)), (negb (airport_rule o)),
    (negb (airport_rule d)),
    (strptime_string dep storage_format) as [dd|],
    (strptime_string arr storage_format) as [ad|],
    (float_of_string p) as [price|];
    try destruct (dt_le ad dd); try destruct (SFleb price float_zero);
    cbn; lia.
Qed.

(** X20: validation returns a verdict on every row, no exception leaves
    it; the verdict is true exactly when the list of reasons is empty, and
    a row has at most six reasons. *)
Theorem verdict_true_iff_no_reasons (raw : gmap string string) :
  ∃ ok reasons,
    validate_flight raw = Ret (ok, reasons)
    ∧ (ok = true ↔ reasons = [])
    ∧ (List.length reasons ≤ 6)%nat.
Proof.
  destruct (decide (missing_reasons raw = [])) as [Hnil|Hne].
  - destruct (not_missing_complete _ Hnil) as (fid & o & d & dep & arr & p & Hc).
    eexists _, _. split; [apply (validate_flight_complete _ _ _ _ _ _ _ Hc)|].
    split; [apply bool_decide_eq_true | apply accumulated_reasons_length].
  - eexists _, _. split; [apply (validate_flight_incomplete _ Hne)|].
    split; [done | apply missing_reasons_length].
Qed.

End Verdict.
